(** * Variable resolution and template materialization of the draft CLI

    A shallow embedding of the Go sources
    - [pkg/osutil/osutil.go]            (CopyDir, CopyDirToFileMap, handleTemplateReplacement),
    - [pkg/prompts]                     (RunPromptsFromConfigWithSkipsIO, GetVariableDefaultValue),
    - [pkg/validations/verifications.go] (Validate),
    - [pkg/workflows/workflowconfig.go] (SetFlagValuesToMap, BuildMap),
    - [cmd/generate-workflow.go]        (createFlagMap, generateWorkflows),
    followed by the properties established about them.

    Conventions.  A Go [string] / [[]byte] is a [string] (a sequence of
    bytes).  A Go [error] is an [option string]: [None] is [nil], [Some msg]
    is an error whose text is [msg].  A Go [map[string]string] that is
    looked up and assigned is a [gmap string string]; a map that is only
    ranged over is given by the sequence of its entries in the order in
    which the [range] statement visits them. *)

From Stdlib Require Import String Ascii List Bool Arith Lia.
From stdpp Require Import base option gmap strings list sorting.

Open Scope string_scope.

(** ** Go runtime: errors, strings *)

Definition error := option string.

Definition nil_error : error := None.

(** [fmt.Errorf] / [errors.New] with the message already formatted. *)
Definition Errorf (msg : string) : error := Some msg.

Module strings.

(** [strings.HasPrefix(s, p)]. *)
Definition HasPrefix (s p : string) : bool := String.prefix p s.

(** [s[n:]] for [n <= len(s)]. *)
Fixpoint drop (n : nat) (s : string) : string :=
  match n, s with
  | O, _ => s
  | S n', String _ s' => drop n' s'
  | S _, EmptyString => EmptyString
  end.

(** [strings.Contains(s, substr)]. *)
Fixpoint Contains (s substr : string) : bool :=
  HasPrefix s substr ||
  match s with
  | EmptyString => false
  | String _ s' => Contains s' substr
  end.

(** The scanning loop of [strings.ReplaceAll] for a non-empty [old]:
    [skip] bytes of a match found earlier are still to be stepped over. *)
Fixpoint replace_from (skip : nat) (s old new : string) : string :=
  match s with
  | EmptyString => EmptyString
  | String c s' =>
      match skip with
      | S k => replace_from k s' old new
      | O =>
          if HasPrefix s old
          then new +:+ replace_from (String.length old - 1) s' old new
          else String c (replace_from 0 s' old new)
      end
  end.

(** [strings.ReplaceAll(s, old, new)]: the non-overlapping occurrences of
    [old], found left to right, are replaced by [new].  The callers
    modelled here always pass an [old] of at least four bytes; for an
    empty [old] Go inserts [new] around every rune, which is not
    modelled. *)
Definition ReplaceAll (s old new : string) : string :=
  replace_from 0 s old new.

(** [strings.Cut(s, sep)]: [(before, after, found)] around the first
    occurrence of [sep]. *)
Fixpoint Cut (s sep : string) : string * string * bool :=
  if HasPrefix s sep then (EmptyString, drop (String.length sep) s, true)
  else
    match s with
    | EmptyString => (EmptyString, EmptyString, false)
    | String c s' =>
        match Cut s' sep with
        | (before, after, true) => (String c before, after, true)
        | (_, _, false) => (s, EmptyString, false)
        end
    end.

End strings.

(** ** Package config *)

Module config.

(** The fields of [config.BuilderVar] that the modelled code reads. *)
Module BuilderVar.
Record t := mk {
  Name : string;
  Description : string;
  VarType : string;
  ValidateType : string
}.
End BuilderVar.

Module BuilderVarDefault.
Record t := mk {
  Name : string;
  Value : string;
  ReferenceVar : string;
  IsPromptDisabled : bool
}.
End BuilderVarDefault.

Module FileNameOverride.
Record t := mk {
  Path : string;
  Prefix : string
}.
End FileNameOverride.

Record DraftConfig := mkDraftConfig {
  Variables : list BuilderVar.t;
  VariableDefaults : list BuilderVarDefault.t;
  FileNameOverrides : list FileNameOverride.t
}.

(** Modelled from the spec: [DraftConfig.GetNameOverride] is not part of
    the sources at hand.  A name-override rule maps an original file name
    to a prefix to prepend; it is looked up per file and absence means no
    renaming (the empty prefix). *)
Fixpoint lookupOverride (rules : list FileNameOverride.t) (fileName : string) : string :=
  match rules with
  | [] => ""
  | r :: rest =>
      if String.eqb (FileNameOverride.Path r) fileName
      then FileNameOverride.Prefix r
      else lookupOverride rest fileName
  end.

Definition GetNameOverride (d : DraftConfig) (fileName : string) : string :=
  lookupOverride (FileNameOverrides d) fileName.

End config.

(** ** Package validations *)

Module validations.

(** What the registry validator observes of its environment (the Azure
    CLI, package [providers] and [os/exec]). *)
Record AzureCli := mkAzureCli {
  IsLoggedInToAz : bool;
  LogInToAz : error;
  acrShow : string -> error
}.

Definition is_lower_alnum (c : ascii) : bool :=
  let n := nat_of_ascii c in
  (Nat.leb 97 n && Nat.leb n 122) || (Nat.leb 48 n && Nat.leb n 57).

Fixpoint all_chars (p : ascii -> bool) (s : string) : bool :=
  match s with
  | EmptyString => true
  | String c s' => p c && all_chars p s'
  end.

(** [regexp.MatchString(`^[a-z0-9]{5,50}$`, value)]. *)
Definition matchRegistryName (value : string) : bool :=
  all_chars is_lower_alnum value
  && Nat.leb 5 (String.length value) && Nat.leb (String.length value) 50.

(** [providers.CheckAzCliInstalled()], called first, returns no value; the
    function below is what follows once it has returned. *)
Definition validateAzureContainerRegistry (az : AzureCli) (value : string) : error :=
  match (if IsLoggedInToAz az then None else LogInToAz az) with
  | Some err => Errorf ("failed to log in to Azure CLI: " +:+ err)
  | None =>
      if negb (matchRegistryName value)
      then Errorf ("registry name '" +:+ value
                   +:+ "' does not meet Azure Container Registry naming requirements")
      else
        match acrShow az value with
        | Some err =>
            Errorf ("failed to find Azure Container Registry " +:+ value +:+ ": " +:+ err)
        | None => nil_error
        end
  end.

Definition validateAzureClusterName (value : string) : error := nil_error.
Definition validateAzureResourceGroup (value : string) : error := nil_error.
Definition validateContainerName (value : string) : error := nil_error.
Definition validateDir (value : string) : error := nil_error.
Definition validateGitHubBranch (value : string) : error := nil_error.

(** The [switch] of [Validate]: the first matching [case] returns; when
    none matches the function logs and returns [nil]. *)
Definition Validate (az : AzureCli) (name : string)
    (variable : config.BuilderVar.t) (value : string) : error :=
  let ty := config.BuilderVar.ValidateType variable in
  if String.eqb ty "azContainerRegistry" then validateAzureContainerRegistry az value
  else if String.eqb ty "azClusterName" then validateAzureClusterName value
  else if String.eqb ty "azResourceGroup" then validateAzureResourceGroup value
  else if String.eqb ty "containerName" then validateContainerName value
  else if String.eqb ty "dir" then validateDir value
  else if String.eqb ty "ghBranch" then validateGitHubBranch value
  else nil_error.

Definition knownRules : list string :=
  ["azContainerRegistry"; "azClusterName"; "azResourceGroup";
   "containerName"; "dir"; "ghBranch"].

End validations.

(** ** Package os (the operating system)

    The four functions of package [os] that [osutil] calls, as an
    interface: what they do is the operating system's business, and the
    functions of [osutil] are written below for any implementation. *)

Module os.

(** The result of [os.Stat(path)]: the file info (of which the code reads
    [IsDir()] only) when [err == nil], or an error that is
    [os.IsNotExist] or not. *)
Inductive stat :=
| Info (isDir : bool)
| NotExist (err : string)
| Failed (err : string).

Class FileSystem (F : Type) := {
  Stat : string -> F -> stat;
  MkdirAll : string -> N -> F -> F * error;
  Create : string -> F -> F * error;
  WriteFile : string -> string -> N -> F -> F * error
}.

End os.

(** ** Package osutil *)

Module osutil.

(** *** The template file system ([fs.FS])

    A node of the source tree.  [Broken] is a node on which the read that
    [CopyDir] attempts ([fs.ReadDir] for a directory, [fs.ReadFile] for a
    file) fails with [err]. *)
#[local] Unset Elimination Schemes.
Inductive entry :=
| File (name : string) (data : string)
| Dir (name : string) (children : list entry)
| Broken (name : string) (isDir : bool) (err : string).
#[local] Set Elimination Schemes.

Definition Name (f : entry) : string :=
  match f with
  | File n _ | Dir n _ | Broken n _ _ => n
  end.

Definition IsDir (f : entry) : bool :=
  match f with
  | File _ _ => false
  | Dir _ _ => true
  | Broken _ d _ => d
  end.

(** [fs.ReadFile(fileSys, srcPath)] on the node at [srcPath]. *)
Definition ReadFile (f : entry) : string * error :=
  match f with
  | File _ data => (data, nil_error)
  | Dir _ _ => ("", Errorf "is a directory")
  | Broken _ _ err => ("", Some err)
  end.

(** *** Template writers *)

Class TemplateWriter (W : Type) := {
  WriteFile : string -> string -> N -> W -> W * error;
  EnsureDirectory : string -> W -> W * error
}.

(** [osutil.EnsureDirectory] (the function; the method of the interface
    has the name in this module).  A [Stat] error of any kind leads to
    [os.MkdirAll(dir, 0755)]. *)
Definition ensureDirectory {F : Type} `{os.FileSystem F} (dir : string) (fsys : F)
    : F * error :=
  match os.Stat dir fsys with
  | os.Info isDir =>
      if negb isDir
      then (fsys, Errorf (dir +:+ " must be a directory"))
      else (fsys, nil_error)
  | os.NotExist _ | os.Failed _ =>
      match os.MkdirAll dir 493%N fsys with
      | (fsys', Some err) => (fsys', Errorf ("could not create " +:+ dir +:+ ": " +:+ err))
      | (fsys', None) => (fsys', nil_error)
      end
  end.

(** [LocalFSWriter]: the writer whose state is the file system. *)
#[global] Instance LocalFSWriter {F : Type} `{os.FileSystem F} : TemplateWriter F := {
  WriteFile path data mode fsys := os.WriteFile path data mode fsys;
  EnsureDirectory path fsys := ensureDirectory path fsys
}.

(** A disk for the examples.  It is one file system among those the
    functions are written for, and a plain one: every path is a name of
    its own, naming a regular file with its content or a directory; a
    directory can be made wherever there is no file; a file can be written
    wherever there is no directory.  It knows no parent directories, no
    permissions and no failure of [Stat] other than a missing path. *)
Record LocalFS := mkLocalFS {
  files : gmap string string;
  dirs : gset string
}.

#[global] Instance localDisk : os.FileSystem LocalFS := {
  os.Stat path fsys :=
    if decide (path ∈ dirs fsys) then os.Info true
    else match files fsys !! path with
         | Some _ => os.Info false
         | None => os.NotExist ("stat " +:+ path +:+ ": no such file or directory")
         end;
  os.MkdirAll path perm fsys :=
    match files fsys !! path with
    | Some _ => (fsys, Errorf ("mkdir " +:+ path +:+ ": not a directory"))
    | None => (mkLocalFS (files fsys) ({[path]} ∪ dirs fsys), nil_error)
    end;
  os.Create path fsys :=
    if decide (path ∈ dirs fsys)
    then (fsys, Errorf ("open " +:+ path +:+ ": is a directory"))
    else (mkLocalFS (<[path := ""]> (files fsys)) (dirs fsys), nil_error);
  os.WriteFile path data mode fsys :=
    if decide (path ∈ dirs fsys)
    then (fsys, Errorf ("open " +:+ path +:+ ": is a directory"))
    else (mkLocalFS (<[path := data]> (files fsys)) (dirs fsys), nil_error)
}.

(** A writer that, in front of any other writer, keeps the sequence of
    calls it receives. *)
Inductive call :=
| WriteFileCall (path data : string) (mode : N)
| EnsureDirectoryCall (path : string).

#[global] Instance TracedWriter {W} `{TemplateWriter W} : TemplateWriter (list call * W) := {
  WriteFile path data mode tw :=
    let '(tw', err) := WriteFile path data mode (snd tw) in
    (((fst tw ++ [WriteFileCall path data mode])%list, tw'), err);
  EnsureDirectory path tw :=
    let '(tw', err) := EnsureDirectory path (snd tw) in
    (((fst tw ++ [EnsureDirectoryCall path])%list, tw'), err)
}.

(** *** Template replacement *)

Definition marker (name : string) : string := "{{" +:+ name +:+ "}}".

(** The loop [for oldString, newString := range customInputs] of
    [handleTemplateReplacement]; [customInputs] lists the entries of the
    map in the order in which this [range] visits them. *)
Fixpoint replaceEach (customInputs : list (string * string)) (fileString : string) : string :=
  match customInputs with
  | [] => fileString
  | (oldString, newString) :: rest =>
      replaceEach rest (strings.ReplaceAll fileString (marker oldString) newString)
  end.

Definition handleTemplateReplacement (srcFile : entry)
    (customInputs : list (string * string)) : string * error :=
  match ReadFile srcFile with
  | (_, Some err) => ("", Some err)
  | (file, None) => (replaceEach customInputs file, nil_error)
  end.

Definition checkNameOverrides (fileName : string) (cfg : option config.DraftConfig) : string :=
  match cfg with
  | None => fileName
  | Some c =>
      let prefix := config.GetNameOverride c fileName in
      if String.eqb prefix "" then fileName else prefix +:+ fileName
  end.

Definition reserved : string := "draft.yaml".

(** *** CopyDir *)

Section CopyDir.
Context {W : Type} `{TemplateWriter W}.
Variable cfg : option config.DraftConfig.
Variable customInputs : list (string * string).

Section Loop.
(** The recursive call [CopyDir(fileSys, srcPath, destPath, ...)]. *)
Variable recurse : entry -> string -> W -> W * error.
Variable dest : string.

(** The [for _, f := range files] loop of [CopyDir]. *)
Fixpoint copyEntries (fs : list entry) (tw : W) : W * error :=
  match fs with
  | [] => (tw, nil_error)
  | f :: rest =>
      if String.eqb (Name f) reserved then copyEntries rest tw
      else
        let destPath := dest +:+ "/" +:+ Name f in
        if IsDir f then
          match EnsureDirectory destPath tw with
          | (tw1, Some err) => (tw1, Some err)
          | (tw1, None) =>
              match recurse f destPath tw1 with
              | (tw2, Some err) => (tw2, Some err)
              | (tw2, None) => copyEntries rest tw2
              end
          end
        else
          match handleTemplateReplacement f customInputs with
          | (_, Some err) => (tw, Some err)
          | (fileString, None) =>
              let fileName := checkNameOverrides (Name f) cfg in
              match WriteFile (dest +:+ "/" +:+ fileName) fileString 420%N tw with
              | (tw1, Some err) => (tw1, Some err)
              | (tw1, None) => copyEntries rest tw1
              end
          end
  end.
End Loop.

(** [CopyDir(fileSys, src, dest, config, customInputs, templateWriter)];
    [src] is the node of [fileSys] at the path [src]. *)
Fixpoint CopyDir (src : entry) (dest : string) (tw : W) {struct src} : W * error :=
  match src with
  | File _ _ => (tw, Errorf "not a directory")
  | Broken _ _ err => (tw, Some err)
  | Dir _ fs => copyEntries (fun f d t => CopyDir f d t) dest fs tw
  end.
End CopyDir.

(** *** CopyDirToFileMap *)

Section CopyDirToFileMap.
Variable cfg : option config.DraftConfig.
Variable customInputs : list (string * string).

Section Loop.
Variable recurse : entry -> string -> option (gmap string string) * error.
Variable dest : string.

(** The loop of [CopyDirToFileMap]; [fileMap] is the map built so
    far.  For a directory the result of the recursive call is
    assigned to [fileMap]. *)
Fixpoint collectEntries (fs : list entry) (fileMap : gmap string string)
    : option (gmap string string) * error :=
  match fs with
  | [] => (Some fileMap, nil_error)
  | f :: rest =>
      if String.eqb (Name f) reserved then collectEntries rest fileMap
      else
        let destPath := dest +:+ "/" +:+ Name f in
        if IsDir f then
          match recurse f destPath with
          | (_, Some err) => (None, Some err)
          | (None, None) => (None, nil_error)
          | (Some fileMap', None) => collectEntries rest fileMap'
          end
        else
          match handleTemplateReplacement f customInputs with
          | (_, Some err) => (None, Some err)
          | (fileString, None) =>
              let fileName := checkNameOverrides (Name f) cfg in
              collectEntries rest (<[dest +:+ "/" +:+ fileName := fileString]> fileMap)
          end
  end.
End Loop.

Fixpoint CopyDirToFileMap (src : entry) (dest : string) {struct src}
    : option (gmap string string) * error :=
  match src with
  | File _ _ => (None, Errorf "not a directory")
  | Broken _ _ err => (None, Some err)
  | Dir _ fs => collectEntries (fun f d => CopyDirToFileMap f d) dest fs ∅
  end.
End CopyDirToFileMap.

(** *** Other helpers of the package *)

(** [osutil.EnsureFile].  A [Stat] error of any kind leads to
    [os.Create(file)]; the file it returns is only closed. *)
Definition EnsureFile {F : Type} `{os.FileSystem F} (file : string) (fsys : F)
    : F * error :=
  match os.Stat file fsys with
  | os.Info isDir =>
      if isDir
      then (fsys, Errorf (file +:+ " must not be a directory"))
      else (fsys, nil_error)
  | os.NotExist _ | os.Failed _ =>
      match os.Create file fsys with
      | (fsys', Some err) => (fsys', Errorf ("could not create " +:+ file +:+ ": " +:+ err))
      | (fsys', None) => (fsys', nil_error)
      end
  end.

(** [osutil.Exists]. *)
Definition Exists {F : Type} `{os.FileSystem F} (path : string) (fsys : F)
    : bool * error :=
  match os.Stat path fsys with
  | os.Info _ => (true, nil_error)
  | os.NotExist _ => (false, nil_error)
  | os.Failed err => (true, Some err)
  end.

(** A writer that accepts every call and keeps nothing. *)
#[global] Instance NullWriter : TemplateWriter unit := {
  WriteFile _ _ _ w := (w, nil_error);
  EnsureDirectory _ w := (w, nil_error)
}.

End osutil.

(** ** Package promptui (the interactive terminal)

    The prompt library is outside the sources; it is modelled as the
    capability the code relies on: a prompt shows its label and hands back
    what the user answers.  The user is the sequence of answers still to
    come on standard input. *)

Module promptui.

Inductive answer :=
| Interrupt (err : string)     (* the prompt is aborted, [Run] returns [err] *)
| Choose (i : nat)             (* the [i]-th item of a selection is picked *)
| Enter (s : string).          (* the line [s] is typed *)

Record terminal := mkTerminal {
  stdin : list answer;
  stdout : list string         (* the labels shown so far, oldest first *)
}.

(** [Select.Run]: answers that do not pick an item are passed over. *)
Fixpoint awaitChoice (items : list string) (keys : list answer)
    : list answer * (string * error) :=
  match keys with
  | [] => ([], ("", Errorf "EOF"))
  | Interrupt err :: rest => (rest, ("", Some err))
  | Choose i :: rest =>
      match items !! i with
      | Some item => (rest, (item, nil_error))
      | None => awaitChoice items rest
      end
  | Enter _ :: rest => awaitChoice items rest
  end.

Definition SelectRun (label : string) (items : list string) (t : terminal)
    : terminal * (string * error) :=
  let '(rest, r) := awaitChoice items (stdin t) in
  (mkTerminal rest (stdout t ++ [label])%list, r).

(** [Prompt.Run]: a line that the validator rejects is not accepted and
    the prompt goes on reading; [validate = None] is a nil [Validate]. *)
Fixpoint awaitLine (validate : option (string -> error)) (keys : list answer)
    : list answer * (string * error) :=
  match keys with
  | [] => ([], ("", Errorf "EOF"))
  | Interrupt err :: rest => (rest, ("", Some err))
  | Choose _ :: rest => awaitLine validate rest
  | Enter s :: rest =>
      match validate with
      | None => (rest, (s, nil_error))
      | Some v =>
          match v s with
          | None => (rest, (s, nil_error))
          | Some _ => awaitLine validate rest
          end
      end
  end.

Definition PromptRun (label : string) (validate : option (string -> error))
    (t : terminal) : terminal * (string * error) :=
  let '(rest, r) := awaitLine validate (stdin t) in
  (mkTerminal rest (stdout t ++ [label])%list, r).

End promptui.

(** ** Package workflows *)

Module workflows.

Record WorkflowConfig := mkWorkflowConfig {
  AcrName : string;
  AcrResourceGroupName : string;
  AksClusterName : string;
  BranchName : string;
  BuildContextPath : string;
  ChartPath : string;
  ChartOverridePath : string;
  ClusterResourceGroupName : string;
  ContainerName : string
}.

(** [if value != "" { flagValuesMap[key] = value }]. *)
Definition setIfNotEmpty (key value : string) (m : gmap string string)
    : gmap string string :=
  if String.eqb value "" then m else <[key := value]> m.

Definition SetFlagValuesToMap (c : WorkflowConfig) : gmap string string :=
  let flagValuesMap : gmap string string := ∅ in
  let flagValuesMap := setIfNotEmpty "AZURECONTAINERREGISTRY" (AcrName c) flagValuesMap in
  let flagValuesMap := setIfNotEmpty "RESOURCEGROUP" (AcrResourceGroupName c) flagValuesMap in
  let flagValuesMap := setIfNotEmpty "CLUSTERNAME" (AksClusterName c) flagValuesMap in
  let flagValuesMap := setIfNotEmpty "BRANCHNAME" (BranchName c) flagValuesMap in
  let flagValuesMap := setIfNotEmpty "BUILDCONTEXTPATH" (BuildContextPath c) flagValuesMap in
  let flagValuesMap := setIfNotEmpty "CHARTPATH" (ChartPath c) flagValuesMap in
  let flagValuesMap := setIfNotEmpty "CHARTOVERRIDEPATH" (ChartOverridePath c) flagValuesMap in
  let flagValuesMap :=
    setIfNotEmpty "CLUSTERRESOURCEGROUP" (ClusterResourceGroupName c) flagValuesMap in
  let flagValuesMap := setIfNotEmpty "CONTAINERNAME" (ContainerName c) flagValuesMap in
  flagValuesMap.

Module EnvVar.
Record t := mk {
  Name : string;
  Description : string;
  DisablePrompt : bool;
  Value : string;
  Type_ : string
}.
End EnvVar.

Record HelmEnv := mkHelmEnv {
  HelmChartPath : EnvVar.t;
  HelmChartOverridePath : EnvVar.t;
  HelmChartOverrides : EnvVar.t
}.

Record ManifestEnv := mkManifestEnv { DeploymentManifestPath : EnvVar.t }.

Record KustomizeEnv := mkKustomizeEnv { KustomizePath : EnvVar.t }.

Record WorkflowEnv := mkWorkflowEnv {
  EnvAcrResourceGroup : EnvVar.t;
  EnvAzureContainerRegistry : EnvVar.t;
  EnvBranchName : EnvVar.t;
  EnvBuildContextPath : EnvVar.t;
  EnvClusterName : EnvVar.t;
  EnvClusterResourceGroup : EnvVar.t;
  EnvContainerName : EnvVar.t;
  EnvPrivateCluster : EnvVar.t;
  HelmEnvStruct : HelmEnv;
  KustomizeEnvStruct : KustomizeEnv;
  ManifestEnvStruct : ManifestEnv
}.

(** The closure [checkForVal] of [BuildMap]. *)
Definition checkForVal (envVar : EnvVar.t) (envMap : gmap string string)
    : gmap string string :=
  if String.eqb (EnvVar.Value envVar) "" then envMap
  else <[EnvVar.Name envVar := EnvVar.Value envVar]> envMap.

Definition BuildMap (we : WorkflowEnv) : gmap string string :=
  let envMap : gmap string string := ∅ in
  let envMap := checkForVal (EnvAcrResourceGroup we) envMap in
  let envMap := checkForVal (EnvAzureContainerRegistry we) envMap in
  let envMap := checkForVal (EnvBranchName we) envMap in
  let envMap := checkForVal (EnvBuildContextPath we) envMap in
  let envMap := checkForVal (EnvClusterName we) envMap in
  let envMap := checkForVal (EnvClusterResourceGroup we) envMap in
  let envMap := checkForVal (EnvContainerName we) envMap in
  let envMap := checkForVal (HelmChartPath (HelmEnvStruct we)) envMap in
  let envMap := checkForVal (HelmChartOverridePath (HelmEnvStruct we)) envMap in
  let envMap := checkForVal (HelmChartOverrides (HelmEnvStruct we)) envMap in
  let envMap := checkForVal (KustomizePath (KustomizeEnvStruct we)) envMap in
  let envMap := checkForVal (DeploymentManifestPath (ManifestEnvStruct we)) envMap in
  envMap.

(** The three assignments [Name], [Description], [DisablePrompt] that
    [FillWorkflowEnv] makes on every variable; [Value] and [Type] stay. *)
Definition describe (name description : string) (disablePrompt : bool)
    (envVar : EnvVar.t) : EnvVar.t :=
  EnvVar.mk name description disablePrompt (EnvVar.Value envVar) (EnvVar.Type_ envVar).

(** [if envVar.Value == "" { envVar.Value = value }]. *)
Definition orDefault (value : string) (envVar : EnvVar.t) : EnvVar.t :=
  if String.eqb (EnvVar.Value envVar) ""
  then EnvVar.mk (EnvVar.Name envVar) (EnvVar.Description envVar)
         (EnvVar.DisablePrompt envVar) value (EnvVar.Type_ envVar)
  else envVar.

(** [envVar.Type = "bool"]. *)
Definition typedBool (envVar : EnvVar.t) : EnvVar.t :=
  EnvVar.mk (EnvVar.Name envVar) (EnvVar.Description envVar)
    (EnvVar.DisablePrompt envVar) (EnvVar.Value envVar) "bool".

(** [FillWorkflowEnv], of the [WorkflowEnv] that has a [PrivateCluster]. *)
Definition FillWorkflowEnv (we : WorkflowEnv) : WorkflowEnv :=
  mkWorkflowEnv
    (describe "ACR_RESOURCE_GROUP"
       "the Azure Resource Group of the Azure Container Registry" false
       (EnvAcrResourceGroup we))
    (describe "ACR_NAME" "the name of the Azure Container Registry" false
       (EnvAzureContainerRegistry we))
    (describe "BRANCH_NAME" "the name of the branch to deploy from" false
       (EnvBranchName we))
    (orDefault "."
       (describe "BUILD_CONTEXT_PATH" "the path to the Docker build context" false
          (EnvBuildContextPath we)))
    (describe "CLUSTER_NAME" "the name of the AKS cluster" false (EnvClusterName we))
    (describe "CLUSTER_RESOURCE_GROUP" "the Azure Resource Group of the AKS cluster" false
       (EnvClusterResourceGroup we))
    (describe "CONTAINER_NAME" "the name of the container image" false
       (EnvContainerName we))
    (typedBool
       (describe "PRIVATE_CLUSTER" "whether the AKS cluster is private or not" false
          (EnvPrivateCluster we)))
    (mkHelmEnv
       (orDefault "./charts"
          (describe "CHART_PATH" "the path to the Helm chart" true
             (HelmChartPath (HelmEnvStruct we))))
       (orDefault "./charts/production.yaml"
          (describe "CHART_OVERRIDE_PATH" "the path to the Helm chart overrides" true
             (HelmChartOverridePath (HelmEnvStruct we))))
       (orDefault "replicas:2"
          (describe "CHART_OVERRIDES" "the Helm chart overrides" true
             (HelmChartOverrides (HelmEnvStruct we)))))
    (mkKustomizeEnv
       (orDefault "./overlays/production"
          (describe "KUSTOMIZE_PATH" "the path to the Kustomize directory" true
             (KustomizePath (KustomizeEnvStruct we)))))
    (mkManifestEnv
       (orDefault "./manifests"
          (describe "DEPLOYMENT_MANIFEST_PATH" "the path to the deployment manifest" true
             (DeploymentManifestPath (ManifestEnvStruct we))))).

End workflows.

(** ** Package prompts *)

Module prompts.
Import config promptui.

(** [m[k]] on a Go map: the zero value when [k] is absent. *)
Definition get (m : gmap string string) (k : string) : string :=
  default "" (m !! k).

(** The loop of [GetVariableDefaultValue]; [defaultValue] is the local
    variable of that name. *)
Fixpoint defaultValueLoop (variableName : string)
    (variableDefaults : list BuilderVarDefault.t)
    (inputs : gmap string string) (defaultValue : string) : string :=
  match variableDefaults with
  | [] => defaultValue
  | variableDefault :: rest =>
      if String.eqb (BuilderVarDefault.Name variableDefault) variableName
      then
        let ref := BuilderVarDefault.ReferenceVar variableDefault in
        if negb (String.eqb ref "") && negb (String.eqb (get inputs ref) "")
        then defaultValueLoop variableName rest inputs (get inputs ref)
        else defaultValueLoop variableName rest inputs
               (BuilderVarDefault.Value variableDefault)
      else defaultValueLoop variableName rest inputs defaultValue
  end.

Definition GetVariableDefaultValue (variableName : string)
    (variableDefaults : list BuilderVarDefault.t)
    (inputs : gmap string string) : string :=
  defaultValueLoop variableName variableDefaults inputs "".

Fixpoint GetIsPromptDisabled (variableName : string)
    (variableDefaults : list BuilderVarDefault.t) : bool :=
  match variableDefaults with
  | [] => false
  | variableDefault :: rest =>
      if String.eqb (BuilderVarDefault.Name variableDefault) variableName
      then BuilderVarDefault.IsPromptDisabled variableDefault
      else GetIsPromptDisabled variableName rest
  end.

Definition AllowAllStringValidator (_ : string) : error := nil_error.

Definition NoBlankStringValidator (s : string) : error :=
  if Nat.leb (String.length s) 0
  then Errorf "input must be greater than 0"
  else nil_error.

Definition RunBoolPrompt (customPrompt : BuilderVar.t) (t : terminal)
    : terminal * (string * error) :=
  match SelectRun ("Please select " +:+ BuilderVar.Description customPrompt)
          ["true"; "false"] t with
  | (t', (_, Some err)) => (t', ("", Some err))
  | (t', (input, None)) => (t', (input, nil_error))
  end.

Definition RunDefaultableStringPrompt (customPrompt : BuilderVar.t)
    (defaultValue : string) (validate : option (string -> error)) (t : terminal)
    : terminal * (string * error) :=
  let validatorFunc : option (string -> error) :=
    match validate with
    | None => Some NoBlankStringValidator
    | Some _ => None
    end in
  let '(validatorFunc, defaultString) :=
    if negb (String.eqb defaultValue "")
    then (Some AllowAllStringValidator, " (default: " +:+ defaultValue +:+ ")")
    else (validatorFunc, "") in
  match PromptRun ("Please enter " +:+ BuilderVar.Description customPrompt +:+ defaultString)
          validatorFunc t with
  | (t', (_, Some err)) => (t', ("", Some err))
  | (t', (input, None)) =>
      if String.eqb input "" && negb (String.eqb defaultString "")
      then (t', (defaultValue, nil_error))
      else (t', (input, nil_error))
  end.

(** The first loop of [RunPromptsFromConfigWithSkipsIO], over
    [config.Variables]; [inr err] is the early [return nil, err]. *)
Fixpoint promptEach (variableDefaults : list BuilderVarDefault.t)
    (skipMap : gset string) (variables : list BuilderVar.t)
    (inputs : gmap string string) (t : terminal)
    : terminal * (gmap string string + string) :=
  match variables with
  | [] => (t, inl inputs)
  | customPrompt :: rest =>
      let promptVariableName := BuilderVar.Name customPrompt in
      if decide (promptVariableName ∈ skipMap)
      then promptEach variableDefaults skipMap rest inputs t
      else if GetIsPromptDisabled promptVariableName variableDefaults
      then
        let noPromptDefaultValue :=
          GetVariableDefaultValue promptVariableName variableDefaults inputs in
        if String.eqb noPromptDefaultValue ""
        then (t, inr ("IsPromptDisabled is true for " +:+ promptVariableName
                      +:+ " but no default value was found"))
        else promptEach variableDefaults skipMap rest
               (<[promptVariableName := noPromptDefaultValue]> inputs) t
      else if String.eqb (BuilderVar.VarType customPrompt) "bool"
      then
        match RunBoolPrompt customPrompt t with
        | (t', (_, Some err)) => (t', inr err)
        | (t', (input, None)) =>
            promptEach variableDefaults skipMap rest
              (<[promptVariableName := input]> inputs) t'
        end
      else
        let defaultValue :=
          GetVariableDefaultValue promptVariableName variableDefaults inputs in
        match RunDefaultableStringPrompt customPrompt defaultValue None t with
        | (t', (_, Some err)) => (t', inr err)
        | (t', (stringInput, None)) =>
            promptEach variableDefaults skipMap rest
              (<[promptVariableName := stringInput]> inputs) t'
        end
  end.

(** The second loop, over [config.VariableDefaults]: "substitute the
    default value for variables where the user didn't enter anything". *)
Fixpoint substituteDefaults (variableDefaults : list BuilderVarDefault.t)
    (inputs : gmap string string) : gmap string string :=
  match variableDefaults with
  | [] => inputs
  | variableDefault :: rest =>
      if String.eqb (get inputs (BuilderVarDefault.Name variableDefault)) ""
      then substituteDefaults rest
             (<[BuilderVarDefault.Name variableDefault :=
                  BuilderVarDefault.Value variableDefault]> inputs)
      else substituteDefaults rest inputs
  end.

(** [RunPromptsFromConfigWithSkipsIO(config, varsToSkip, Stdin, Stdout)];
    the two streams are the terminal. *)
Definition RunPromptsFromConfigWithSkipsIO (cfg : DraftConfig)
    (varsToSkip : list string) (t : terminal)
    : terminal * (option (gmap string string) * error) :=
  let skipMap : gset string := list_to_set varsToSkip in
  match promptEach (VariableDefaults cfg) skipMap (Variables cfg) ∅ t with
  | (t', inr err) => (t', (None, Some err))
  | (t', inl inputs) =>
      (t', (Some (substituteDefaults (VariableDefaults cfg) inputs), nil_error))
  end.

Definition RunPromptsFromConfigWithSkips (cfg : DraftConfig)
    (varsToSkip : list string) (t : terminal) :=
  RunPromptsFromConfigWithSkipsIO cfg varsToSkip t.

Definition RunPromptsFromConfig (cfg : DraftConfig) (t : terminal) :=
  RunPromptsFromConfigWithSkips cfg [] t.

(** *** Prompts for the variables of a workflow environment *)

Definition runBoolPromptForEnvVar (envVar : workflows.EnvVar.t) (t : terminal)
    : terminal * (string * error) :=
  match SelectRun ("Please select " +:+ workflows.EnvVar.Description envVar)
          ["true"; "false"] t with
  | (t', (_, Some err)) => (t', ("", Some err))
  | (t', (input, None)) => (t', (input, nil_error))
  end.

Definition runDefaultableStringPromptForEnvVar (envVar : workflows.EnvVar.t)
    (defaultValue : string) (validate : option (string -> error)) (t : terminal)
    : terminal * (string * error) :=
  let validatorFunc : option (string -> error) :=
    match validate with
    | None => Some NoBlankStringValidator
    | Some _ => None
    end in
  let '(validatorFunc, defaultString) :=
    if negb (String.eqb defaultValue "")
    then (Some AllowAllStringValidator, " (default: " +:+ defaultValue +:+ ")")
    else (validatorFunc, "") in
  match PromptRun ("Please enter " +:+ workflows.EnvVar.Description envVar +:+ defaultString)
          validatorFunc t with
  | (t', (_, Some err)) => (t', ("", Some err))
  | (t', (input, None)) =>
      if String.eqb input "" && negb (String.eqb defaultString "")
      then (t', (defaultValue, nil_error))
      else (t', (input, nil_error))
  end.

(** The closure [skipOrPrompt] of [RunPromptsForDeployTypeWithSkipsIO]; it
    assigns into the map [inputs] that it captures. *)
Definition skipOrPrompt (skipMap : gset string) (envVar : workflows.EnvVar.t)
    (inputs : gmap string string) (t : terminal)
    : (gmap string string * terminal) * error :=
  let name := workflows.EnvVar.Name envVar in
  if decide (name ∈ skipMap) then ((inputs, t), nil_error)
  else if workflows.EnvVar.DisablePrompt envVar
  then
    let noPromptDefaultValue := workflows.EnvVar.Value envVar in
    if String.eqb noPromptDefaultValue ""
    then ((inputs, t),
          Errorf ("IsPromptDisabled is true for " +:+ name
                  +:+ " but no default value was found"))
    else ((<[name := noPromptDefaultValue]> inputs, t), nil_error)
  else if String.eqb (workflows.EnvVar.Type_ envVar) "bool"
  then
    match runBoolPromptForEnvVar envVar t with
    | (t', (_, Some err)) => ((inputs, t'), Some err)
    | (t', (input, None)) => ((<[name := input]> inputs, t'), nil_error)
    end
  else
    let defaultValue := workflows.EnvVar.Value envVar in
    match runDefaultableStringPromptForEnvVar envVar defaultValue None t with
    | (t', (_, Some err)) => ((inputs, t'), Some err)
    | (t', (stringInput, None)) => ((<[name := stringInput]> inputs, t'), nil_error)
    end.

(** A run of calls [err = skipOrPrompt(v); if err != nil { return nil, err }],
    one for each variable of [envVars] in turn. *)
Fixpoint skipOrPromptEach (skipMap : gset string) (envVars : list workflows.EnvVar.t)
    (inputs : gmap string string) (t : terminal)
    : (gmap string string * terminal) * error :=
  match envVars with
  | [] => ((inputs, t), nil_error)
  | envVar :: rest =>
      match skipOrPrompt skipMap envVar inputs t with
      | (state, Some err) => (state, Some err)
      | ((inputs', t'), None) => skipOrPromptEach skipMap rest inputs' t'
      end
  end.

(** The variables on which [RunPromptsForDeployTypeWithSkipsIO] calls
    [skipOrPrompt], in the order of the calls: seven calls for every deploy
    type, then those of the [switch deployType]. *)
Definition promptedEnvVars (workflowEnv : workflows.WorkflowEnv) (deployType : string)
    : list workflows.EnvVar.t :=
  [workflows.EnvAcrResourceGroup workflowEnv;
   workflows.EnvAcrResourceGroup workflowEnv;
   workflows.EnvBranchName workflowEnv;
   workflows.EnvBuildContextPath workflowEnv;
   workflows.EnvClusterName workflowEnv;
   workflows.EnvClusterResourceGroup workflowEnv;
   workflows.EnvContainerName workflowEnv]
  ++ (if String.eqb deployType "helm"
      then [workflows.HelmChartPath (workflows.HelmEnvStruct workflowEnv);
            workflows.HelmChartOverridePath (workflows.HelmEnvStruct workflowEnv);
            workflows.HelmChartOverrides (workflows.HelmEnvStruct workflowEnv)]
      else if String.eqb deployType "kustomize"
      then [workflows.KustomizePath (workflows.KustomizeEnvStruct workflowEnv)]
      else if String.eqb deployType "manifests"
      then [workflows.DeploymentManifestPath (workflows.ManifestEnvStruct workflowEnv)]
      else []).

Definition RunPromptsForDeployTypeWithSkipsIO (workflowEnv : workflows.WorkflowEnv)
    (deployType : string) (varsToSkip : list string) (t : terminal)
    : terminal * (option (gmap string string) * error) :=
  let skipMap : gset string := list_to_set varsToSkip in
  match skipOrPromptEach skipMap (promptedEnvVars workflowEnv deployType) ∅ t with
  | ((_, t'), Some err) => (t', (None, Some err))
  | ((inputs, t'), None) => (t', (Some inputs, nil_error))
  end.

End prompts.

(** ** Package cmd: the generate-workflow command *)

Module cmd.
Import promptui.

(** The loop [for _, flagVar := range flagVariables] that
    [generateWorkflows] and [createFlagMap] both contain.  It assigns
    into the map it was given; on a malformed string it stops, and the
    result carries the map as it stands at that moment. *)
Fixpoint setFlagVariables (flagVariables : list string)
    (flagValuesMap : gmap string string) : gmap string string * error :=
  match flagVariables with
  | [] => (flagValuesMap, nil_error)
  | flagVar :: rest =>
      match strings.Cut flagVar "=" with
      | (flagVarName, flagVarValue, true) =>
          setFlagVariables rest (<[flagVarName := flagVarValue]> flagValuesMap)
      | (_, _, false) =>
          (flagValuesMap, Errorf ("invalid variable format: " +:+ flagVar))
      end
  end.

(** [maps.Keys(m)], in some order. *)
Definition Keys (m : gmap string string) : list string := elements (dom m).

(** [maps.Copy(dst, src)]: every entry of [src] is assigned into [dst]. *)
Definition Copy (dst src : gmap string string) : gmap string string := src ∪ dst.

Definition deployTypes : list string := ["helm"; "kustomize"; "manifests"].

Section GenerateWorkflows.
(** The state of the template writer, and the two operations of
    package [workflows] that the command calls and that are not part of
    the sources: [workflow.GetConfig(deployType)] and
    [workflow.CreateWorkflowFiles(deployType, customInputs,
    templateWriter)], for the workflows created with destination
    [dest]. *)
Context {W : Type}.
Variable GetConfig : string -> string -> config.DraftConfig + string.
Variable CreateWorkflowFiles :
  string -> string -> gmap string string -> W -> W * error.

(** What a run leaves behind: the flag values map (the caller's, it is
    shared), the terminal, the writer. *)
Record after := mkAfter {
  flagValues : option (gmap string string);
  term : terminal;
  writer : W
}.

(** [generateWorkflows] of the command whose flags fill a
    [workflows.WorkflowConfig]. *)
Definition generateWorkflows (dest deployType : string)
    (flagVariables : list string) (templateWriter : W)
    (flagValuesMap : option (gmap string string)) (t : terminal)
    : after * error :=
  match flagValuesMap with
  | None => (mkAfter None t templateWriter, Errorf "flagValuesMap is nil")
  | Some m0 =>
      match setFlagVariables flagVariables m0 with
      | (m, Some err) => (mkAfter (Some m) t templateWriter, Some err)
      | (m, None) =>
          let '(t1, (deployType', err)) :=
            if String.eqb deployType ""
            then SelectRun "Select k8s Deployment Type" deployTypes t
            else (t, (deployType, nil_error)) in
          match err with
          | Some err => (mkAfter (Some m) t1 templateWriter, Some err)
          | None =>
              match GetConfig dest deployType' with
              | inr err =>
                  (mkAfter (Some m) t1 templateWriter, Errorf ("get config: " +:+ err))
              | inl workflowConfig =>
                  match prompts.RunPromptsFromConfigWithSkips workflowConfig (Keys m) t1 with
                  | (t2, (_, Some err)) => (mkAfter (Some m) t2 templateWriter, Some err)
                  | (t2, (None, None)) =>
                      (mkAfter (Some m) t2 templateWriter, Errorf "assignment to entry in nil map")
                  | (t2, (Some customInputs, None)) =>
                      let customInputs := Copy customInputs m in
                      let '(tw, err) :=
                        CreateWorkflowFiles dest deployType' customInputs templateWriter in
                      (mkAfter (Some m) t2 tw, err)
                  end
              end
          end
      end
  end.

(** The [RunE] closure of that command: [nflag] is
    [cmd.Flags().NFlag()], the number of flags set on the command
    line. *)
Definition RunE (nflag : nat) (workflowConfig : workflows.WorkflowConfig)
    (dest deployType : string) (flagVariables : list string)
    (templateWriter : W) (t : terminal) : after * error :=
  let flagValuesMap : gmap string string :=
    if Nat.eqb nflag 0 then ∅ else workflows.SetFlagValuesToMap workflowConfig in
  generateWorkflows dest deployType flagVariables templateWriter (Some flagValuesMap) t.
End GenerateWorkflows.

Arguments after : clear implicits.

(** [createFlagMap] of the command whose flags fill a
    [workflows.WorkflowEnv].  The first component is the package-level
    variable [flagValuesMap] after the call, the second and third are the
    two results.  The map is made or built just before the loop, so the
    test of [flagValuesMap] against nil never fires. *)
Definition createFlagMap (nflag : nat) (workflowEnv : workflows.WorkflowEnv)
    (flagVariables : list string)
    : gmap string string * (option (gmap string string) * error) :=
  let flagValuesMap : gmap string string :=
    if Nat.eqb nflag 0 then ∅ else workflows.BuildMap workflowEnv in
  match setFlagVariables flagVariables flagValuesMap with
  | (m, Some err) => (m, (None, Some err))
  | (m, None) => (m, (Some m, nil_error))
  end.

End cmd.

(** ** Package templatewriter *)

Module templatewriter.

(** The writer interface of the generate-workflow command, as its calls
    show it. *)
Class TemplateWriter (W : Type) := {
  WriteFile : string -> string -> W -> W * error;
  EnsureDirectory : string -> W -> W * error
}.

End templatewriter.

(** ** Package cmd: the command whose flags fill a [workflows.WorkflowEnv] *)

Module cmdEnv.
Import promptui.

Definition promptDeployType (deployType : string) (t : terminal)
    : terminal * (string * error) :=
  if String.eqb deployType ""
  then
    match SelectRun "Select k8s Deployment Type" ["helm"; "kustomize"; "manifests"] t with
    | (t', (_, Some err)) => (t', ("", Some err))
    | (t', (selected, None)) => (t', (selected, nil_error))
    end
  else (t, (deployType, nil_error)).

Section Command.
(** [path.Join], and the two functions of package [osutil] that
    [GenerateWorkflowBytes] calls on the embedded workflow templates and
    that are not part of the sources. *)
Context {W : Type} `{templatewriter.TemplateWriter W}.
Variable Join : string -> string -> string.
Variable ReplaceTemplateVariables : string -> gmap string string -> string * error.
Variable CheckAllVariablesSubstituted : string -> error.

Definition writeFile (deployType dest workflowBytes : string) (templateWriter : W)
    : W * error :=
  let destPath : option string :=
    if String.eqb deployType "helm"
    then Some (Join dest ".github/workflows/azure-kubernetes-service-helm.yml")
    else if String.eqb deployType "kustomize"
    then Some (Join dest ".github/workflows/azure-kubernetes-service-kustomize.yml")
    else if String.eqb deployType "manifests"
    then Some (Join dest ".github/workflows/azure-kubernetes-service.yml")
    else None in
  match destPath with
  | None => (templateWriter, Errorf "unsupported deployment type")
  | Some destPath =>
      match templatewriter.EnsureDirectory destPath templateWriter with
      | (tw1, Some err) => (tw1, Errorf ("ensure directory: " +:+ err))
      | (tw1, None) =>
          match templatewriter.WriteFile destPath workflowBytes tw1 with
          | (tw2, Some err) => (tw2, Errorf ("write file: " +:+ err))
          | (tw2, None) => (tw2, nil_error)
          end
      end
  end.

(** One [case] of [GenerateWorkflowBytes]. *)
Definition generateFrom (srcPath : string) (envArgsMap : gmap string string)
    : string * error :=
  match ReplaceTemplateVariables srcPath envArgsMap with
  | (_, Some err) => ("", Errorf ("replace template variables: " +:+ err))
  | (workflowBytes, None) =>
      match CheckAllVariablesSubstituted workflowBytes with
      | Some err => ("", Errorf ("check all variables substituted: " +:+ err))
      | None => (workflowBytes, nil_error)
      end
  end.

Definition GenerateWorkflowBytes (deployType : string) (envArgsMap : gmap string string)
    : string * error :=
  if String.eqb deployType "helm"
  then generateFrom "workflow/helm/.github/workflows/azure-kubernetes-service-helm.yml"
         envArgsMap
  else if String.eqb deployType "kustomize"
  then generateFrom
         "workflow/kustomize/.github/workflows/azure-kubernetes-service-kustomize.yml"
         envArgsMap
  else if String.eqb deployType "manifests"
  then generateFrom "workflow/manifests/.github/workflows/azure-kubernetes-service.yml"
         envArgsMap
  else ("", Errorf "unsupported deployment type").

(** What a run of the command leaves behind: the filled environment and
    the deploy type of the command struct, the terminal, the writer. *)
Record after := mkAfter {
  workflowEnv : workflows.WorkflowEnv;
  deployType : string;
  term : terminal;
  writer : W
}.

(** The [RunE] closure.  The result of [writeFile] is not looked at.  A
    nil map reads as the empty map; assigning into one is the run-time
    error of that name. *)
Definition RunE (nflag : nat) (we : workflows.WorkflowEnv) (dest dt : string)
    (flagVariables : list string) (templateWriter : W) (t : terminal)
    : after * error :=
  let we := workflows.FillWorkflowEnv we in
  match cmd.createFlagMap nflag we flagVariables with
  | (_, (_, Some err)) =>
      (mkAfter we dt t templateWriter, Errorf ("create flag map: " +:+ err))
  | (_, (flagValuesMap, None)) =>
      let flagValuesMap : gmap string string := default ∅ flagValuesMap in
      match promptDeployType dt t with
      | (t1, (dt1, Some err)) =>
          (mkAfter we dt1 t1 templateWriter, Errorf ("prompt deploy type: " +:+ err))
      | (t1, (dt1, None)) =>
          match prompts.RunPromptsForDeployTypeWithSkipsIO we dt1 (cmd.Keys flagValuesMap) t1
          with
          | (t2, (_, Some err)) => (mkAfter we dt1 t2 templateWriter, Some err)
          | (t2, (None, None)) =>
              (mkAfter we dt1 t2 templateWriter, Errorf "assignment to entry in nil map")
          | (t2, (Some customInputs, None)) =>
              let customInputs := cmd.Copy customInputs flagValuesMap in
              match GenerateWorkflowBytes dt1 flagValuesMap with
              | (_, Some err) =>
                  (mkAfter we dt1 t2 templateWriter,
                   Errorf ("generate workflow bytes: " +:+ err))
              | (workflowBytes, None) =>
                  let '(tw, _) := writeFile dt1 dest workflowBytes templateWriter in
                  (mkAfter we dt1 t2 tw, nil_error)
              end
          end
      end
  end.
End Command.

Arguments after : clear implicits.

End cmdEnv.

(** ** Vocabulary of the statements *)

(** [vd] is a declaration of the variable [name]. *)
Definition declares (name : string) (vd : config.BuilderVarDefault.t) : Prop :=
  config.BuilderVarDefault.Name vd = name.

#[export] Instance declares_dec name vd : Decision (declares name vd).
Proof. unfold declares. apply _. Defined.

(** The default computed from one declaration: its literal value, or the
    value that [inputs] holds for its reference variable when there is one
    and that value is not empty. *)
Definition chased (vd : config.BuilderVarDefault.t) (inputs : gmap string string) : string :=
  let ref := config.BuilderVarDefault.ReferenceVar vd in
  if decide (ref <> "" /\ prompts.get inputs ref <> "") then prompts.get inputs ref
  else config.BuilderVarDefault.Value vd.

(** [label] is the label of a prompt built for the variable [v]: by
    [RunBoolPrompt], or by [RunDefaultableStringPrompt] with some default
    text appended. *)
Definition prompt_of (v : config.BuilderVar.t) (label : string) : Prop :=
  (label = "Please select " +:+ config.BuilderVar.Description v)
  \/ (exists defaultString,
        label = "Please enter " +:+ config.BuilderVar.Description v +:+ defaultString).

(** [label] belongs to a variable of [variables] whose name is not in
    [skipMap]. *)
Definition asked_for (variables : list config.BuilderVar.t) (skipMap : gset string)
    (label : string) : Prop :=
  exists v, In v variables /\ (config.BuilderVar.Name v ∉ skipMap) /\ prompt_of v label.


(** A command-line override string: it is well formed when it contains
    "=", and then its name and value are what [strings.Cut] finds before
    and after the first "=". *)
Definition wellFormed (flagVar : string) : Prop := strings.Contains flagVar "=" = true.

Definition malformed (flagVar : string) : Prop := strings.Contains flagVar "=" = false.

Definition flagName (flagVar : string) : string := (strings.Cut flagVar "=").1.1.

Definition flagValue (flagVar : string) : string := (strings.Cut flagVar "=").1.2.

Definition named (name : string) (flagVar : string) : Prop := flagName flagVar = name.

#[export] Instance named_dec name flagVar : Decision (named name flagVar).
Proof. unfold named. apply _. Defined.

(** The value that a list of well-formed overrides leaves for [name] in a
    map that started as [m0]: that of the last override of that name, and
    what [m0] had when there is none. *)
Definition overridden (flagVariables : list string) (m0 : gmap string string)
    (name : string) : option string :=
  match last (filter (named name) flagVariables) with
  | Some flagVar => Some (flagValue flagVar)
  | None => m0 !! name
  end.

(** The map [m0] after the overrides [flagVariables] have been assigned
    into it one after the other. *)
Definition assigned (flagVariables : list string) (m0 : gmap string string)
    : gmap string string :=
  foldl (fun m flagVar => <[flagName flagVar := flagValue flagVar]> m) m0 flagVariables.

Definition invalidFormat (flagVar : string) : string :=
  "invalid variable format: " +:+ flagVar.

(** The template file [name] with content [data] lies in the directory of
    [src] whose destination directory is [dir], when [src] itself is
    copied to [dest]. *)
Inductive located : osutil.entry -> string -> string -> string -> string -> Prop :=
| located_here n children dest name data :
    In (osutil.File name data) children ->
    located (osutil.Dir n children) dest dest name data
| located_below n children sub dest dir name data :
    In sub children ->
    located sub (dest +:+ "/" +:+ osutil.Name sub) dir name data ->
    located (osutil.Dir n children) dest dir name data.

(** The pair [(path, data)] is the materialization of a template file of
    [src] that is not named draft.yaml. *)
Definition written_from (cfg : option config.DraftConfig)
    (customInputs : list (string * string)) (src : osutil.entry) (dest : string)
    (path data : string) : Prop :=
  exists dir name content,
    located src dest dir name content
    /\ name <> "draft.yaml"
    /\ path = dir +:+ "/" +:+ osutil.checkNameOverrides name cfg
    /\ data = osutil.replaceEach customInputs content.

(** The tree without its entries named draft.yaml, at every level. *)
Section Prune.
Variable recurse : osutil.entry -> osutil.entry.

Fixpoint pruneEntries (fs : list osutil.entry) : list osutil.entry :=
  match fs with
  | [] => []
  | f :: rest =>
      if String.eqb (osutil.Name f) "draft.yaml" then pruneEntries rest
      else recurse f :: pruneEntries rest
  end.
End Prune.

Fixpoint prune (e : osutil.entry) : osutil.entry :=
  match e with
  | osutil.Dir n children => osutil.Dir n (pruneEntries (fun f => prune f) children)
  | _ => e
  end.

(** The names of the entries below [e], at every level. *)
Fixpoint names (e : osutil.entry) : list string :=
  match e with
  | osutil.Dir _ children => flat_map (fun f => osutil.Name f :: names f) children
  | _ => []
  end.

(** What a run of [CopyDir] adds to the calls seen by a traced writer. *)
Definition writes_only_from {W : Type} (cfg : option config.DraftConfig)
    (customInputs : list (string * string)) (src : osutil.entry) (dest : string)
    (before : list osutil.call * W) (after : (list osutil.call * W) * error) : Prop :=
  exists calls,
    after.1.1 = (before.1 ++ calls)%list
    /\ forall path data mode, In (osutil.WriteFileCall path data mode) calls ->
         written_from cfg customInputs src dest path data.

(** What a result of [CopyDirToFileMap] may hold. *)
Definition keys_only_from (cfg : option config.DraftConfig)
    (customInputs : list (string * string)) (src : osutil.entry) (dest : string)
    (result : option (gmap string string) * error) : Prop :=
  forall fileMap path data,
    result.1 = Some fileMap -> fileMap !! path = Some data ->
    written_from cfg customInputs src dest path data.

(** *** Templates as text and markers *)

(** No brace at all: the shape of a variable name. *)
Fixpoint plain (s : string) : bool :=
  match s with
  | EmptyString => true
  | String c s' => negb (Ascii.eqb c "{") && negb (Ascii.eqb c "}") && plain s'
  end.

(** Every "{" is followed by a character other than "{": the string
    contains no "{{" and does not end in "{". *)
Fixpoint calm (s : string) : bool :=
  match s with
  | EmptyString => true
  | String c s' =>
      (if Ascii.eqb c "{"
       then match s' with
            | EmptyString => false
            | String d _ => negb (Ascii.eqb d "{")
            end
       else true)
      && calm s'
  end.

(** A template file seen as a sequence of stretches of text and of
    markers. *)
Inductive segment :=
| Text (s : string)
| Marker (name : string).

Definition render_segment (g : segment) : string :=
  match g with
  | Text s => s
  | Marker name => osutil.marker name
  end.

Fixpoint render (segments : list segment) : string :=
  match segments with
  | [] => EmptyString
  | g :: rest => render_segment g +:+ render rest
  end.

Definition tidy (g : segment) : Prop :=
  match g with
  | Text s => calm s = true
  | Marker name => plain name = true
  end.

(** The segment after substitution of the resolved variables [m]. *)
Definition substitute (m : gmap string string) (g : segment) : segment :=
  match g with
  | Text s => Text s
  | Marker name =>
      match m !! name with
      | Some value => Text value
      | None => Marker name
      end
  end.

(** The segment after replacement of the one variable [k]. *)
Definition substitute_one (k v : string) (g : segment) : segment :=
  match g with
  | Text s => Text s
  | Marker name => if decide (name = k) then Text v else Marker name
  end.

(** *** Calls on a writer *)

Definition callPath (c : osutil.call) : string :=
  match c with
  | osutil.WriteFileCall path _ _ => path
  | osutil.EnsureDirectoryCall path => path
  end.

(** The files written by a sequence of calls, in the order of the calls. *)
Fixpoint writesOf (calls : list osutil.call) : list (string * string) :=
  match calls with
  | [] => []
  | osutil.WriteFileCall path data _ :: rest => (path, data) :: writesOf rest
  | osutil.EnsureDirectoryCall _ :: rest => writesOf rest
  end.

(** The content that a sequence of writes leaves at each path, on top of
    [m0]: a later write to a path replaces an earlier one. *)
Definition filedOn (m0 : gmap string string) (writes : list (string * string))
    : gmap string string :=
  foldl (fun m pd => <[pd.1 := pd.2]> m) m0 writes.

(** The path lies below [dest]. *)
Definition below (dest path : string) : Prop :=
  exists rest, path = dest +:+ "/" +:+ rest.

(** What a traced run adds when it works below [dest]: calls on paths
    below [dest]. *)
Definition calls_below {W : Type} (dest : string)
    (before after : list osutil.call * W) : Prop :=
  exists calls,
    after.1 = (before.1 ++ calls)%list
    /\ Forall (fun c => below dest (callPath c)) calls.

(** *** Flag maps *)

(** The fields of the configuration struct with the keys under which
    [SetFlagValuesToMap] enters them. *)
Definition flagFields (c : workflows.WorkflowConfig) : list (string * string) :=
  [("AZURECONTAINERREGISTRY", workflows.AcrName c);
   ("RESOURCEGROUP", workflows.AcrResourceGroupName c);
   ("CLUSTERNAME", workflows.AksClusterName c);
   ("BRANCHNAME", workflows.BranchName c);
   ("BUILDCONTEXTPATH", workflows.BuildContextPath c);
   ("CHARTPATH", workflows.ChartPath c);
   ("CHARTOVERRIDEPATH", workflows.ChartOverridePath c);
   ("CLUSTERRESOURCEGROUP", workflows.ClusterResourceGroupName c);
   ("CONTAINERNAME", workflows.ContainerName c)].

(** The variables that [BuildMap] visits, in the order of its calls of
    [checkForVal]. *)
Definition builtVars (we : workflows.WorkflowEnv) : list workflows.EnvVar.t :=
  [workflows.EnvAcrResourceGroup we; workflows.EnvAzureContainerRegistry we;
   workflows.EnvBranchName we; workflows.EnvBuildContextPath we;
   workflows.EnvClusterName we; workflows.EnvClusterResourceGroup we;
   workflows.EnvContainerName we;
   workflows.HelmChartPath (workflows.HelmEnvStruct we);
   workflows.HelmChartOverridePath (workflows.HelmEnvStruct we);
   workflows.HelmChartOverrides (workflows.HelmEnvStruct we);
   workflows.KustomizePath (workflows.KustomizeEnvStruct we);
   workflows.DeploymentManifestPath (workflows.ManifestEnvStruct we)].

(** [value], or [fallback] when [value] is empty. *)
Definition valueOr (fallback value : string) : string :=
  if String.eqb value "" then fallback else value.

(** The names that [FillWorkflowEnv] gives to the variables that [BuildMap]
    visits, each with the value the variable has after the filling: the one
    it had, or the default of the variable when it had none. *)
Definition filledFields (we : workflows.WorkflowEnv) : list (string * string) :=
  [("ACR_RESOURCE_GROUP", workflows.EnvVar.Value (workflows.EnvAcrResourceGroup we));
   ("ACR_NAME", workflows.EnvVar.Value (workflows.EnvAzureContainerRegistry we));
   ("BRANCH_NAME", workflows.EnvVar.Value (workflows.EnvBranchName we));
   ("BUILD_CONTEXT_PATH",
    valueOr "." (workflows.EnvVar.Value (workflows.EnvBuildContextPath we)));
   ("CLUSTER_NAME", workflows.EnvVar.Value (workflows.EnvClusterName we));
   ("CLUSTER_RESOURCE_GROUP",
    workflows.EnvVar.Value (workflows.EnvClusterResourceGroup we));
   ("CONTAINER_NAME", workflows.EnvVar.Value (workflows.EnvContainerName we));
   ("CHART_PATH",
    valueOr "./charts"
      (workflows.EnvVar.Value (workflows.HelmChartPath (workflows.HelmEnvStruct we))));
   ("CHART_OVERRIDE_PATH",
    valueOr "./charts/production.yaml"
      (workflows.EnvVar.Value
         (workflows.HelmChartOverridePath (workflows.HelmEnvStruct we))));
   ("CHART_OVERRIDES",
    valueOr "replicas:2"
      (workflows.EnvVar.Value (workflows.HelmChartOverrides (workflows.HelmEnvStruct we))));
   ("KUSTOMIZE_PATH",
    valueOr "./overlays/production"
      (workflows.EnvVar.Value (workflows.KustomizePath (workflows.KustomizeEnvStruct we))));
   ("DEPLOYMENT_MANIFEST_PATH",
    valueOr "./manifests"
      (workflows.EnvVar.Value
         (workflows.DeploymentManifestPath (workflows.ManifestEnvStruct we))))].

(** The map that holds, of a list of fields, those whose value is not
    empty. *)
Definition collected (fields : list (string * string)) (m0 : gmap string string)
    : gmap string string :=
  foldl (fun m kv => workflows.setIfNotEmpty kv.1 kv.2 m) m0 fields.

(** ** Sample inputs *)

Module sample.
Import config.

(** One string variable A with the default "x". *)
Definition defaulted : DraftConfig :=
  mkDraftConfig [BuilderVar.mk "A" "the a" "string" ""]
                [BuilderVarDefault.mk "A" "x" "" false] [].

(** One variable PORT that may not be asked for and defaults to 8080. *)
Definition portSet : DraftConfig :=
  mkDraftConfig [BuilderVar.mk "PORT" "the port" "string" ""]
                [BuilderVarDefault.mk "PORT" "8080" "" true] [].


Definition silent : promptui.terminal := promptui.mkTerminal [] [].

Definition emptyVar : workflows.EnvVar.t := workflows.EnvVar.mk "" "" false "" "".

Definition emptyEnv : workflows.WorkflowEnv :=
  workflows.mkWorkflowEnv emptyVar emptyVar emptyVar emptyVar emptyVar emptyVar
    emptyVar emptyVar
    (workflows.mkHelmEnv emptyVar emptyVar emptyVar)
    (workflows.mkKustomizeEnv emptyVar)
    (workflows.mkManifestEnv emptyVar).

(** A template directory with its manifest, a file, and a subdirectory
    that comes after the file. *)
Definition template : osutil.entry :=
  osutil.Dir "tpl"
    [osutil.File "a.txt" "listen {{PORT}}";
     osutil.File "draft.yaml" "variables: []";
     osutil.Dir "sub" [osutil.File "b.txt" "B"]].

Definition port8080 : list (string * string) := [("PORT", "8080")].

Definition emptyDisk : osutil.LocalFS := osutil.mkLocalFS ∅ ∅.

(** A workflow file: text, the marker of PORT, and an expression of the
    CI system that is no variable of the template. *)
Definition workflowFile : list segment :=
  [Text "port: "; Marker "PORT"; Text " token: $"; Marker " secrets.TOKEN "].

(** Two variables, one of which has the marker of the other as its value,
    in an order in which the map may be ranged over. *)
Definition nested : list (string * string) := [("FOO", "bar"); ("X", "{{FOO}}")].

(** The registry name given by the configuration struct only. *)
Definition registryOnly : workflows.WorkflowConfig :=
  workflows.mkWorkflowConfig "fromconfig" "" "" "" "" "" "" "" "".

(** A terminal on which the same line is typed [n] times. *)
Definition typed (line : string) (n : nat) : promptui.terminal :=
  promptui.mkTerminal (repeat (promptui.Enter line) n) [].

(** A writer of the generate-workflow command that keeps the paths of the
    calls it receives. *)
Definition recorder : templatewriter.TemplateWriter (list string) := {|
  templatewriter.WriteFile path _ w := ((w ++ ["write " +:+ path])%list, nil_error);
  templatewriter.EnsureDirectory path w := ((w ++ ["mkdir " +:+ path])%list, nil_error)
|}.

(** [path.Join] on two clean paths, and a template step that yields the
    same bytes whatever the variables. *)
Definition join (a b : string) : string := a +:+ "/" +:+ b.

Definition fixedBytes (srcPath : string) (envArgsMap : gmap string string)
    : string * error := ("on: push", nil_error).

Definition allSubstituted (workflowBytes : string) : error := nil_error.

End sample.

(* ================================================================== *)
(** * Properties *)
(* ================================================================== *)

(** ** Validation *)

(** C9.  Whatever the variable, the value and the state of the Azure CLI, a
    [ValidateType] that is none of the six known rule names makes
    [Validate] return [nil]. *)
Theorem Validate_unknown_rule_accepts :
  forall (az : validations.AzureCli) (name : string)
         (variable : config.BuilderVar.t) (value : string),
    ~ In (config.BuilderVar.ValidateType variable) validations.knownRules ->
    validations.Validate az name variable value = nil_error.
Proof.
  intros az name variable value Hunknown.
  unfold validations.Validate.
  repeat match goal with
  | |- context [String.eqb ?a ?b] =>
      destruct (String.eqb_spec a b) as [Heq | _];
      [ exfalso; apply Hunknown; rewrite Heq; simpl; tauto | ]
  end.
  reflexivity.
Qed.

Lemma Validate_unknown_rule_accepts_witness :
  validations.Validate
    (validations.mkAzureCli false (Some "not logged in") (fun _ => Some "no such registry"))
    "PORT" (config.BuilderVar.mk "PORT" "the port" "string" "portNumber") "80a"
  = nil_error.
Proof.
  apply Validate_unknown_rule_accepts.
  simpl. intros H. repeat (destruct H as [H | H]; [discriminate H | ]). exact H.
Defined.

(** C10.  The validators selected by [azClusterName], [azResourceGroup],
    [containerName], [dir] and [ghBranch] return [nil] on every value, and
    so [Validate] returns an error only if the rule is
    [azContainerRegistry]. *)
Theorem Validate_fails_only_for_registry :
  (forall value : string,
      validations.validateAzureClusterName value = nil_error
      /\ validations.validateAzureResourceGroup value = nil_error
      /\ validations.validateContainerName value = nil_error
      /\ validations.validateDir value = nil_error
      /\ validations.validateGitHubBranch value = nil_error)
  /\ (forall (az : validations.AzureCli) (name : string)
             (variable : config.BuilderVar.t) (value : string),
        In (config.BuilderVar.ValidateType variable)
           ["azClusterName"; "azResourceGroup"; "containerName"; "dir"; "ghBranch"] ->
        validations.Validate az name variable value = nil_error)
  /\ (forall (az : validations.AzureCli) (name : string)
             (variable : config.BuilderVar.t) (value : string) (msg : string),
        validations.Validate az name variable value = Some msg ->
        config.BuilderVar.ValidateType variable = "azContainerRegistry").
Proof.
  split; [ intros value; repeat split | split ].
  - intros az name variable value Hin.
    unfold validations.Validate.
    simpl in Hin.
    repeat (destruct Hin as [Hin | Hin]; [ rewrite <- Hin; reflexivity | ]).
    destruct Hin.
  - intros az name variable value msg Hfail.
    unfold validations.Validate in Hfail.
    destruct (String.eqb_spec (config.BuilderVar.ValidateType variable) "azContainerRegistry")
      as [Heq | _]; [ exact Heq | ].
    repeat match type of Hfail with
    | context [String.eqb ?a ?b] => destruct (String.eqb a b)
    end; discriminate Hfail.
Qed.

Lemma Validate_fails_only_for_registry_witness :
  validations.Validate
    (validations.mkAzureCli false (Some "not logged in") (fun _ => Some "no such registry"))
    "BRANCH" (config.BuilderVar.mk "BRANCH" "the branch" "string" "ghBranch") "not a branch"
  = nil_error.
Proof.
  apply (proj1 (proj2 Validate_fails_only_for_registry)).
  simpl. tauto.
Defined.

(** ** Defaults and the reference chase *)

Section DefaultValue.
Import config prompts.

Lemma defaultValueLoop_last name vds inputs acc :
  defaultValueLoop name vds inputs acc =
  match last (filter (declares name) vds) with
  | Some vd => chased vd inputs
  | None => acc
  end.
Proof.
  revert acc. induction vds as [| vd vds IH]; intros acc; simpl.
  - reflexivity.
  - rewrite filter_cons.
    destruct (String.eqb_spec (BuilderVarDefault.Name vd) name) as [Heq | Hne].
    + destruct (decide (declares name vd)) as [_ | Hn]; [ | contradiction ].
      rewrite last_cons, !IH.
      destruct (last (filter (declares name) vds)) as [vd' | ].
      * destruct (negb _ && negb _); reflexivity.
      * unfold chased.
        destruct (String.eqb_spec (BuilderVarDefault.ReferenceVar vd) "") as [Hr | Hr];
          destruct (String.eqb_spec (get inputs (BuilderVarDefault.ReferenceVar vd)) "")
            as [Hi | Hi]; simpl; case_decide; tauto || reflexivity.
    + destruct (decide (declares name vd)) as [Hd | _]; [ contradiction | ].
      apply IH.
Qed.
End DefaultValue.

(** C5.  [GetVariableDefaultValue] returns what the (last) declaration of
    the variable gives in one hop: the literal default, unless that
    declaration names a reference variable whose value in [inputs] is not
    empty, in which case it is that value; an undeclared variable has the
    empty default.  The value of the reference variable is read from
    [inputs] and from nowhere else: with A defaulting to "x" and B
    referencing A without a default of its own, B's default is "x" once
    [inputs] holds A = "x"; and a reference of A itself is not followed
    when [inputs] holds nothing for A. *)
Theorem GetVariableDefaultValue_one_hop :
  (forall (variableName : string) (variableDefaults : list config.BuilderVarDefault.t)
          (inputs : gmap string string),
      prompts.GetVariableDefaultValue variableName variableDefaults inputs =
      match last (filter (declares variableName) variableDefaults) with
      | Some vd =>
          let ref := config.BuilderVarDefault.ReferenceVar vd in
          if decide (ref <> "" /\ prompts.get inputs ref <> "")
          then prompts.get inputs ref
          else config.BuilderVarDefault.Value vd
      | None => ""
      end)
  /\ (forall inputs : gmap string string,
        inputs !! "A" = Some "x" ->
        prompts.GetVariableDefaultValue "B"
          [config.BuilderVarDefault.mk "A" "x" "" false;
           config.BuilderVarDefault.mk "B" "" "A" false] inputs = "x")
  /\ (forall inputs : gmap string string,
        inputs !! "B" = None -> inputs !! "A" = Some "x" ->
        prompts.GetVariableDefaultValue "C"
          [config.BuilderVarDefault.mk "A" "x" "" false;
           config.BuilderVarDefault.mk "B" "" "A" false;
           config.BuilderVarDefault.mk "C" "own" "B" false] inputs = "own").
Proof.
  split; [ | split ].
  - intros. unfold prompts.GetVariableDefaultValue.
    rewrite defaultValueLoop_last. reflexivity.
  - intros inputs HA. unfold prompts.GetVariableDefaultValue. simpl.
    unfold prompts.get. rewrite HA. reflexivity.
  - intros inputs HB HA. unfold prompts.GetVariableDefaultValue. simpl.
    unfold prompts.get. rewrite HB. reflexivity.
Qed.

Lemma GetVariableDefaultValue_one_hop_witness :
  prompts.GetVariableDefaultValue "B"
    [config.BuilderVarDefault.mk "A" "x" "" false;
     config.BuilderVarDefault.mk "B" "" "A" false] {["A" := "x"]} = "x".
Proof.
  apply (proj1 (proj2 GetVariableDefaultValue_one_hop)).
  reflexivity.
Defined.

(** ** Resolution *)

Section Resolution.
Import config prompts promptui.

Lemma SelectRun_stdout label items t :
  stdout (SelectRun label items t).1 = (stdout t ++ [label])%list.
Proof. unfold SelectRun. destruct (awaitChoice items (stdin t)). reflexivity. Qed.

Lemma PromptRun_stdout label validate t :
  stdout (PromptRun label validate t).1 = (stdout t ++ [label])%list.
Proof. unfold PromptRun. destruct (awaitLine validate (stdin t)). reflexivity. Qed.

Lemma RunBoolPrompt_stdout v t :
  exists label, prompt_of v label
    /\ stdout (RunBoolPrompt v t).1 = (stdout t ++ [label])%list.
Proof.
  eexists. split; [ left; reflexivity | ].
  unfold RunBoolPrompt.
  pose proof (SelectRun_stdout ("Please select " +:+ BuilderVar.Description v)
                ["true"; "false"] t) as Hs.
  destruct (SelectRun _ _ t) as [t' [input [err | ]]]; exact Hs.
Qed.

Lemma RunDefaultableStringPrompt_stdout v d validate t :
  exists label, prompt_of v label
    /\ stdout (RunDefaultableStringPrompt v d validate t).1 = (stdout t ++ [label])%list.
Proof.
  unfold RunDefaultableStringPrompt.
  destruct (negb (String.eqb d "")).
  - eexists. split; [ right; eexists; reflexivity | ].
    match goal with |- context [PromptRun ?l ?f t] =>
      pose proof (PromptRun_stdout l f t) as Hs;
      destruct (PromptRun l f t) as [t' [input [err | ]]] end; [ exact Hs | ].
    destruct (_ && _); exact Hs.
  - eexists. split; [ right; exists ""; reflexivity | ].
    match goal with |- context [PromptRun ?l ?f t] =>
      pose proof (PromptRun_stdout l f t) as Hs;
      destruct (PromptRun l f t) as [t' [input [err | ]]] end; [ exact Hs | ].
    destruct (_ && _); exact Hs.
Qed.

(** Every label that the first loop shows belongs to a variable that is
    not skipped. *)
Lemma promptEach_stdout vds skipMap variables inputs t :
  exists shown,
    stdout (promptEach vds skipMap variables inputs t).1 = (stdout t ++ shown)%list
    /\ Forall (asked_for variables skipMap) shown.
Proof.
  revert inputs t.
  induction variables as [| v variables IH]; intros inputs t; simpl.
  - exists []. split; [ by rewrite app_nil_r | constructor ].
  - assert (Hweak : forall shown, Forall (asked_for variables skipMap) shown ->
              Forall (asked_for (v :: variables) skipMap) shown).
    { intros shown Hf. eapply Forall_impl; [ exact Hf | ].
      intros l (v' & Hin & Hns & Hp).
      exists v'. split; [ right; exact Hin | split; assumption ]. }
    destruct (decide (BuilderVar.Name v ∈ skipMap)) as [Hskip | Hskip].
    { destruct (IH inputs t) as (shown & Hs & Hall). exists shown. auto. }
    destruct (GetIsPromptDisabled (BuilderVar.Name v) vds).
    { destruct (String.eqb _ "").
      - exists []. split; [ by rewrite app_nil_r | constructor ].
      - destruct (IH (<[BuilderVar.Name v :=
                         GetVariableDefaultValue (BuilderVar.Name v) vds inputs]> inputs) t)
          as (shown & Hs & Hall).
        exists shown. auto. }
    assert (Hone : forall label, prompt_of v label -> asked_for (v :: variables) skipMap label).
    { intros label Hp. exists v. split; [ left; reflexivity | split; assumption ]. }
    destruct (String.eqb (BuilderVar.VarType v) "bool").
    + destruct (RunBoolPrompt_stdout v t) as (label & Hp & Hs).
      destruct (RunBoolPrompt v t) as [t' [input [err | ]]]; simpl in Hs.
      * exists [label]. split; [ exact Hs | constructor; [ auto | constructor ] ].
      * destruct (IH (<[BuilderVar.Name v := input]> inputs) t') as (shown & Hs' & Hall).
        exists (label :: shown). split.
        -- rewrite Hs', Hs, <- app_assoc. reflexivity.
        -- constructor; auto.
    + destruct (RunDefaultableStringPrompt_stdout v
                  (GetVariableDefaultValue (BuilderVar.Name v) vds inputs) None t)
        as (label & Hp & Hs).
      destruct (RunDefaultableStringPrompt v _ None t) as [t' [input [err | ]]]; simpl in Hs.
      * exists [label]. split; [ exact Hs | constructor; [ auto | constructor ] ].
      * destruct (IH (<[BuilderVar.Name v := input]> inputs) t') as (shown & Hs' & Hall).
        exists (label :: shown). split.
        -- rewrite Hs', Hs, <- app_assoc. reflexivity.
        -- constructor; auto.
Qed.

(** The first loop assigns nothing to a skipped name. *)
Lemma promptEach_skipped vds skipMap variables inputs t t' inputs' name :
  name ∈ skipMap ->
  promptEach vds skipMap variables inputs t = (t', inl inputs') ->
  inputs' !! name = inputs !! name.
Proof.
  intros Hskip. revert inputs t.
  induction variables as [| v variables IH]; intros inputs t Hrun; simpl in Hrun.
  - congruence.
  - destruct (decide (BuilderVar.Name v ∈ skipMap)) as [Hin | Hnotin]; [ eauto | ].
    assert (Hne : BuilderVar.Name v <> name).
    { intros Heq. apply Hnotin. rewrite Heq. exact Hskip. }
    destruct (GetIsPromptDisabled (BuilderVar.Name v) vds).
    { destruct (String.eqb _ ""); [ discriminate | ].
      rewrite (IH _ _ Hrun). by apply lookup_insert_ne. }
    destruct (String.eqb (BuilderVar.VarType v) "bool").
    + destruct (RunBoolPrompt v t) as [t1 [input [err | ]]]; [ discriminate | ].
      rewrite (IH _ _ Hrun). by apply lookup_insert_ne.
    + destruct (RunDefaultableStringPrompt v _ None t) as [t1 [input [err | ]]];
        [ discriminate | ].
      rewrite (IH _ _ Hrun). by apply lookup_insert_ne.
Qed.


(** What the second loop leaves for a name depends on what it finds for
    that name only. *)
Lemma substituteDefaults_local vds inputs1 inputs2 name :
  inputs1 !! name = inputs2 !! name ->
  substituteDefaults vds inputs1 !! name = substituteDefaults vds inputs2 !! name.
Proof.
  revert inputs1 inputs2.
  induction vds as [| vd vds IH]; intros inputs1 inputs2 Heq; simpl; [ exact Heq | ].
  destruct (decide (BuilderVarDefault.Name vd = name)) as [-> | Hne].
  - assert (Hget : get inputs1 name = get inputs2 name)
      by (unfold get; rewrite Heq; reflexivity).
    rewrite Hget.
    destruct (String.eqb _ ""); apply IH; [ | exact Heq ].
    by rewrite !lookup_insert_eq.
  - destruct (String.eqb (get inputs1 _) ""), (String.eqb (get inputs2 _) "");
      apply IH; rewrite ?lookup_insert_ne by exact Hne; exact Heq.
Qed.

Lemma substituteDefaults_undeclared vds inputs name :
  Forall (fun vd => ~ declares name vd) vds ->
  substituteDefaults vds inputs !! name = inputs !! name.
Proof.
  revert inputs. induction vds as [| vd vds IH]; intros inputs Hall; simpl.
  - reflexivity.
  - inversion Hall as [| ? ? Hvd Hrest]; subst.
    destruct (String.eqb _ ""); rewrite IH by exact Hrest; [ | reflexivity ].
    apply lookup_insert_ne. exact Hvd.
Qed.

Lemma substituteDefaults_declared_once pre vd post inputs :
  Forall (fun d => ~ declares (BuilderVarDefault.Name vd) d) pre ->
  Forall (fun d => ~ declares (BuilderVarDefault.Name vd) d) post ->
  inputs !! BuilderVarDefault.Name vd = None ->
  substituteDefaults (pre ++ vd :: post) inputs !! BuilderVarDefault.Name vd
  = Some (BuilderVarDefault.Value vd).
Proof.
  revert inputs. induction pre as [| d pre IH]; intros inputs Hpre Hpost Hnone; simpl.
  - unfold get. rewrite Hnone. simpl.
    rewrite substituteDefaults_undeclared by exact Hpost.
    apply lookup_insert_eq.
  - inversion Hpre as [| ? ? Hd Hrest]; subst.
    destruct (String.eqb _ ""); apply IH; try assumption.
    rewrite lookup_insert_ne by exact Hd. exact Hnone.
Qed.
End Resolution.

(** C2 (as amended).  A variable whose name is in the skip set is never
    asked for: every prompt that [RunPromptsFromConfigWithSkipsIO] shows
    belongs to a variable that is not skipped.  Nor does the per-variable
    loop give it a value.  In the returned map its entry is what the final
    default-substitution pass alone makes of it: no entry when
    [VariableDefaults] does not declare the name, and the declared default
    value when it declares the name once. *)
Theorem skipped_variable_only_defaulted :
  forall (cfg : config.DraftConfig) (varsToSkip : list string)
         (t : promptui.terminal) (name : string),
    In name varsToSkip ->
    let run := prompts.RunPromptsFromConfigWithSkipsIO cfg varsToSkip t in
    (exists shown,
        promptui.stdout run.1 = (promptui.stdout t ++ shown)%list
        /\ Forall (asked_for (config.Variables cfg) (list_to_set varsToSkip)) shown)
    /\ (forall m, run.2.1 = Some m ->
          m !! name = prompts.substituteDefaults (config.VariableDefaults cfg) ∅ !! name
          /\ (Forall (fun vd => ~ declares name vd) (config.VariableDefaults cfg) ->
              m !! name = None)
          /\ (forall pre vd post,
                config.VariableDefaults cfg = (pre ++ vd :: post)%list ->
                declares name vd ->
                Forall (fun d => ~ declares name d) pre ->
                Forall (fun d => ~ declares name d) post ->
                m !! name = Some (config.BuilderVarDefault.Value vd))).
Proof.
  intros cfg varsToSkip t name Hin run.
  assert (Hskip : name ∈ (list_to_set varsToSkip : gset string)).
  { apply elem_of_list_to_set, list_elem_of_In. exact Hin. }
  subst run. unfold prompts.RunPromptsFromConfigWithSkipsIO.
  pose proof (promptEach_stdout (config.VariableDefaults cfg) (list_to_set varsToSkip)
                (config.Variables cfg) ∅ t) as Hshown.
  pose proof (promptEach_skipped (config.VariableDefaults cfg) (list_to_set varsToSkip)
                (config.Variables cfg) ∅ t) as Hkeep.
  destruct (prompts.promptEach _ _ _ ∅ t) as [t' [inputs | err]]; simpl.
  - split; [ exact Hshown | ].
    intros m [= <-].
    specialize (Hkeep t' inputs name Hskip eq_refl).
    assert (Hm : prompts.substituteDefaults (config.VariableDefaults cfg) inputs !! name
                 = prompts.substituteDefaults (config.VariableDefaults cfg) ∅ !! name).
    { apply substituteDefaults_local. exact Hkeep. }
    split; [ exact Hm | split ].
    + intros Hund. rewrite Hm, substituteDefaults_undeclared by exact Hund.
      apply lookup_empty.
    + intros pre vd post Hsplit Hname Hpre Hpost. rewrite Hm, Hsplit.
      unfold declares in Hname. subst name.
      apply substituteDefaults_declared_once; try assumption.
      apply lookup_empty.
  - split; [ exact Hshown | ]. intros m Hm. discriminate Hm.
Qed.

Lemma skipped_variable_only_defaulted_witness :
  exists m,
    (prompts.RunPromptsFromConfigWithSkipsIO sample.defaulted ["A"] sample.silent).2.1 = Some m
    /\ m !! "A" = Some "x".
Proof.
  eexists. split; [ reflexivity | ].
  pose proof (skipped_variable_only_defaulted sample.defaulted ["A"] sample.silent "A"
                (or_introl eq_refl)) as [_ Hres].
  destruct (Hres _ eq_refl) as (_ & _ & Honce).
  apply (Honce [] (config.BuilderVarDefault.mk "A" "x" "" false) []).
  - reflexivity.
  - reflexivity.
  - constructor.
  - constructor.
Defined.

(** C2 as stated fails: the skipped variable A, declared with the default
    "x", is a key of the returned map. *)
Lemma skipped_variable_with_default_is_a_key :
  (exists m,
      (prompts.RunPromptsFromConfigWithSkipsIO sample.defaulted ["A"] sample.silent).2
      = (Some m, nil_error)
      /\ m !! "A" = Some "x")
  /\ ~ (forall (cfg : config.DraftConfig) (varsToSkip : list string)
               (t : promptui.terminal) (name : string) (m : gmap string string),
          In name varsToSkip ->
          (prompts.RunPromptsFromConfigWithSkipsIO cfg varsToSkip t).2.1 = Some m ->
          m !! name = None).
Proof.
  split.
  - eexists. split; [ reflexivity | ]. vm_compute. reflexivity.
  - intros Hclaim.
    specialize (Hclaim sample.defaulted ["A"] sample.silent "A" _ (or_introl eq_refl) eq_refl).
    vm_compute in Hclaim. discriminate Hclaim.
Qed.




(** ** Command-line overrides *)

Section Overrides.
Import cmd.

Lemma Cut_found s : (strings.Cut s "=").2 = strings.Contains s "=".
Proof.
  induction s as [| c s IH]; [ reflexivity | ].
  cbn [strings.Cut strings.Contains].
  destruct (strings.HasPrefix (String c s) "=") eqn:Hp; [ reflexivity | ].
  simpl. rewrite <- IH.
  destruct (strings.Cut s "=") as [[b a] [ | ]]; reflexivity.
Qed.

Lemma HasPrefix_equals c s :
  strings.HasPrefix (String c s) "=" = true <-> c = "="%char.
Proof.
  unfold strings.HasPrefix. cbn [String.prefix].
  destruct (ascii_dec "=" c) as [Heq | Hne]; split; intros H.
  - symmetry. exact Heq.
  - destruct s; reflexivity.
  - discriminate H.
  - exfalso. apply Hne. symmetry. exact H.
Qed.

(** A well-formed string is cut at its first "=". *)
Lemma Cut_first s :
  wellFormed s ->
  s = flagName s +:+ "=" +:+ flagValue s /\ strings.Contains (flagName s) "=" = false.
Proof.
  unfold wellFormed, flagName, flagValue.
  induction s as [| c s IH]; intros Hwf; [ discriminate Hwf | ].
  cbn [strings.Cut strings.Contains] in *.
  destruct (strings.HasPrefix (String c s) "=") eqn:Hp.
  - apply HasPrefix_equals in Hp. subst c. split; reflexivity.
  - simpl in Hwf. specialize (IH Hwf).
    pose proof (Cut_found s) as Hf. rewrite Hwf in Hf.
    destruct (strings.Cut s "=") as [[b a] found]. simpl in Hf. subst found.
    cbn [fst snd] in *. destruct IH as [IHs IHn]. split.
    + change (String c b +:+ "=" +:+ a) with (String c (b +:+ "=" +:+ a)).
      f_equal. exact IHs.
    + cbn [strings.Contains]. rewrite IHn, orb_false_r.
      destruct (strings.HasPrefix (String c b) "=") eqn:Hq; [ | reflexivity ].
      apply HasPrefix_equals in Hq. subst c.
      assert (Ht : strings.HasPrefix (String "=" s) "=" = true)
        by (apply HasPrefix_equals; reflexivity).
      congruence.
Qed.

Lemma setFlagVariables_cons_wellFormed s rest m :
  wellFormed s ->
  setFlagVariables (s :: rest) m
  = setFlagVariables rest (<[flagName s := flagValue s]> m).
Proof.
  intros Hwf. simpl. unfold flagName, flagValue.
  pose proof (Cut_found s) as Hf. rewrite Hwf in Hf.
  destruct (strings.Cut s "=") as [[b a] found]. simpl in Hf. subst found. reflexivity.
Qed.

Lemma setFlagVariables_cons_malformed s rest m :
  malformed s ->
  setFlagVariables (s :: rest) m = (m, Some (invalidFormat s)).
Proof.
  intros Hbad. simpl.
  pose proof (Cut_found s) as Hf. rewrite Hbad in Hf.
  destruct (strings.Cut s "=") as [[b a] found]. simpl in Hf. subst found. reflexivity.
Qed.

(** The overrides before the first malformed string are assigned. *)
Lemma setFlagVariables_app pre rest m :
  Forall wellFormed pre ->
  setFlagVariables (pre ++ rest) m
  = setFlagVariables rest (assigned pre m).
Proof.
  intros Hpre. revert m. induction Hpre as [| s pre Hs _ IH]; intros m.
  - reflexivity.
  - rewrite <- app_comm_cons, setFlagVariables_cons_wellFormed by exact Hs.
    apply IH.
Qed.

Lemma overridden_cons s l m name :
  overridden (s :: l) m name = overridden l (<[flagName s := flagValue s]> m) name.
Proof.
  unfold overridden. rewrite filter_cons.
  destruct (decide (named name s)) as [Hn | Hn].
  - rewrite last_cons. destruct (last (filter (named name) l)); [ reflexivity | ].
    unfold named in Hn. rewrite Hn. symmetry. apply lookup_insert_eq.
  - destruct (last (filter (named name) l)); [ reflexivity | ].
    symmetry. apply lookup_insert_ne. exact Hn.
Qed.

Lemma setFlagVariables_all l m :
  Forall wellFormed l ->
  exists m', setFlagVariables l m = (m', nil_error)
             /\ forall name, m' !! name = overridden l m name.
Proof.
  intros Hall. revert m. induction Hall as [| s l Hs _ IH]; intros m.
  - exists m. split; reflexivity.
  - rewrite setFlagVariables_cons_wellFormed by exact Hs.
    destruct (IH (<[flagName s := flagValue s]> m)) as (m' & Hrun & Hlook).
    exists m'. split; [ exact Hrun | ].
    intros name. rewrite overridden_cons. apply Hlook.
Qed.

Lemma first_malformed l :
  Exists malformed l ->
  exists pre bad post,
    l = (pre ++ bad :: post)%list /\ Forall wellFormed pre /\ malformed bad.
Proof.
  induction l as [| s l IH]; intros Hex; [ inversion Hex | ].
  destruct (strings.Contains s "=") eqn:Hs.
  - assert (Hrest : Exists malformed l).
    { inversion Hex as [? ? Hbad | ? ? Hrest]; subst; [ | exact Hrest ].
      unfold malformed in Hbad. congruence. }
    destruct (IH Hrest) as (pre & bad & post & -> & Hpre & Hbad).
    exists (s :: pre), bad, post. repeat split; [ | exact Hbad ].
    constructor; assumption.
  - exists [], s, l. repeat split; [ constructor | exact Hs ].
Qed.

(** No later assignment touches a name that no later string has. *)
Lemma setFlagVariables_other l m name :
  Forall (fun s => ~ named name s) l ->
  (setFlagVariables l m).1 !! name = m !! name.
Proof.
  intros Hall. revert m. induction Hall as [| s l Hs _ IH]; intros m; [ reflexivity | ].
  simpl. unfold named, flagName in Hs.
  destruct (strings.Cut s "=") as [[b a] [ | ]]; simpl in *; [ | reflexivity ].
  rewrite IH. apply lookup_insert_ne. exact Hs.
Qed.

Lemma setFlagVariables_last pre s post m :
  Forall wellFormed pre -> wellFormed s ->
  Forall (fun s' => ~ named (flagName s) s') post ->
  (setFlagVariables (pre ++ s :: post) m).1 !! flagName s = Some (flagValue s).
Proof.
  intros Hpre Hs Hpost.
  rewrite setFlagVariables_app by exact Hpre.
  rewrite setFlagVariables_cons_wellFormed by exact Hs.
  rewrite setFlagVariables_other by exact Hpost.
  apply lookup_insert_eq.
Qed.

Lemma assigned_lookup l m name : assigned l m !! name = overridden l m name.
Proof.
  revert m. induction l as [| s l IH]; intros m; [ reflexivity | ].
  rewrite overridden_cons. apply IH.
Qed.

Lemma createFlagMap_malformed nflag we pre bad post :
  Forall wellFormed pre -> malformed bad ->
  createFlagMap nflag we (pre ++ bad :: post)
  = (assigned pre (if Nat.eqb nflag 0 then ∅ else workflows.BuildMap we),
     (None, Some (invalidFormat bad))).
Proof.
  intros Hpre Hbad. unfold createFlagMap.
  rewrite setFlagVariables_app by exact Hpre.
  rewrite setFlagVariables_cons_malformed by exact Hbad. reflexivity.
Qed.

Context {W : Type}.
Variable GetConfig : string -> string -> config.DraftConfig + string.
Variable CreateWorkflowFiles : string -> string -> gmap string string -> W -> W * error.

(** The shape of every run of [generateWorkflows] on a non-nil map: the
    flag values map it leaves is the one the override loop produced, and
    either the writer is untouched or the run ended in
    [CreateWorkflowFiles], called on resolved inputs overlaid with the
    flag values. *)
Lemma generateWorkflows_shape dest deployType flagVariables tw m0 t :
  let r := generateWorkflows GetConfig CreateWorkflowFiles dest deployType
             flagVariables tw (Some m0) t in
  let m := (setFlagVariables flagVariables m0).1 in
  flagValues r.1 = Some m
  /\ (writer r.1 = tw
      \/ exists deployType' resolved,
           (setFlagVariables flagVariables m0).2 = nil_error
           /\ (writer r.1, r.2)
              = CreateWorkflowFiles dest deployType' (Copy resolved m) tw).
Proof.
  unfold generateWorkflows.
  destruct (setFlagVariables flagVariables m0) as [m [err | ]]; simpl.
  { split; [ reflexivity | left; reflexivity ]. }
  destruct (if String.eqb deployType "" then _ else _) as [t1 [dt [err | ]]]; simpl.
  { split; [ reflexivity | left; reflexivity ]. }
  destruct (GetConfig dest dt) as [cfg | err]; simpl.
  2: { split; [ reflexivity | left; reflexivity ]. }
  destruct (prompts.RunPromptsFromConfigWithSkips cfg (Keys m) t1)
    as [t2 [[resolved | ] [err | ]]]; simpl;
    try (split; [ reflexivity | left; reflexivity ]).
  destruct (CreateWorkflowFiles dest dt (Copy resolved m) tw) as [tw' err] eqn:Hc; simpl.
  split; [ reflexivity | right ].
  exists dt, resolved. split; [ reflexivity | ]. rewrite Hc. reflexivity.
Qed.

Lemma generateWorkflows_malformed dest deployType pre bad post tw m0 t :
  Forall wellFormed pre -> malformed bad ->
  generateWorkflows GetConfig CreateWorkflowFiles dest deployType
    (pre ++ bad :: post) tw (Some m0) t
  = (mkAfter (Some (assigned pre m0)) t tw,
     Some (invalidFormat bad)).
Proof.
  intros Hpre Hbad. unfold generateWorkflows.
  rewrite setFlagVariables_app by exact Hpre.
  rewrite setFlagVariables_cons_malformed by exact Hbad. reflexivity.
Qed.
End Overrides.

(** C8 (as amended).  The override strings are taken in order.  If one of
    them contains no "=", processing stops at the first such string with
    the invalid-format error naming it: [createFlagMap] returns a nil map,
    [generateWorkflows] asks nothing and writes nothing, and no later
    string is looked at; the strings before it have been entered into the
    flag values map already, and stay there.  If every string contains
    "=", each is split at its first "=" into a name and a value that is
    entered into the flag values map, a later string overriding an earlier
    one of the same name. *)
Theorem override_strings_taken_in_order :
  forall flagVariables : list string,
    (Exists malformed flagVariables ->
       exists pre bad post,
         flagVariables = (pre ++ bad :: post)%list
         /\ Forall wellFormed pre /\ malformed bad
         /\ (forall (nflag : nat) (workflowEnv : workflows.WorkflowEnv),
               cmd.createFlagMap nflag workflowEnv flagVariables
               = (assigned pre (if Nat.eqb nflag 0 then ∅ else workflows.BuildMap workflowEnv),
                  (None, Some (invalidFormat bad))))
         /\ (forall (W : Type)
                    (GetConfig : string -> string -> config.DraftConfig + string)
                    (CreateWorkflowFiles :
                       string -> string -> gmap string string -> W -> W * error)
                    (dest deployType : string) (templateWriter : W)
                    (m0 : gmap string string) (t : promptui.terminal),
               cmd.generateWorkflows GetConfig CreateWorkflowFiles dest deployType
                 flagVariables templateWriter (Some m0) t
               = (cmd.mkAfter (Some (assigned pre m0)) t templateWriter,
                  Some (invalidFormat bad))))
    /\ (Forall wellFormed flagVariables ->
          (forall flagVar, In flagVar flagVariables ->
             flagVar = flagName flagVar +:+ "=" +:+ flagValue flagVar
             /\ strings.Contains (flagName flagVar) "=" = false)
          /\ (forall (nflag : nat) (workflowEnv : workflows.WorkflowEnv),
                exists m,
                  cmd.createFlagMap nflag workflowEnv flagVariables = (m, (Some m, nil_error))
                  /\ forall name,
                       m !! name
                       = overridden flagVariables
                           (if Nat.eqb nflag 0 then ∅ else workflows.BuildMap workflowEnv) name)
          /\ (forall (W : Type)
                     (GetConfig : string -> string -> config.DraftConfig + string)
                     (CreateWorkflowFiles :
                        string -> string -> gmap string string -> W -> W * error)
                     (dest deployType : string) (templateWriter : W)
                     (m0 : gmap string string) (t : promptui.terminal),
                exists m,
                  cmd.flagValues
                    (cmd.generateWorkflows GetConfig CreateWorkflowFiles dest deployType
                       flagVariables templateWriter (Some m0) t).1 = Some m
                  /\ forall name, m !! name = overridden flagVariables m0 name)).
Proof.
  intros flagVariables. split.
  - intros Hex.
    destruct (first_malformed flagVariables Hex) as (pre & bad & post & -> & Hpre & Hbad).
    exists pre, bad, post. repeat split; try assumption.
    + intros. apply createFlagMap_malformed; assumption.
    + intros. apply generateWorkflows_malformed; assumption.
  - intros Hall. repeat split.
    + apply Cut_first. rewrite Forall_forall in Hall. apply Hall.
      apply list_elem_of_In. assumption.
    + apply Cut_first. rewrite Forall_forall in Hall. apply Hall.
      apply list_elem_of_In. assumption.
    + intros nflag workflowEnv. unfold cmd.createFlagMap.
      destruct (setFlagVariables_all flagVariables
                  (if Nat.eqb nflag 0 then ∅ else workflows.BuildMap workflowEnv) Hall)
        as (m & Hrun & Hlook).
      exists m. rewrite Hrun. split; [ reflexivity | exact Hlook ].
    + intros W GetConfig CreateWorkflowFiles dest deployType templateWriter m0 t.
      destruct (generateWorkflows_shape GetConfig CreateWorkflowFiles dest deployType
                  flagVariables templateWriter m0 t) as [Hflags _].
      destruct (setFlagVariables_all flagVariables m0 Hall) as (m & Hrun & Hlook).
      rewrite Hrun in Hflags. exists m. split; [ exact Hflags | exact Hlook ].
Qed.

Lemma override_strings_taken_in_order_witness :
  (exists pre bad post,
      ["A=1"; "bad"; "B=2"] = (pre ++ bad :: post)%list
      /\ Forall wellFormed pre /\ malformed bad
      /\ (forall (nflag : nat) (workflowEnv : workflows.WorkflowEnv),
            cmd.createFlagMap nflag workflowEnv ["A=1"; "bad"; "B=2"]
            = (assigned pre (if Nat.eqb nflag 0 then ∅ else workflows.BuildMap workflowEnv),
               (None, Some (invalidFormat bad)))))
  /\ (exists m,
        cmd.createFlagMap 0 sample.emptyEnv ["A=1"; "B=x=y"; "A=3"] = (m, (Some m, nil_error))
        /\ m !! "A" = Some "3" /\ m !! "B" = Some "x=y").
Proof.
  split.
  - destruct (proj1 (override_strings_taken_in_order ["A=1"; "bad"; "B=2"]))
      as (pre & bad & post & Hsplit & Hpre & Hbad & Hcreate & _).
    { right. left. reflexivity. }
    exists pre, bad, post. auto.
  - destruct (proj2 (override_strings_taken_in_order ["A=1"; "B=x=y"; "A=3"]))
      as (_ & Hcreate & _).
    { repeat constructor. }
    destruct (Hcreate 0 sample.emptyEnv) as (m & Hrun & Hlook).
    exists m. split; [ exact Hrun | ].
    rewrite !Hlook. split; reflexivity.
Defined.

(** C8 as stated fails: after the abort on "bad", the flag values map that
    [generateWorkflows] was given holds the value of the earlier string
    "A=1". *)
Lemma earlier_overrides_stay_assigned :
  (let run :=
     cmd.generateWorkflows (W := unit) (fun _ _ => inr "no config")
       (fun _ _ _ w => (w, nil_error)) "." "helm" ["A=1"; "bad"] tt (Some ∅) sample.silent in
   run.2 = Some "invalid variable format: bad"
   /\ exists m, cmd.flagValues run.1 = Some m /\ m !! "A" = Some "1")
  /\ ~ (forall (flagVariables : list string) (m0 : gmap string string),
          Exists malformed flagVariables ->
          cmd.flagValues
            (cmd.generateWorkflows (W := unit) (fun _ _ => inr "no config")
               (fun _ _ _ w => (w, nil_error)) "." "helm" flagVariables tt (Some m0)
               sample.silent).1 = Some m0).
Proof.
  split.
  - split; [ reflexivity | ]. eexists. split; [ reflexivity | ]. vm_compute. reflexivity.
  - intros Hclaim.
    specialize (Hclaim ["A=1"; "bad"] ∅).
    assert (Hex : Exists malformed ["A=1"; "bad"]) by (right; left; reflexivity).
    specialize (Hclaim Hex).
    apply (f_equal (fun o : option (gmap string string) =>
                      match o with Some m => m !! "A" | None => None end)) in Hclaim.
    vm_compute in Hclaim. discriminate Hclaim.
Qed.

(** ** Precedence between the configuration and the overrides *)

(** C3 (as amended).  When the configuration struct supplies a value for a
    variable and a command-line override names the same variable, the
    value of the override (of the last such override) is the one present
    in the final flag values map, and it is the one in the inputs handed
    to [CreateWorkflowFiles] when the run gets that far. *)
Theorem command_line_override_wins :
  forall (W : Type)
         (GetConfig : string -> string -> config.DraftConfig + string)
         (CreateWorkflowFiles : string -> string -> gmap string string -> W -> W * error)
         (nflag : nat) (workflowConfig : workflows.WorkflowConfig)
         (dest deployType : string) (pre : list string) (flagVar : string)
         (post : list string) (templateWriter : W) (t : promptui.terminal)
         (configValue : string),
    nflag <> 0 ->
    workflows.SetFlagValuesToMap workflowConfig !! flagName flagVar = Some configValue ->
    Forall wellFormed pre -> wellFormed flagVar ->
    Forall (fun later => ~ named (flagName flagVar) later) post ->
    let run := cmd.RunE GetConfig CreateWorkflowFiles nflag workflowConfig dest deployType
                 (pre ++ flagVar :: post) templateWriter t in
    (exists m, cmd.flagValues run.1 = Some m
               /\ m !! flagName flagVar = Some (flagValue flagVar))
    /\ (cmd.writer run.1 = templateWriter
        \/ exists deployType' customInputs,
             customInputs !! flagName flagVar = Some (flagValue flagVar)
             /\ (cmd.writer run.1, run.2)
                = CreateWorkflowFiles dest deployType' customInputs templateWriter).
Proof.
  intros W GetConfig CreateWorkflowFiles nflag workflowConfig dest deployType pre flagVar
         post templateWriter t configValue _ _ Hpre Hwf Hpost run.
  subst run. unfold cmd.RunE.
  set (m0 := if Nat.eqb nflag 0 then ∅ else workflows.SetFlagValuesToMap workflowConfig).
  destruct (generateWorkflows_shape GetConfig CreateWorkflowFiles dest deployType
              (pre ++ flagVar :: post) templateWriter m0 t) as [Hflags Hwriter].
  pose proof (setFlagVariables_last pre flagVar post m0 Hpre Hwf Hpost) as Hlast.
  split.
  - eexists. split; [ exact Hflags | exact Hlast ].
  - destruct Hwriter as [Hsame | (dt & resolved & _ & Hcall)]; [ left; exact Hsame | ].
    right. exists dt. eexists. split; [ | exact Hcall ].
    unfold cmd.Copy. apply lookup_union_Some_l. exact Hlast.
Qed.

Lemma command_line_override_wins_witness :
  let run := cmd.RunE (W := unit) (fun _ _ => inr "no config") (fun _ _ _ w => (w, nil_error))
               1 sample.registryOnly "." "helm" ["AZURECONTAINERREGISTRY=fromflag"]
               tt sample.silent in
  exists m, cmd.flagValues run.1 = Some m
            /\ m !! "AZURECONTAINERREGISTRY" = Some "fromflag".
Proof.
  refine (proj1 (command_line_override_wins unit (fun _ _ => inr "no config")
                   (fun _ _ _ w => (w, nil_error)) 1 sample.registryOnly "." "helm"
                   [] "AZURECONTAINERREGISTRY=fromflag" [] tt sample.silent "fromconfig"
                   _ _ _ _ _)).
  - discriminate.
  - vm_compute. reflexivity.
  - constructor.
  - reflexivity.
  - constructor.
Defined.

(** C3 as stated fails: the registry name is given as "fromconfig" by the
    configuration struct and as "fromflag" by an override; the final flag
    values map holds "fromflag". *)
Lemma config_value_is_overridden :
  workflows.SetFlagValuesToMap sample.registryOnly !! "AZURECONTAINERREGISTRY"
    = Some "fromconfig"
  /\ (exists m,
        cmd.flagValues
          (cmd.RunE (W := unit) (fun _ _ => inr "no config") (fun _ _ _ w => (w, nil_error))
             1 sample.registryOnly "." "helm" ["AZURECONTAINERREGISTRY=fromflag"]
             tt sample.silent).1 = Some m
        /\ m !! "AZURECONTAINERREGISTRY" = Some "fromflag")
  /\ ~ (forall (nflag : nat) (workflowConfig : workflows.WorkflowConfig)
               (flagVariables : list string) (flagVar name configValue : string)
               (m : gmap string string),
          nflag <> 0 ->
          workflows.SetFlagValuesToMap workflowConfig !! name = Some configValue ->
          In flagVar flagVariables -> wellFormed flagVar -> flagName flagVar = name ->
          cmd.flagValues
            (cmd.RunE (W := unit) (fun _ _ => inr "no config") (fun _ _ _ w => (w, nil_error))
               nflag workflowConfig "." "helm" flagVariables tt sample.silent).1 = Some m ->
          m !! name = Some configValue).
Proof.
  split; [ vm_compute; reflexivity | split ].
  - eexists. split; [ reflexivity | ]. vm_compute. reflexivity.
  - intros Hclaim.
    assert (H : ({["AZURECONTAINERREGISTRY" := "fromflag"]} : gmap string string)
                !! "AZURECONTAINERREGISTRY" = Some "fromconfig").
    { apply (Hclaim 1 sample.registryOnly ["AZURECONTAINERREGISTRY=fromflag"]
               "AZURECONTAINERREGISTRY=fromflag" "AZURECONTAINERREGISTRY" "fromconfig").
      - discriminate.
      - vm_compute. reflexivity.
      - left. reflexivity.
      - reflexivity.
      - reflexivity.
      - vm_compute. reflexivity. }
    vm_compute in H. discriminate H.
Qed.

(** ** Materialization *)

Section Materialization.
Import osutil.

Lemma entry_ind (P : entry -> Prop) :
  (forall n d, P (File n d)) ->
  (forall n children, Forall P children -> P (Dir n children)) ->
  (forall n b e, P (Broken n b e)) ->
  forall e, P e.
Proof.
  intros HFile HDir HBroken.
  exact (fix IH (e : entry) : P e :=
           match e with
           | File n d => HFile n d
           | Dir n children =>
               HDir n children
                 ((fix all (l : list entry) : Forall P l :=
                     match l with
                     | [] => List.Forall_nil P
                     | f :: rest => @List.Forall_cons _ P f rest (IH f) (all rest)
                     end) children)
           | Broken n b err => HBroken n b err
           end).
Qed.

Variable cfg : option config.DraftConfig.
Variable customInputs : list (string * string).

Lemma written_from_here n children dest name data :
  In (File name data) children -> name <> reserved ->
  written_from cfg customInputs (Dir n children) dest
    (dest +:+ "/" +:+ checkNameOverrides name cfg) (replaceEach customInputs data).
Proof.
  intros Hin Hname. exists dest, name, data.
  split; [ apply located_here; exact Hin | ]. auto.
Qed.

Lemma written_from_below n children sub dest path data :
  In sub children ->
  written_from cfg customInputs sub (dest +:+ "/" +:+ Name sub) path data ->
  written_from cfg customInputs (Dir n children) dest path data.
Proof.
  intros Hin (dir & name & content & Hloc & Hname & Hpath & Hdata).
  exists dir, name, content. split; [ | auto ].
  eapply located_below; eassumption.
Qed.

Section Traced.
Context {W : Type} `{TemplateWriter W}.

Lemma writes_only_from_refl src dest (tw : list call * W) err :
  writes_only_from cfg customInputs src dest tw (tw, err).
Proof.
  exists []. split; [ simpl; by rewrite app_nil_r | ]. intros ? ? ? [].
Qed.

Lemma copyEntries_traced n children dest fs :
  incl fs children ->
  Forall (fun f => forall d tw, writes_only_from cfg customInputs f d tw (CopyDir cfg customInputs f d tw)) fs ->
  forall tw,
    writes_only_from cfg customInputs (Dir n children) dest tw
      (copyEntries cfg customInputs (fun f d t => CopyDir cfg customInputs f d t) dest fs tw).
Proof.
  intros Hincl Hall. induction Hall as [| f fs Hf _ IH]; intros tw.
  - apply writes_only_from_refl.
  - assert (Hin : In f children) by (apply Hincl; left; reflexivity).
    assert (Hrest : incl fs children) by (intros x Hx; apply Hincl; right; exact Hx).
    specialize (IH Hrest).
    cbn [copyEntries].
    destruct (String.eqb_spec (Name f) reserved) as [Hres | Hres]; [ apply IH | ].
    destruct (IsDir f) eqn:Hdir.
    + (* a directory: EnsureDirectory, then the recursive call *)
      destruct tw as [log w]. cbn [EnsureDirectory TracedWriter snd fst].
      destruct (EnsureDirectory (dest +:+ "/" +:+ Name f) w) as [w1 err1].
      set (tw1 := ((log ++ [EnsureDirectoryCall (dest +:+ "/" +:+ Name f)])%list, w1)).
      destruct err1 as [err1 | ].
      { exists [EnsureDirectoryCall (dest +:+ "/" +:+ Name f)].
        split; [ reflexivity | ].
        intros path data mode [Hc | []]. discriminate Hc. }
      destruct (Hf (dest +:+ "/" +:+ Name f) tw1) as (calls & Hcalls & Hfrom).
      destruct (CopyDir cfg customInputs f (dest +:+ "/" +:+ Name f) tw1) as [tw2 err2].
      assert (Hsub : forall path data mode,
                 In (WriteFileCall path data mode)
                    (EnsureDirectoryCall (dest +:+ "/" +:+ Name f) :: calls) ->
                 written_from cfg customInputs (Dir n children) dest path data).
      { intros path data mode [Hc | Hc]; [ discriminate Hc | ].
        eapply written_from_below; [ exact Hin | eapply Hfrom; exact Hc ]. }
      destruct err2 as [err2 | ].
      { exists (EnsureDirectoryCall (dest +:+ "/" +:+ Name f) :: calls).
        split; [ | exact Hsub ].
        simpl in *. rewrite Hcalls. subst tw1. simpl. by rewrite <- app_assoc. }
      destruct (IH tw2) as (calls' & Hcalls' & Hfrom').
      exists ((EnsureDirectoryCall (dest +:+ "/" +:+ Name f) :: calls) ++ calls')%list.
      split.
      * rewrite Hcalls'. simpl in Hcalls. rewrite Hcalls. subst tw1. simpl.
        by rewrite <- !app_assoc.
      * intros path data mode Hc. apply in_app_or in Hc as [Hc | Hc]; eauto.
    + (* a file: the replacement, then WriteFile *)
      destruct f as [name data | name sub | name isDir err]; simpl in Hdir;
        try discriminate Hdir; subst; cbn [handleTemplateReplacement ReadFile nil_error].
      2: { apply writes_only_from_refl. }
      cbn [Name] in *.
      destruct tw as [log w]. cbn [WriteFile TracedWriter snd fst].
      destruct (WriteFile (dest +:+ "/" +:+ checkNameOverrides name cfg)
                  (replaceEach customInputs data) 420%N w) as [w1 err1].
      set (c := WriteFileCall (dest +:+ "/" +:+ checkNameOverrides name cfg)
                  (replaceEach customInputs data) 420%N).
      assert (Hc1 : forall path data' mode, In (WriteFileCall path data' mode) [c] ->
                written_from cfg customInputs (Dir n children) dest path data').
      { intros path data' mode [Hc | []]. subst c. injection Hc as <- <- <-.
        apply written_from_here; assumption. }
      destruct err1 as [err1 | ].
      { exists [c]. split; [ reflexivity | exact Hc1 ]. }
      destruct (IH ((log ++ [c])%list, w1)) as (calls' & Hcalls' & Hfrom').
      exists (c :: calls'). split.
      * rewrite Hcalls'. simpl. by rewrite <- app_assoc.
      * intros path data' mode [Hc | Hc]; [ apply (Hc1 path data' mode); left; exact Hc | eauto ].
Qed.

Lemma CopyDir_traced src :
  forall dest tw, writes_only_from cfg customInputs src dest tw (CopyDir cfg customInputs src dest tw).
Proof.
  induction src as [n d | n children IH | n b e] using entry_ind; intros dest tw.
  - apply writes_only_from_refl.
  - cbn [CopyDir]. apply copyEntries_traced; [ intros x Hx; exact Hx | exact IH ].
  - apply writes_only_from_refl.
Qed.
End Traced.

Lemma collectEntries_keys n children dest fs :
  incl fs children ->
  Forall (fun f => forall d, keys_only_from cfg customInputs f d (CopyDirToFileMap cfg customInputs f d)) fs ->
  forall fileMap,
    (forall path data, fileMap !! path = Some data ->
       written_from cfg customInputs (Dir n children) dest path data) ->
    keys_only_from cfg customInputs (Dir n children) dest
      (collectEntries cfg customInputs (fun f d => CopyDirToFileMap cfg customInputs f d)
         dest fs fileMap).
Proof.
  intros Hincl Hall. induction Hall as [| f fs Hf _ IH]; intros fileMap Hinv.
  - intros m path data [= <-]. apply Hinv.
  - assert (Hin : In f children) by (apply Hincl; left; reflexivity).
    assert (Hrest : incl fs children) by (intros x Hx; apply Hincl; right; exact Hx).
    specialize (IH Hrest).
    cbn [collectEntries].
    destruct (String.eqb_spec (Name f) reserved) as [Hres | Hres]; [ apply IH, Hinv | ].
    destruct (IsDir f) eqn:Hdir.
    + specialize (Hf (dest +:+ "/" +:+ Name f)).
      destruct (CopyDirToFileMap cfg customInputs f (dest +:+ "/" +:+ Name f))
        as [[sub | ] [err | ]]; try (intros m path data Hm; discriminate Hm).
      apply IH. intros path data Hlook.
      eapply written_from_below; [ exact Hin | ].
      eapply Hf; [ reflexivity | exact Hlook ].
    + destruct f as [name data | name sub | name isDir err]; simpl in Hdir;
        try discriminate Hdir; subst; cbn [handleTemplateReplacement ReadFile nil_error].
      2: { intros m path data Hm. discriminate Hm. }
      cbn [Name] in *. apply IH. intros path data' Hlook.
      destruct (decide (dest +:+ "/" +:+ checkNameOverrides name cfg = path)) as [<- | Hne].
      * rewrite lookup_insert_eq in Hlook. injection Hlook as <-.
        apply written_from_here; assumption.
      * rewrite lookup_insert_ne in Hlook by exact Hne. apply Hinv. exact Hlook.
Qed.

Lemma CopyDirToFileMap_keys src :
  forall dest, keys_only_from cfg customInputs src dest (CopyDirToFileMap cfg customInputs src dest).
Proof.
  induction src as [n d | n children IH | n b e] using entry_ind; intros dest.
  - intros m path data Hm. discriminate Hm.
  - cbn [CopyDirToFileMap].
    apply collectEntries_keys; [ intros x Hx; exact Hx | exact IH | ].
    intros path data Hlook. rewrite lookup_empty in Hlook. discriminate Hlook.
  - intros m path data Hm. discriminate Hm.
Qed.
End Materialization.

Section Pruning.
Import osutil.

Variable cfg : option config.DraftConfig.
Variable customInputs : list (string * string).

Lemma prune_Name f : Name (prune f) = Name f.
Proof. destruct f; reflexivity. Qed.

Lemma prune_IsDir f : IsDir (prune f) = IsDir f.
Proof. destruct f; reflexivity. Qed.

Lemma prune_file f : IsDir f = false -> prune f = f.
Proof. destruct f; cbn; intros H; [ reflexivity | discriminate H | reflexivity ]. Qed.

Lemma copyEntries_prune {W : Type} `{TemplateWriter W} dest fs :
  Forall (fun f => forall d (tw : W),
            CopyDir cfg customInputs f d tw = CopyDir cfg customInputs (prune f) d tw) fs ->
  forall tw : W,
    copyEntries cfg customInputs (fun f d t => CopyDir cfg customInputs f d t) dest fs tw
    = copyEntries cfg customInputs (fun f d t => CopyDir cfg customInputs f d t) dest
        (pruneEntries (fun f => prune f) fs) tw.
Proof.
  intros Hall. induction Hall as [| f fs Hf _ IH]; intros tw; [ reflexivity | ].
  cbn [copyEntries pruneEntries]. fold reserved.
  destruct (String.eqb (Name f) reserved) eqn:Hres; [ apply IH | ].
  cbn [copyEntries]. rewrite prune_Name, Hres, prune_IsDir.
  destruct (IsDir f) eqn:Hdir.
  - destruct (EnsureDirectory (dest +:+ "/" +:+ Name f) tw) as [tw1 [err | ]]; [ reflexivity | ].
    rewrite <- Hf.
    destruct (CopyDir cfg customInputs f (dest +:+ "/" +:+ Name f) tw1) as [tw2 [err | ]];
      [ reflexivity | apply IH ].
  - rewrite (prune_file f Hdir).
    destruct (handleTemplateReplacement f customInputs) as [fileString [err | ]];
      [ reflexivity | ].
    destruct (WriteFile _ fileString 420%N tw) as [tw1 [err | ]]; [ reflexivity | apply IH ].
Qed.

Lemma CopyDir_prune {W : Type} `{TemplateWriter W} src :
  forall dest (tw : W),
    CopyDir cfg customInputs src dest tw = CopyDir cfg customInputs (prune src) dest tw.
Proof.
  induction src as [n d | n children IH | n b e] using entry_ind; intros dest tw;
    [ reflexivity | | reflexivity ].
  cbn [CopyDir prune]. apply copyEntries_prune. exact IH.
Qed.

Lemma collectEntries_prune dest fs :
  Forall (fun f => forall d,
            CopyDirToFileMap cfg customInputs f d
            = CopyDirToFileMap cfg customInputs (prune f) d) fs ->
  forall fileMap,
    collectEntries cfg customInputs (fun f d => CopyDirToFileMap cfg customInputs f d)
      dest fs fileMap
    = collectEntries cfg customInputs (fun f d => CopyDirToFileMap cfg customInputs f d)
        dest (pruneEntries (fun f => prune f) fs) fileMap.
Proof.
  intros Hall. induction Hall as [| f fs Hf _ IH]; intros fileMap; [ reflexivity | ].
  cbn [collectEntries pruneEntries]. fold reserved.
  destruct (String.eqb (Name f) reserved) eqn:Hres; [ apply IH | ].
  cbn [collectEntries]. rewrite prune_Name, Hres, prune_IsDir.
  destruct (IsDir f) eqn:Hdir.
  - rewrite <- Hf.
    destruct (CopyDirToFileMap cfg customInputs f (dest +:+ "/" +:+ Name f))
      as [[sub | ] [err | ]]; try reflexivity. apply IH.
  - rewrite (prune_file f Hdir).
    destruct (handleTemplateReplacement f customInputs) as [fileString [err | ]];
      [ reflexivity | apply IH ].
Qed.

Lemma CopyDirToFileMap_prune src :
  forall dest,
    CopyDirToFileMap cfg customInputs src dest
    = CopyDirToFileMap cfg customInputs (prune src) dest.
Proof.
  induction src as [n d | n children IH | n b e] using entry_ind; intros dest;
    [ reflexivity | | reflexivity ].
  cbn [CopyDirToFileMap prune]. apply collectEntries_prune. exact IH.
Qed.

Lemma prune_names src : ~ In reserved (names (prune src)).
Proof.
  induction src as [n d | n children IH | n b e] using entry_ind;
    [ intros [] | | intros [] ].
  cbn [prune names].
  induction IH as [| f fs Hf _ IHfs]; [ intros [] | ].
  cbn [pruneEntries]. fold reserved.
  destruct (String.eqb_spec (Name f) reserved) as [Hres | Hres]; [ exact IHfs | ].
  cbn [flat_map]. intros [Hhead | Hin].
  - rewrite prune_Name in Hhead. contradiction.
  - apply in_app_or in Hin as [Hin | Hin]; [ exact (Hf Hin) | exact (IHfs Hin) ].
Qed.
End Pruning.

(** C7.  No template file named draft.yaml is materialized.  Whatever the
    template tree, the name overrides, the variables and the writer, every
    [WriteFile] call that [CopyDir] makes on the writer, and every entry of
    the map that [CopyDirToFileMap] returns, is the materialization of a
    template file whose name is not draft.yaml.  More than that, the
    entries named draft.yaml have no part in the run: [CopyDir], on any
    writer, and [CopyDirToFileMap] give on the tree what they give on the
    tree from which every entry of that name has been removed. *)
Theorem reserved_file_never_materialized :
  forall (cfg : option config.DraftConfig) (customInputs : list (string * string))
         (src : osutil.entry) (dest : string),
    (forall (W : Type) (writer : osutil.TemplateWriter W) (tw : list osutil.call * W),
        exists calls,
          (osutil.CopyDir (H := @osutil.TracedWriter W writer) cfg customInputs src dest tw).1.1
          = (tw.1 ++ calls)%list
          /\ forall path data mode,
               In (osutil.WriteFileCall path data mode) calls ->
               written_from cfg customInputs src dest path data)
    /\ (forall fileMap path data,
          (osutil.CopyDirToFileMap cfg customInputs src dest).1 = Some fileMap ->
          fileMap !! path = Some data ->
          written_from cfg customInputs src dest path data)
    /\ ~ In "draft.yaml" (names (prune src))
    /\ (forall (W : Type) (writer : osutil.TemplateWriter W) (tw : W),
          osutil.CopyDir cfg customInputs src dest tw
          = osutil.CopyDir cfg customInputs (prune src) dest tw)
    /\ osutil.CopyDirToFileMap cfg customInputs src dest
       = osutil.CopyDirToFileMap cfg customInputs (prune src) dest.
Proof.
  intros cfg customInputs src dest. split; [ | split; [ | split; [ | split ] ] ].
  - intros W writer tw. apply CopyDir_traced.
  - apply CopyDirToFileMap_keys.
  - apply prune_names.
  - intros W writer tw. apply CopyDir_prune.
  - apply CopyDirToFileMap_prune.
Qed.

Lemma reserved_file_never_materialized_witness :
  written_from None sample.port8080 sample.template "out" "out/sub/b.txt" "B".
Proof.
  apply (proj1 (proj2 (reserved_file_never_materialized None sample.port8080
                         sample.template "out"))
           {["out/sub/b.txt" := "B"]} "out/sub/b.txt" "B").
  - vm_compute. reflexivity.
  - vm_compute. reflexivity.
Defined.

(** ** The recording path against the writing path *)

Section DryRun.
Import osutil.

Variable cfg : option config.DraftConfig.
Variable customInputs : list (string * string).

(** In a directory that holds readable files only, the two loops do the
    same: the files on disk are the entries of the map. *)
Lemma flat_directory_agrees dest fs recurse recurse' :
  Forall (fun f => exists name data, f = File name data) fs ->
  forall fileMap,
    exists m,
      collectEntries cfg customInputs recurse' dest fs fileMap = (Some m, nil_error)
      /\ copyEntries cfg customInputs recurse dest fs (mkLocalFS fileMap ∅)
         = (mkLocalFS m ∅, nil_error).
Proof.
  intros Hall. induction Hall as [| f fs (name & data & ->) _ IH]; intros fileMap.
  - exists fileMap. split; reflexivity.
  - cbn [collectEntries copyEntries Name IsDir handleTemplateReplacement ReadFile nil_error].
    destruct (String.eqb name reserved); [ apply IH | ].
    cbn [WriteFile LocalFSWriter os.WriteFile localDisk].
    cbn [dirs files].
    destruct (decide (dest +:+ "/" +:+ checkNameOverrides name cfg ∈ (∅ : gset string)))
      as [Hin | _]; [ set_solver | ].
    apply IH.
Qed.
End DryRun.

(** C1 fails on the code.  On a template directory in which a file comes
    before a subdirectory, [CopyDir] writes both the file and the content
    of the subdirectory, while [CopyDirToFileMap] returns the content of
    the subdirectory only: the recursive call's result replaces the map
    built so far. *)
Theorem CopyDirToFileMap_loses_files_before_subdirectory :
  let written :=
    osutil.files
      (osutil.CopyDir None sample.port8080 sample.template "out" sample.emptyDisk).1 in
  let recorded := (osutil.CopyDirToFileMap None sample.port8080 sample.template "out").1 in
  (osutil.CopyDir None sample.port8080 sample.template "out" sample.emptyDisk).2 = nil_error
  /\ written = ({["out/a.txt" := "listen 8080"; "out/sub/b.txt" := "B"]} : gmap string string)
  /\ recorded = Some ({["out/sub/b.txt" := "B"]} : gmap string string)
  /\ recorded <> Some written.
Proof.
  cbv zeta. split; [ reflexivity | ].
  assert (Hw : osutil.files
                 (osutil.CopyDir None sample.port8080 sample.template "out" sample.emptyDisk).1
               = ({["out/a.txt" := "listen 8080"; "out/sub/b.txt" := "B"]} : gmap string string))
    by (vm_compute; reflexivity).
  assert (Hr : (osutil.CopyDirToFileMap None sample.port8080 sample.template "out").1
               = Some ({["out/sub/b.txt" := "B"]} : gmap string string))
    by (vm_compute; reflexivity).
  rewrite Hw, Hr. repeat split.
  intros Heq.
  apply (f_equal (fun o : option (gmap string string) =>
                    match o with Some m => m !! "out/a.txt" | None => None end)) in Heq.
  vm_compute in Heq. discriminate Heq.
Qed.

(** ** Template replacement *)

Section Replacement.
Import osutil.

#[local] Arguments String.append !_ _ /.

Lemma append_assoc (a b c : string) : (a +:+ b) +:+ c = a +:+ (b +:+ c).
Proof.
  induction a as [| x a IH]; cbn [String.append]; [ reflexivity | ].
  f_equal. exact IH.
Qed.

Lemma prefix_append (a r : string) : String.prefix a (a +:+ r) = true.
Proof.
  induction a as [| x a IH]; cbn [String.append String.prefix]; [ by destruct r | ].
  destruct (ascii_dec x x) as [_ | Hne]; [ exact IH | contradiction ].
Qed.

Lemma prefix_cons (a : ascii) (o : string) (c : ascii) (r : string) :
  String.prefix (String a o) (String c r)
  = if ascii_dec a c then String.prefix o r else false.
Proof. reflexivity. Qed.

Lemma prefix_head (a : ascii) (o : string) (c : ascii) (r : string) :
  a <> c -> String.prefix (String a o) (String c r) = false.
Proof.
  intros Hne. rewrite prefix_cons.
  destruct (ascii_dec a c); [ contradiction | reflexivity ].
Qed.

Lemma eqb_open (c : ascii) : Ascii.eqb c "{" = false -> "{"%char <> c.
Proof. intros H Heq. subst c. discriminate H. Qed.

(** No occurrence of a marker begins inside a calm stretch of text,
    whatever follows it. *)
Lemma marker_not_in_calm c t r k :
  calm (String c t) = true ->
  strings.HasPrefix (String c (t +:+ r)) (marker k) = false.
Proof.
  intros Hcalm. unfold strings.HasPrefix, marker. cbn [String.append].
  cbn [calm] in Hcalm. apply andb_true_iff in Hcalm as [Hc _].
  destruct (Ascii.eqb c "{") eqn:Hopen.
  - destruct t as [| d t]; [ discriminate Hc | ].
    apply negb_true_iff in Hc. apply Ascii.eqb_eq in Hopen. subst c.
    cbn [String.append]. rewrite !prefix_cons.
    destruct (ascii_dec "{" "{") as [_ | Hne]; [ | contradiction ].
    destruct (ascii_dec "{" d) as [<- | _]; [ discriminate Hc | reflexivity ].
  - apply prefix_head, eqb_open, Hopen.
Qed.

Lemma calm_tail c t : calm (String c t) = true -> calm t = true.
Proof. cbn [calm]. intros H. apply andb_true_iff in H. tauto. Qed.

Lemma replace_calm t r k v :
  calm t = true ->
  strings.replace_from 0 (t +:+ r) (marker k) v
  = t +:+ strings.replace_from 0 r (marker k) v.
Proof.
  induction t as [| c t IH]; intros Hcalm; [ reflexivity | ].
  cbn [String.append strings.replace_from].
  rewrite (marker_not_in_calm c t r k Hcalm).
  rewrite IH by (eapply calm_tail; exact Hcalm). reflexivity.
Qed.

Lemma contains_calm t r k :
  calm t = true ->
  strings.Contains (t +:+ r) (marker k) = strings.Contains r (marker k).
Proof.
  induction t as [| c t IH]; intros Hcalm; [ reflexivity | ].
  cbn [String.append strings.Contains].
  rewrite (marker_not_in_calm c t r k Hcalm).
  rewrite IH by (eapply calm_tail; exact Hcalm). reflexivity.
Qed.

Lemma replace_skip a r old v :
  strings.replace_from (String.length a) (a +:+ r) old v = strings.replace_from 0 r old v.
Proof. induction a as [| x a IH]; [ reflexivity | exact IH ]. Qed.

(** An occurrence at the head is replaced, and the scan goes on behind it. *)
Lemma replace_hit k r v :
  strings.replace_from 0 (marker k +:+ r) (marker k) v
  = v +:+ strings.replace_from 0 r (marker k) v.
Proof.
  assert (Hgen : forall x o, strings.replace_from 0 (String x o +:+ r) (String x o) v
                             = v +:+ strings.replace_from 0 r (String x o) v).
  { intros x o. cbn [String.append strings.replace_from].
    unfold strings.HasPrefix.
    change (String x (o +:+ r)) with (String x o +:+ r). rewrite prefix_append.
    change (String.length (String x o) - 1) with (String.length o - 0).
    rewrite Nat.sub_0_r, replace_skip. reflexivity. }
  unfold marker. cbn [String.append]. apply Hgen.
Qed.

Lemma plain_head c s : plain (String c s) = true -> "{"%char <> c /\ "}"%char <> c /\ plain s = true.
Proof.
  cbn [plain]. intros H.
  apply andb_true_iff in H as [H Hs]. apply andb_true_iff in H as [Ho Hc].
  apply negb_true_iff in Ho, Hc.
  repeat split; [ | | exact Hs ]; intros <-; discriminate.
Qed.

Lemma plain_closed_calm n : plain n = true -> calm (n +:+ "}}") = true.
Proof.
  induction n as [| c n IH]; intros Hp; [ reflexivity | ].
  apply plain_head in Hp as (Ho & _ & Hn).
  cbn [String.append calm]. rewrite (IH Hn), andb_true_r.
  destruct (Ascii.eqb c "{") eqn:Hopen; [ | reflexivity ].
  apply Ascii.eqb_eq in Hopen. congruence.
Qed.

(** Two markers with brace-free names: one is at the head of the other
    only if the names are the same. *)
Lemma prefix_names k n r :
  plain k = true -> plain n = true ->
  String.prefix (k +:+ "}}") ((n +:+ "}}") +:+ r) = true -> k = n.
Proof.
  revert n. induction k as [| a k IH]; intros [| c n] Hk Hn Hpre.
  - reflexivity.
  - apply plain_head in Hn as (_ & Hc & _).
    cbn [String.append] in Hpre. rewrite prefix_cons in Hpre.
    destruct (ascii_dec "}" c); [ contradiction | discriminate Hpre ].
  - apply plain_head in Hk as (_ & Hc & _).
    cbn [String.append] in Hpre. rewrite prefix_cons in Hpre.
    destruct (ascii_dec a "}") as [Ha | ]; [ | discriminate Hpre ].
    exfalso. apply Hc. symmetry. exact Ha.
  - apply plain_head in Hk as (_ & _ & Hk). apply plain_head in Hn as (_ & _ & Hn).
    cbn [String.append] in Hpre. rewrite prefix_cons in Hpre.
    destruct (ascii_dec a c) as [-> | ]; [ | discriminate Hpre ].
    f_equal. apply IH; assumption.
Qed.

Lemma marker_miss_head n k r :
  plain n = true -> plain k = true -> n <> k ->
  strings.HasPrefix (marker n +:+ r) (marker k) = false
  /\ strings.HasPrefix (String "{" ((n +:+ "}}") +:+ r)) (marker k) = false.
Proof.
  intros Hn Hk Hne. unfold strings.HasPrefix, marker. cbn [String.append]. split.
  - rewrite !prefix_cons.
    destruct (ascii_dec "{" "{") as [_ | Hc]; [ | contradiction ].
    destruct (String.prefix (k +:+ "}}") ((n +:+ "}}") +:+ r)) eqn:Hpre; [ | reflexivity ].
    exfalso. apply Hne. symmetry. eapply prefix_names; eassumption.
  - rewrite prefix_cons.
    destruct (ascii_dec "{" "{") as [_ | Hc]; [ | contradiction ].
    destruct n as [| c n]; cbn [String.append].
    + apply prefix_head. discriminate.
    + apply plain_head in Hn as (Ho & _ & _).
      apply prefix_head. exact Ho.
Qed.

(** A marker of another name is stepped over unchanged. *)
Lemma replace_miss n k r v :
  plain n = true -> plain k = true -> n <> k ->
  strings.replace_from 0 (marker n +:+ r) (marker k) v
  = marker n +:+ strings.replace_from 0 r (marker k) v.
Proof.
  intros Hn Hk Hne.
  destruct (marker_miss_head n k r Hn Hk Hne) as [H0 H1].
  unfold marker at 1 3. unfold marker at 1 in H0. cbn [String.append] in *.
  cbn [strings.replace_from]. rewrite H0.
  cbn [strings.replace_from]. rewrite H1.
  rewrite replace_calm by (apply plain_closed_calm; exact Hn). reflexivity.
Qed.

Lemma contains_miss n k r :
  plain n = true -> plain k = true -> n <> k ->
  strings.Contains (marker n +:+ r) (marker k) = strings.Contains r (marker k).
Proof.
  intros Hn Hk Hne.
  destruct (marker_miss_head n k r Hn Hk Hne) as [H0 H1].
  unfold marker at 1. unfold marker at 1 in H0. cbn [String.append] in *.
  cbn [strings.Contains]. rewrite H0.
  cbn [strings.Contains orb]. rewrite H1. cbn [orb].
  apply contains_calm, plain_closed_calm, Hn.
Qed.

Lemma contains_middle a b c : strings.Contains (a +:+ b +:+ c) b = true.
Proof.
  induction a as [| x a IH].
  - cbn [String.append]. destruct (b +:+ c) eqn:Hbc; cbn [strings.Contains];
      unfold strings.HasPrefix; rewrite <- Hbc, prefix_append; reflexivity.
  - cbn [String.append strings.Contains]. rewrite IH. apply orb_true_r.
Qed.


Lemma ReplaceAll_render k v segments :
  plain k = true -> Forall tidy segments ->
  strings.ReplaceAll (render segments) (marker k) v
  = render (map (substitute_one k v) segments).
Proof.
  intros Hk Hall. unfold strings.ReplaceAll.
  induction Hall as [| g segments Hg _ IH]; [ reflexivity | ].
  cbn [render map]. destruct g as [t | n]; cbn [render_segment substitute_one tidy] in *.
  - rewrite replace_calm by exact Hg. by rewrite IH.
  - destruct (decide (n = k)) as [-> | Hne]; cbn [render_segment].
    + rewrite replace_hit. by rewrite IH.
    + rewrite replace_miss by assumption. by rewrite IH.
Qed.

Lemma tidy_substitute_one k v segments :
  calm v = true -> Forall tidy segments ->
  Forall tidy (map (substitute_one k v) segments).
Proof.
  intros Hv Hall. induction Hall as [| g segments Hg _ IH]; constructor; [ | exact IH ].
  destruct g as [t | n]; cbn [substitute_one]; [ exact Hg | ].
  destruct (decide (n = k)); [ exact Hv | exact Hg ].
Qed.

Lemma substitute_after_one k v (m : gmap string string) g :
  substitute m (substitute_one k v g) = substitute (<[k := v]> m) g.
Proof.
  destruct g as [t | n]; cbn [substitute_one substitute]; [ reflexivity | ].
  destruct (decide (n = k)) as [-> | Hne].
  - by rewrite lookup_insert_eq.
  - cbn [substitute]. rewrite lookup_insert_ne by congruence. reflexivity.
Qed.

(** The replacement loop on a tidy template, whatever the order. *)
Lemma replaceEach_render customInputs segments :
  Forall (fun kv : string * string => plain kv.1 = true /\ calm kv.2 = true) customInputs ->
  Forall tidy segments ->
  replaceEach customInputs (render segments)
  = render (map (substitute (list_to_map customInputs)) segments).
Proof.
  intros Hin. revert segments.
  induction Hin as [| [k v] rest [Hk Hv] _ IH]; intros segments Hall.
  - cbn [replaceEach list_to_map foldr]. f_equal.
    induction segments as [| g segments IHs]; [ reflexivity | ].
    inversion Hall; subst. cbn [map]. rewrite <- IHs by assumption. f_equal.
    destruct g as [t | n]; cbn [substitute]; [ reflexivity | ].
    by rewrite lookup_empty.
  - cbn [replaceEach fst snd] in *.
    rewrite ReplaceAll_render by assumption.
    rewrite IH by (apply tidy_substitute_one; assumption).
    rewrite map_map. f_equal. apply map_ext. intros g.
    rewrite list_to_map_cons. apply substitute_after_one.
Qed.

Lemma tidy_substitute (m : gmap string string) segments :
  (forall k v, m !! k = Some v -> calm v = true) ->
  Forall tidy segments -> Forall tidy (map (substitute m) segments).
Proof.
  intros Hm Hall. induction Hall as [| g segments Hg _ IH]; constructor; [ | exact IH ].
  destruct g as [t | n]; cbn [substitute]; [ exact Hg | ].
  destruct (m !! n) as [v | ] eqn:Hl; [ exact (Hm n v Hl) | exact Hg ].
Qed.

Lemma no_marker_left k segments :
  plain k = true -> Forall tidy segments -> ~ In (Marker k) segments ->
  strings.Contains (render segments) (marker k) = false.
Proof.
  intros Hk Hall. induction Hall as [| g segments Hg _ IH]; intros Hnot.
  - reflexivity.
  - assert (Hrest : ~ In (Marker k) segments) by (intros H; apply Hnot; right; exact H).
    cbn [render]. destruct g as [t | n]; cbn [render_segment tidy] in *.
    + rewrite contains_calm by exact Hg. apply IH, Hrest.
    + rewrite contains_miss; [ apply IH, Hrest | exact Hg | exact Hk | ].
      intros ->. apply Hnot. left. reflexivity.
Qed.

Lemma segment_present g segments :
  In g segments -> strings.Contains (render segments) (render_segment g) = true.
Proof.
  induction segments as [| h segments IH]; intros Hin; [ destruct Hin | ].
  destruct Hin as [-> | Hin].
  - cbn [render]. apply (contains_middle "").
  - cbn [render]. specialize (IH Hin).
    clear Hin. revert IH. generalize (render segments) as r. intros r Hr.
    induction (render_segment h) as [| x a IHa]; [ exact Hr | ].
    cbn [String.append strings.Contains]. rewrite IHa. apply orb_true_r.
Qed.
End Replacement.

(** C6 (as amended).  Take a resolved map whose names contain no brace and
    whose values contain no "{{" and do not end in "{" (so that no value
    brings a marker in), and a template made of stretches of such text and
    of markers with brace-free names.  Then, in whatever order the map is
    ranged over, [handleTemplateReplacement] returns the template in which
    every marker whose name is a key is replaced by that key's value,
    every other marker is left as it is, and the text is unchanged.  For
    every key, the output has no remaining marker of that key, and
    contains the key's value when the template had its marker: with
    {{FOO}} in the file and FOO="bar", the output contains bar and no
    {{FOO}}. *)
Theorem replacement_on_tidy_templates :
  forall (resolved : gmap string string) (customInputs : list (string * string))
         (fileName : string) (segments : list segment),
    customInputs ≡ₚ map_to_list resolved ->
    (forall k v, resolved !! k = Some v -> plain k = true /\ calm v = true) ->
    Forall tidy segments ->
    let output := render (map (substitute resolved) segments) in
    osutil.handleTemplateReplacement (osutil.File fileName (render segments)) customInputs
      = (output, nil_error)
    /\ (forall k v, resolved !! k = Some v ->
          strings.Contains output (osutil.marker k) = false
          /\ (In (Marker k) segments -> strings.Contains output v = true)).
Proof.
  intros resolved customInputs fileName segments Hperm Hres Htidy output.
  assert (Hmap : resolved = list_to_map customInputs).
  { apply list_to_map_flip. symmetry. exact Hperm. }
  assert (Hin : Forall (fun kv : string * string => plain kv.1 = true /\ calm kv.2 = true)
                  customInputs).
  { apply Forall_forall. intros [k v] Hkv.
    apply Hres. apply elem_of_map_to_list. rewrite <- Hperm. exact Hkv. }
  split.
  - unfold osutil.handleTemplateReplacement. cbn [osutil.ReadFile nil_error].
    rewrite replaceEach_render by assumption. subst output. by rewrite <- Hmap.
  - intros k v Hk. destruct (Hres k v Hk) as [Hpk Hcv]. split.
    + apply no_marker_left; [ exact Hpk | | ].
      * apply tidy_substitute; [ | exact Htidy ]. intros k' v' H'. apply (Hres k' v' H').
      * intros Hleft. apply in_map_iff in Hleft as (g & Hg & _).
        destruct g as [t | n]; cbn [substitute] in Hg; [ discriminate Hg | ].
        destruct (resolved !! n) as [v' | ] eqn:Hn; [ discriminate Hg | ].
        injection Hg as ->. congruence.
    + intros Hmk. subst output.
      apply (segment_present (Text v)).
      apply in_map_iff. exists (Marker k). split; [ | exact Hmk ].
      cbn [substitute]. by rewrite Hk.
Qed.

Lemma replacement_on_tidy_templates_witness :
  osutil.handleTemplateReplacement
    (osutil.File "workflow.yml" "port: {{PORT}} token: ${{ secrets.TOKEN }}") sample.port8080
  = ("port: 8080 token: ${{ secrets.TOKEN }}", nil_error)
  /\ strings.Contains "port: 8080 token: ${{ secrets.TOKEN }}" "{{PORT}}" = false
  /\ strings.Contains "port: 8080 token: ${{ secrets.TOKEN }}" "8080" = true.
Proof.
  pose proof (replacement_on_tidy_templates {["PORT" := "8080"]} sample.port8080
                "workflow.yml" sample.workflowFile) as Hthm.
  destruct Hthm as [Hout Hkeys].
  - rewrite map_to_list_singleton. reflexivity.
  - intros k v Hkv. apply lookup_singleton_Some in Hkv as [<- <-]. split; reflexivity.
  - repeat constructor.
  - split; [ exact Hout | ].
    destruct (Hkeys "PORT" "8080" (lookup_singleton_eq _ _)) as [Hnone Hvalue].
    split; [ exact Hnone | ]. apply Hvalue. right. left. reflexivity.
Defined.

(** C6 as stated fails: the map holds FOO = "bar" and X = "{{FOO}}", and is
    ranged over with FOO first; the file "{{FOO}} and {{X}}" then comes
    out as "bar and {{FOO}}", with the token {{FOO}} remaining. *)
Lemma value_with_marker_stays_in_output :
  let resolved : gmap string string := list_to_map sample.nested in
  sample.nested ≡ₚ map_to_list resolved
  /\ resolved !! "FOO" = Some "bar"
  /\ strings.Contains "{{FOO}} and {{X}}" "{{FOO}}" = true
  /\ osutil.handleTemplateReplacement (osutil.File "f" "{{FOO}} and {{X}}") sample.nested
     = ("bar and {{FOO}}", nil_error)
  /\ strings.Contains "bar and {{FOO}}" "{{FOO}}" = true.
Proof.
  cbv zeta. split; [ | split; [ | split; [ | split ] ] ].
  - symmetry. apply map_to_list_to_map. compute_done.
  - vm_compute. reflexivity.
  - reflexivity.
  - reflexivity.
  - reflexivity.
Qed.

(** ** A complete run *)

(** The variable PORT, not to be asked for, with the default 8080: it is
    resolved without a prompt, and a directory holding the file
    "listen {{PORT}}" and the manifest is written as that one file with
    "listen 8080". *)
Example port_end_to_end :
  exists resolved,
    prompts.RunPromptsFromConfig sample.portSet sample.silent
    = (sample.silent, (Some resolved, nil_error))
    /\ map_to_list resolved = sample.port8080
    /\ osutil.CopyDir None (map_to_list resolved)
         (osutil.Dir "tpl" [osutil.File "app.conf" "listen {{PORT}}";
                            osutil.File "draft.yaml" "variables: [PORT]"])
         "out" ([], sample.emptyDisk)
       = (([osutil.WriteFileCall "out/app.conf" "listen 8080" 420%N],
           osutil.mkLocalFS {["out/app.conf" := "listen 8080"]} ∅), nil_error).
Proof.
  eexists. split; [ reflexivity | ]. split; vm_compute; reflexivity.
Qed.


(* ================================================================== *)
(** * Further properties of the code *)
(* ================================================================== *)

(** ** Override strings, once more *)

Section MoreOverrides.
Import cmd.

Lemma Cut_absent s : strings.Contains s "=" = false -> strings.Cut s "=" = (s, "", false).
Proof.
  intros Habs. pose proof (Cut_found s) as Hf. rewrite Habs in Hf.
  destruct s as [| c s]; [ reflexivity | ].
  cbn [strings.Cut strings.Contains] in *.
  apply orb_false_iff in Habs as [Hp _]. rewrite Hp in *.
  destruct (strings.Cut s "=") as [[b a] found]. simpl in Hf.
  destruct found; [ discriminate Hf | reflexivity ].
Qed.

Lemma Cut_name_value name value :
  strings.Contains name "=" = false ->
  strings.Cut (name +:+ "=" +:+ value) "=" = (name, value, true).
Proof.
  induction name as [| c name IH]; intros Habs.
  - change ("" +:+ "=" +:+ value) with (String "=" value).
    cbn [strings.Cut]. unfold strings.HasPrefix. rewrite prefix_cons.
    destruct (ascii_dec "=" "=") as [_ | Hne]; [ | contradiction ].
    destruct value; reflexivity.
  - cbn [strings.Contains] in Habs. apply orb_false_iff in Habs as [Hp Hrest].
    change (String c name +:+ "=" +:+ value) with (String c (name +:+ "=" +:+ value)).
    cbn [strings.Cut].
    assert (Hq : strings.HasPrefix (String c (name +:+ "=" +:+ value)) "=" = false).
    { destruct (strings.HasPrefix (String c (name +:+ "=" +:+ value)) "=") eqn:Hq;
        [ | reflexivity ].
      apply HasPrefix_equals in Hq. subst c.
      assert (Ht : strings.HasPrefix (String "=" name) "=" = true)
        by (apply HasPrefix_equals; reflexivity).
      congruence. }
    rewrite Hq, (IH Hrest). reflexivity.
Qed.
End MoreOverrides.

(** X1.  Writing a name without "=" and a value (which may contain "=")
    as name=value and handing the string to the override loop assigns
    exactly that value to exactly that name; a string without "=" is
    refused whole, as the name of nothing. *)
Theorem override_round_trip :
  forall (name value : string) (rest : list string) (m : gmap string string),
    strings.Contains name "=" = false ->
    cmd.setFlagVariables ((name +:+ "=" +:+ value) :: rest) m
    = cmd.setFlagVariables rest (<[name := value]> m)
    /\ flagName (name +:+ "=" +:+ value) = name
    /\ flagValue (name +:+ "=" +:+ value) = value
    /\ cmd.setFlagVariables (name :: rest) m = (m, Some (invalidFormat name)).
Proof.
  intros name value rest m Habs.
  pose proof (Cut_name_value name value Habs) as Hcut.
  repeat split.
  - cbn [cmd.setFlagVariables]. rewrite Hcut. reflexivity.
  - unfold flagName. rewrite Hcut. reflexivity.
  - unfold flagValue. rewrite Hcut. reflexivity.
  - apply setFlagVariables_cons_malformed. exact Habs.
Qed.

Lemma override_round_trip_witness :
  cmd.setFlagVariables ["IMAGE=repo/app:tag=1"] ∅
  = (({["IMAGE" := "repo/app:tag=1"]} : gmap string string), nil_error).
Proof.
  apply (proj1 (override_round_trip "IMAGE" "repo/app:tag=1" [] ∅ eq_refl)).
Defined.

(** ** Files without markers *)

Lemma ReplaceAll_absent s old new :
  strings.Contains s old = false -> strings.ReplaceAll s old new = s.
Proof.
  unfold strings.ReplaceAll. induction s as [| c s IH]; intros Habs; [ reflexivity | ].
  cbn [strings.Contains] in Habs. apply orb_false_iff in Habs as [Hp Hrest].
  cbn [strings.replace_from]. rewrite Hp, (IH Hrest). reflexivity.
Qed.

(** X2.  A file in which the marker of no resolved variable occurs is
    handed on byte for byte, whatever else it contains and in whatever
    order the variables are taken. *)
Theorem unmarked_file_is_copied_verbatim :
  forall (customInputs : list (string * string)) (fileName file : string),
    Forall (fun kv : string * string =>
              strings.Contains file (osutil.marker kv.1) = false) customInputs ->
    osutil.handleTemplateReplacement (osutil.File fileName file) customInputs
    = (file, nil_error).
Proof.
  intros customInputs fileName file Hall.
  unfold osutil.handleTemplateReplacement. cbn [osutil.ReadFile nil_error]. f_equal.
  induction Hall as [| [k v] rest Hk _ IH]; [ reflexivity | ].
  cbn [osutil.replaceEach]. cbn [fst] in Hk.
  rewrite (ReplaceAll_absent file (osutil.marker k) v Hk). exact IH.
Qed.

Lemma unmarked_file_is_copied_verbatim_witness :
  osutil.handleTemplateReplacement
    (osutil.File "values.yaml" "image: {{ .Values.image }} {{{x") sample.nested
  = ("image: {{ .Values.image }} {{{x", nil_error).
Proof.
  apply unmarked_file_is_copied_verbatim.
  repeat constructor.
Defined.

(** ** What the prompts return *)

Section Answers.
Import config prompts promptui.

Lemma awaitChoice_item items keys rest item :
  awaitChoice items keys = (rest, (item, nil_error)) -> In item items.
Proof.
  induction keys as [| k keys IH]; cbn [awaitChoice]; [ discriminate | ].
  destruct k as [err | i | s]; [ discriminate | | exact IH ].
  destruct (items !! i) as [it | ] eqn:Hi; [ | exact IH ].
  intros [= <- <-]. apply list_elem_of_In. eapply list_elem_of_lookup_2. exact Hi.
Qed.

Lemma awaitLine_valid f keys rest s :
  awaitLine (Some f) keys = (rest, (s, nil_error)) -> f s = None.
Proof.
  induction keys as [| k keys IH]; cbn [awaitLine]; [ discriminate | ].
  destruct k as [err | i | line]; [ discriminate | exact IH | ].
  destruct (f line) eqn:Hf; [ exact IH | ].
  intros [= <- <-]. exact Hf.
Qed.

Lemma RunBoolPrompt_answer v t t' input :
  RunBoolPrompt v t = (t', (input, nil_error)) -> input = "true" \/ input = "false".
Proof.
  unfold RunBoolPrompt, SelectRun.
  destruct (awaitChoice ["true"; "false"] (stdin t)) as [rest [item [err | ]]] eqn:Hc;
    [ discriminate | ].
  intros [= <- <-]. apply awaitChoice_item in Hc.
  destruct Hc as [<- | [<- | []]]; auto.
Qed.

Lemma RunDefaultableStringPrompt_answer v d t t' input :
  RunDefaultableStringPrompt v d None t = (t', (input, nil_error)) -> input <> "".
Proof.
  unfold RunDefaultableStringPrompt, PromptRun.
  destruct (String.eqb_spec d "") as [-> | Hd]; cbn [negb].
  - destruct (awaitLine (Some NoBlankStringValidator) (stdin t))
      as [rest [line [err | ]]] eqn:Hl; [ discriminate | ].
    apply awaitLine_valid in Hl.
    rewrite andb_false_r. intros [= <- <-] ->. discriminate Hl.
  - destruct (awaitLine (Some AllowAllStringValidator) (stdin t))
      as [rest [line [err | ]]] eqn:Hl; [ discriminate | ].
    destruct (String.eqb_spec line "") as [-> | Hline]; cbn [andb negb].
    + intros [= <- <-]. exact Hd.
    + intros [= <- <-]. exact Hline.
Qed.
End Answers.

(** X3.  Called without a validator, as the resolver calls it,
    [RunDefaultableStringPrompt] never hands back the empty string: with a
    default a blank line stands for the default, without one a blank line
    is not accepted.  [RunBoolPrompt] hands back "true" or "false". *)
Theorem prompts_return_a_value :
  forall (customPrompt : config.BuilderVar.t) (defaultValue : string)
         (t t' : promptui.terminal) (input : string),
    (prompts.RunDefaultableStringPrompt customPrompt defaultValue None t
       = (t', (input, nil_error)) -> input <> "")
    /\ (prompts.RunBoolPrompt customPrompt t = (t', (input, nil_error)) ->
        input = "true" \/ input = "false").
Proof.
  intros. split.
  - apply RunDefaultableStringPrompt_answer.
  - apply RunBoolPrompt_answer.
Qed.

Lemma prompts_return_a_value_witness :
  let run :=
    prompts.RunDefaultableStringPrompt (config.BuilderVar.mk "PORT" "the port" "string" "")
      "8080" None (promptui.mkTerminal [promptui.Enter ""] []) in
  run.2 = ("8080", nil_error) /\ run.2.1 <> "".
Proof.
  split; [ reflexivity | ].
  apply (proj1 (prompts_return_a_value
                  (config.BuilderVar.mk "PORT" "the port" "string" "") "8080"
                  (promptui.mkTerminal [promptui.Enter ""] [])
                  (promptui.mkTerminal [] ["Please enter the port (default: 8080)"])
                  "8080")).
  reflexivity.
Defined.

(** ** Every variable that is not skipped is resolved *)

Section Completeness.
Import config prompts promptui.

Lemma promptEach_resolves vds skipMap variables :
  forall inputs t t' inputs',
    promptEach vds skipMap variables inputs t = (t', inl inputs') ->
    (forall k x, inputs !! k = Some x -> x <> "") ->
    (forall k x, inputs' !! k = Some x -> x <> "")
    /\ (forall k, is_Some (inputs !! k) -> is_Some (inputs' !! k))
    /\ (forall v, In v variables -> BuilderVar.Name v ∉ skipMap ->
          is_Some (inputs' !! BuilderVar.Name v)).
Proof.
  induction variables as [| v variables IH]; intros inputs t t' inputs' Hrun Hne;
    cbn [promptEach] in Hrun.
  - injection Hrun as <- <-. repeat split; [ exact Hne | auto | intros v [] ].
  - assert (Hstep : forall value t1,
              value <> "" ->
              promptEach vds skipMap variables (<[BuilderVar.Name v := value]> inputs) t1
                = (t', inl inputs') ->
              (forall k x, inputs' !! k = Some x -> x <> "")
              /\ (forall k, is_Some (inputs !! k) -> is_Some (inputs' !! k))
              /\ (forall w, In w (v :: variables) -> BuilderVar.Name w ∉ skipMap ->
                    is_Some (inputs' !! BuilderVar.Name w))).
    { intros value t1 Hvalue Hrest.
      destruct (IH _ _ _ _ Hrest) as (H1 & H2 & H3).
      { intros k x. destruct (decide (BuilderVar.Name v = k)) as [<- | Hk].
        - rewrite lookup_insert_eq. intros [= <-]. exact Hvalue.
        - rewrite lookup_insert_ne by exact Hk. apply Hne. }
      repeat split; [ exact H1 | | ].
      - intros k Hk. apply H2.
        destruct (decide (BuilderVar.Name v = k)) as [<- | Hd].
        + rewrite lookup_insert_eq. eauto.
        + rewrite lookup_insert_ne by exact Hd. exact Hk.
      - intros w [<- | Hw] Hskip; [ | apply H3; assumption ].
        apply H2. rewrite lookup_insert_eq. eauto. }
    destruct (decide (BuilderVar.Name v ∈ skipMap)) as [Hskip | Hskip].
    { destruct (IH _ _ _ _ Hrun Hne) as (H1 & H2 & H3).
      repeat split; [ exact H1 | exact H2 | ].
      intros w [<- | Hw] Hns; [ contradiction | apply H3; assumption ]. }
    destruct (GetIsPromptDisabled (BuilderVar.Name v) vds).
    { destruct (String.eqb_spec (GetVariableDefaultValue (BuilderVar.Name v) vds inputs) "")
        as [_ | Hd]; [ discriminate Hrun | ].
      eapply Hstep; [ exact Hd | exact Hrun ]. }
    destruct (String.eqb (BuilderVar.VarType v) "bool").
    + destruct (RunBoolPrompt v t) as [t1 [input [err | ]]] eqn:Hb; [ discriminate Hrun | ].
      eapply Hstep; [ | exact Hrun ].
      destruct (RunBoolPrompt_answer _ _ _ _ Hb) as [-> | ->]; discriminate.
    + destruct (RunDefaultableStringPrompt v _ None t) as [t1 [input [err | ]]] eqn:Hs;
        [ discriminate Hrun | ].
      eapply Hstep; [ | exact Hrun ].
      eapply RunDefaultableStringPrompt_answer. exact Hs.
Qed.

(** The second loop leaves alone what is resolved to a non-empty value. *)
Lemma substituteDefaults_keeps vds inputs k x :
  inputs !! k = Some x -> x <> "" -> substituteDefaults vds inputs !! k = Some x.
Proof.
  revert inputs. induction vds as [| vd vds IH]; intros inputs Hk Hx; [ exact Hk | ].
  cbn [substituteDefaults].
  destruct (String.eqb_spec (get inputs (BuilderVarDefault.Name vd)) "") as [He | _];
    [ | apply IH; assumption ].
  apply IH; [ | exact Hx ].
  rewrite lookup_insert_ne; [ exact Hk | ].
  intros <-. unfold get in He. rewrite Hk in He. simpl in He. contradiction.
Qed.
End Completeness.

(** X4.  When [RunPromptsFromConfigWithSkipsIO] succeeds, every variable
    of the configuration whose name is not in the skip set is a key of the
    returned map, with a value that is not empty. *)
Theorem unskipped_variables_are_resolved :
  forall (cfg : config.DraftConfig) (varsToSkip : list string)
         (t t' : promptui.terminal) (resolved : gmap string string)
         (v : config.BuilderVar.t),
    prompts.RunPromptsFromConfigWithSkipsIO cfg varsToSkip t
      = (t', (Some resolved, nil_error)) ->
    In v (config.Variables cfg) ->
    ~ In (config.BuilderVar.Name v) varsToSkip ->
    exists value, resolved !! config.BuilderVar.Name v = Some value /\ value <> "".
Proof.
  intros cfg varsToSkip t t' resolved v Hrun Hin Hskip.
  unfold prompts.RunPromptsFromConfigWithSkipsIO in Hrun.
  destruct (prompts.promptEach _ _ _ ∅ t) as [t1 [inputs | err]] eqn:Hloop;
    [ | discriminate Hrun ].
  injection Hrun as <- <-.
  destruct (promptEach_resolves _ _ _ _ _ _ _ Hloop) as (Hne & _ & Hall).
  { intros k x Hk. rewrite lookup_empty in Hk. discriminate Hk. }
  destruct (Hall v Hin) as [value Hvalue].
  { intros Hs. apply Hskip. apply list_elem_of_In.
    by apply elem_of_list_to_set in Hs. }
  exists value. split; [ | exact (Hne _ _ Hvalue) ].
  apply substituteDefaults_keeps; [ exact Hvalue | exact (Hne _ _ Hvalue) ].
Qed.

Lemma unskipped_variables_are_resolved_witness :
  exists value,
    ({["A" := "x"]} : gmap string string) !! "A" = Some value /\ value <> "".
Proof.
  apply (unskipped_variables_are_resolved sample.defaulted []
           (promptui.mkTerminal [promptui.Enter ""] [])
           (promptui.mkTerminal [] ["Please enter the a (default: x)"])
           {["A" := "x"]} (config.BuilderVar.mk "A" "the a" "string" "")).
  - vm_compute. reflexivity.
  - left. reflexivity.
  - intros [].
Defined.

(** ** Which declaration decides *)

(** X5.  Whether a variable may be asked for is decided by the first
    declaration of its name ([GetIsPromptDisabled] returns at the first
    match), and a variable without a declaration may be asked for. *)
Theorem first_declaration_disables_prompt :
  forall (variableName : string) (variableDefaults : list config.BuilderVarDefault.t),
    prompts.GetIsPromptDisabled variableName variableDefaults
    = match head (filter (declares variableName) variableDefaults) with
      | Some vd => config.BuilderVarDefault.IsPromptDisabled vd
      | None => false
      end.
Proof.
  intros variableName variableDefaults.
  induction variableDefaults as [| vd vds IH]; [ reflexivity | ].
  cbn [prompts.GetIsPromptDisabled]. rewrite filter_cons.
  destruct (String.eqb_spec (config.BuilderVarDefault.Name vd) variableName) as [Heq | Hne];
    destruct (decide (declares variableName vd)) as [Hd | Hd];
    try contradiction; [ reflexivity | exact IH ].
Qed.

(** ** The flag maps of the two configurations *)

Section FlagMaps.
Import workflows.

Lemma collected_lookup fields :
  forall (m0 : gmap string string) k v,
    NoDup fields.*1 ->
    (forall k', k' ∈ fields.*1 -> m0 !! k' = None) ->
    collected fields m0 !! k = Some v
    <-> (In (k, v) fields /\ v <> "") \/ m0 !! k = Some v.
Proof.
  induction fields as [| [k1 v1] fields IH]; intros m0 k v Hnd Hfresh.
  - cbn. split; [ auto | intros [[[] _] | H]; exact H ].
  - cbn [fmap list_fmap fst] in Hnd, Hfresh. apply NoDup_cons in Hnd as [Hk1 Hnd].
    change (collected ((k1, v1) :: fields) m0)
      with (collected fields (setIfNotEmpty k1 v1 m0)).
    rewrite IH; [ | exact Hnd | ].
    2: { intros k' Hk'. unfold setIfNotEmpty. destruct (String.eqb v1 "").
         - apply Hfresh. right. exact Hk'.
         - rewrite lookup_insert_ne; [ apply Hfresh; right; exact Hk' | ].
           intros ->. contradiction. }
    unfold setIfNotEmpty.
    assert (Hm0 : m0 !! k1 = None) by (apply Hfresh; left).
    destruct (String.eqb_spec v1 "") as [-> | Hv1].
    + split.
      * intros [[Hin Hv] | Hm]; [ left; split; [ right; exact Hin | exact Hv ] | right; exact Hm ].
      * intros [[[Heq | Hin] Hv] | Hm]; [ | left; auto | right; exact Hm ].
        injection Heq as <- <-. contradiction.
    + split.
      * intros [[Hin Hv] | Hm]; [ left; split; [ right; exact Hin | exact Hv ] | ].
        destruct (decide (k1 = k)) as [<- | Hne].
        -- rewrite lookup_insert_eq in Hm. injection Hm as <-.
           left. split; [ left; reflexivity | exact Hv1 ].
        -- rewrite lookup_insert_ne in Hm by exact Hne. right. exact Hm.
      * intros [[[Heq | Hin] Hv] | Hm].
        -- injection Heq as <- <-. right. apply lookup_insert_eq.
        -- left. auto.
        -- right. rewrite lookup_insert_ne; [ exact Hm | ].
           intros <-. congruence.
Qed.

Lemma collected_nonempty fields :
  forall (m0 : gmap string string),
    (forall k v, m0 !! k = Some v -> v <> "") ->
    forall k v, collected fields m0 !! k = Some v -> v <> "".
Proof.
  induction fields as [| [k1 v1] fields IH]; intros m0 Hm0 k v; [ apply Hm0 | ].
  change (collected ((k1, v1) :: fields) m0)
    with (collected fields (setIfNotEmpty k1 v1 m0)).
  apply IH. intros k' v'. unfold setIfNotEmpty.
  destruct (String.eqb_spec v1 "") as [-> | Hv1]; [ apply Hm0 | ].
  destruct (decide (k1 = k')) as [<- | Hne].
  - rewrite lookup_insert_eq. intros [= <-]. exact Hv1.
  - rewrite lookup_insert_ne by exact Hne. apply Hm0.
Qed.

Lemma BuildMap_collected we :
  BuildMap we
  = collected (map (fun e => (EnvVar.Name e, EnvVar.Value e)) (builtVars we)) ∅.
Proof. reflexivity. Qed.

Lemma orDefault_value d e : EnvVar.Value (orDefault d e) = valueOr d (EnvVar.Value e).
Proof. unfold orDefault, valueOr. destruct (String.eqb (EnvVar.Value e) ""); reflexivity. Qed.

Lemma orDefault_name d e : EnvVar.Name (orDefault d e) = EnvVar.Name e.
Proof. unfold orDefault. destruct (String.eqb (EnvVar.Value e) ""); reflexivity. Qed.

Lemma builtVars_filled we :
  map (fun e => (EnvVar.Name e, EnvVar.Value e)) (builtVars (FillWorkflowEnv we))
  = filledFields we.
Proof.
  cbn [map builtVars FillWorkflowEnv EnvAcrResourceGroup EnvAzureContainerRegistry
       EnvBranchName EnvBuildContextPath EnvClusterName EnvClusterResourceGroup
       EnvContainerName HelmEnvStruct KustomizeEnvStruct ManifestEnvStruct HelmChartPath
       HelmChartOverridePath HelmChartOverrides KustomizePath DeploymentManifestPath].
  rewrite !orDefault_value, !orDefault_name. reflexivity.
Qed.

Lemma BuildMap_filled we :
  BuildMap (FillWorkflowEnv we) = collected (filledFields we) ∅.
Proof. rewrite BuildMap_collected, builtVars_filled. reflexivity. Qed.
End FlagMaps.

(** X6.  [SetFlagValuesToMap] collects exactly the non-empty fields of the
    configuration struct, each under its own key: a key maps to a value in
    the result if and only if it is the key of a field that holds that
    value and the value is not empty. *)
Theorem SetFlagValuesToMap_collects_the_set_fields :
  forall (c : workflows.WorkflowConfig) (k v : string),
    workflows.SetFlagValuesToMap c !! k = Some v
    <-> In (k, v) (flagFields c) /\ v <> "".
Proof.
  intros c k v.
  change (workflows.SetFlagValuesToMap c) with (collected (flagFields c) ∅).
  rewrite collected_lookup.
  - rewrite lookup_empty. split; [ intros [H | H]; [ exact H | discriminate H ] | auto ].
  - compute_done.
  - intros k' _. apply lookup_empty.
Qed.

Lemma SetFlagValuesToMap_collects_the_set_fields_witness :
  workflows.SetFlagValuesToMap sample.registryOnly !! "AZURECONTAINERREGISTRY"
  = Some "fromconfig".
Proof.
  apply (proj2 (SetFlagValuesToMap_collects_the_set_fields sample.registryOnly
                  "AZURECONTAINERREGISTRY" "fromconfig")).
  split; [ left; reflexivity | discriminate ].
Defined.

(** X7.  After [FillWorkflowEnv], [BuildMap] holds exactly the variables
    it visits that have a value, under the names the filling gave them.
    So it never holds an empty value, it always holds the build context
    path and the four paths and overrides of the deploy types (with their
    defaults when the user gave nothing), and it never holds
    PRIVATE_CLUSTER, whatever the user gave for it. *)
Theorem BuildMap_after_filling :
  forall we : workflows.WorkflowEnv,
    let m := workflows.BuildMap (workflows.FillWorkflowEnv we) in
    (forall k v, m !! k = Some v <-> In (k, v) (filledFields we) /\ v <> "")
    /\ m !! "PRIVATE_CLUSTER" = None
    /\ m !! "BUILD_CONTEXT_PATH"
       = Some (valueOr "." (workflows.EnvVar.Value (workflows.EnvBuildContextPath we)))
    /\ m !! "CHART_OVERRIDES"
       = Some (valueOr "replicas:2"
                 (workflows.EnvVar.Value
                    (workflows.HelmChartOverrides (workflows.HelmEnvStruct we)))).
Proof.
  intros we m.
  assert (Hiff : forall k v, m !! k = Some v <-> In (k, v) (filledFields we) /\ v <> "").
  { intros k v. subst m. rewrite BuildMap_filled, collected_lookup.
    - rewrite lookup_empty. split; [ intros [H | H]; [ exact H | discriminate H ] | auto ].
    - compute_done.
    - intros k' _. apply lookup_empty. }
  split; [ exact Hiff | ].
  assert (Hor : forall d x, valueOr d x <> "" \/ d = "").
  { intros d x. unfold valueOr. destruct (String.eqb_spec x "") as [-> | Hx].
    - destruct (String.eqb_spec d ""); auto.
    - auto. }
  split; [ | split ].
  - destruct (m !! "PRIVATE_CLUSTER") as [v | ] eqn:Hl; [ | reflexivity ].
    apply Hiff in Hl as [Hin _]. cbn [filledFields In] in Hin.
    repeat (destruct Hin as [Hin | Hin]; [ discriminate Hin | ]). destruct Hin.
  - apply Hiff. split.
    + cbn [filledFields In]. do 3 right. left. reflexivity.
    + destruct (Hor "." (workflows.EnvVar.Value (workflows.EnvBuildContextPath we)))
        as [H | H]; [ exact H | discriminate H ].
  - apply Hiff. split.
    + cbn [filledFields In]. do 9 right. left. reflexivity.
    + destruct (Hor "replicas:2"
                  (workflows.EnvVar.Value
                     (workflows.HelmChartOverrides (workflows.HelmEnvStruct we))))
        as [H | H]; [ exact H | discriminate H ].
Qed.

Lemma BuildMap_after_filling_witness :
  workflows.BuildMap (workflows.FillWorkflowEnv sample.emptyEnv) !! "KUSTOMIZE_PATH"
  = Some "./overlays/production".
Proof.
  apply (proj2 (proj1 (BuildMap_after_filling sample.emptyEnv)
                  "KUSTOMIZE_PATH" "./overlays/production")).
  split; [ do 10 right; left; reflexivity | discriminate ].
Defined.

(** X8.  [FillWorkflowEnv] can be applied again without effect.  It gives
    the variables their names and keeps every value that the user gave: a
    value is replaced only when it is empty, and then by the default of
    the variable, for the six variables that have one. *)
Theorem FillWorkflowEnv_is_idempotent :
  forall we : workflows.WorkflowEnv,
    workflows.FillWorkflowEnv (workflows.FillWorkflowEnv we) = workflows.FillWorkflowEnv we
    /\ map (fun e => (workflows.EnvVar.Name e, workflows.EnvVar.Value e))
         (builtVars (workflows.FillWorkflowEnv we)) = filledFields we
    /\ (forall fallback value, value <> "" -> valueOr fallback value = value)
    /\ workflows.EnvVar.Value (workflows.EnvPrivateCluster (workflows.FillWorkflowEnv we))
       = workflows.EnvVar.Value (workflows.EnvPrivateCluster we).
Proof.
  intros we.
  assert (Hidem : forall d e,
             d <> "" -> workflows.orDefault d (workflows.orDefault d e) = workflows.orDefault d e).
  { intros d e Hd. unfold workflows.orDefault.
    destruct (String.eqb_spec (workflows.EnvVar.Value e) "") as [He | He]; cbn.
    - destruct (String.eqb_spec d ""); [ contradiction | reflexivity ].
    - destruct (String.eqb_spec (workflows.EnvVar.Value e) ""); [ contradiction | reflexivity ]. }
  assert (Hdesc : forall n d b x e,
             workflows.describe n d b (workflows.orDefault x (workflows.describe n d b e))
             = workflows.orDefault x (workflows.describe n d b e)).
  { intros n d b x e. unfold workflows.orDefault, workflows.describe. cbn.
    destruct (String.eqb (workflows.EnvVar.Value e) ""); reflexivity. }
  split; [ | split; [ | split ] ].
  - unfold workflows.FillWorkflowEnv at 1.
    cbn [workflows.FillWorkflowEnv workflows.EnvAcrResourceGroup
         workflows.EnvAzureContainerRegistry workflows.EnvBranchName
         workflows.EnvBuildContextPath workflows.EnvClusterName
         workflows.EnvClusterResourceGroup workflows.EnvContainerName
         workflows.EnvPrivateCluster workflows.HelmEnvStruct workflows.KustomizeEnvStruct
         workflows.ManifestEnvStruct workflows.HelmChartPath workflows.HelmChartOverridePath
         workflows.HelmChartOverrides workflows.KustomizePath
         workflows.DeploymentManifestPath].
    rewrite !Hdesc, !Hidem by discriminate. reflexivity.
  - apply builtVars_filled.
  - intros fallback value Hvalue. unfold valueOr.
    destruct (String.eqb_spec value ""); [ contradiction | reflexivity ].
  - reflexivity.
Qed.

Lemma FillWorkflowEnv_is_idempotent_witness : valueOr "." "src" = "src".
Proof.
  apply (proj1 (proj2 (proj2 (FillWorkflowEnv_is_idempotent sample.emptyEnv)))).
  discriminate.
Defined.

(** ** Prompts for a workflow environment *)

Section DeployPrompts.
Import workflows prompts promptui.

Lemma runBoolPromptForEnvVar_answer e t t' input :
  runBoolPromptForEnvVar e t = (t', (input, nil_error)) -> input <> "".
Proof.
  unfold runBoolPromptForEnvVar, SelectRun.
  destruct (awaitChoice ["true"; "false"] (stdin t)) as [rest [item [err | ]]] eqn:Hc;
    [ discriminate | ].
  intros [= <- <-]. apply awaitChoice_item in Hc.
  destruct Hc as [<- | [<- | []]]; discriminate.
Qed.

Lemma runDefaultableStringPromptForEnvVar_answer e d t t' input :
  runDefaultableStringPromptForEnvVar e d None t = (t', (input, nil_error)) -> input <> "".
Proof.
  unfold runDefaultableStringPromptForEnvVar, PromptRun.
  destruct (String.eqb_spec d "") as [-> | Hd]; cbn [negb].
  - destruct (awaitLine (Some NoBlankStringValidator) (stdin t))
      as [rest [line [err | ]]] eqn:Hl; [ discriminate | ].
    apply awaitLine_valid in Hl.
    rewrite andb_false_r. intros [= <- <-] ->. discriminate Hl.
  - destruct (awaitLine (Some AllowAllStringValidator) (stdin t))
      as [rest [line [err | ]]] eqn:Hl; [ discriminate | ].
    destruct (String.eqb_spec line "") as [-> | Hline]; cbn [andb negb].
    + intros [= <- <-]. exact Hd.
    + intros [= <- <-]. exact Hline.
Qed.

(** What one call of the closure does to the captured map: nothing, or
    one assignment of a non-empty value to the name of its variable, which
    is then not a skipped name. *)
Lemma skipOrPrompt_inputs skipMap e inputs t inputs' t' err :
  skipOrPrompt skipMap e inputs t = ((inputs', t'), err) ->
  (inputs' = inputs /\ (err = nil_error -> EnvVar.Name e ∈ skipMap))
  \/ (exists value, value <> "" /\ (EnvVar.Name e ∉ skipMap) /\ err = nil_error
                    /\ inputs' = <[EnvVar.Name e := value]> inputs).
Proof.
  unfold skipOrPrompt.
  destruct (decide (EnvVar.Name e ∈ skipMap)) as [Hskip | Hskip].
  { intros [= <- <- <-]. left. auto. }
  destruct (EnvVar.DisablePrompt e).
  { destruct (String.eqb_spec (EnvVar.Value e) "") as [Hv | Hv]; intros [= <- <- <-].
    - left. split; [ reflexivity | discriminate ].
    - right. exists (EnvVar.Value e). auto. }
  destruct (String.eqb (EnvVar.Type_ e) "bool").
  - destruct (runBoolPromptForEnvVar e t) as [t1 [input [err1 | ]]] eqn:Hb;
      intros [= <- <- <-].
    + left. split; [ reflexivity | discriminate ].
    + right. exists input. split; [ eapply runBoolPromptForEnvVar_answer; exact Hb | auto ].
  - destruct (runDefaultableStringPromptForEnvVar e (EnvVar.Value e) None t)
      as [t1 [input [err1 | ]]] eqn:Hs; intros [= <- <- <-].
    + left. split; [ reflexivity | discriminate ].
    + right. exists input.
      split; [ eapply runDefaultableStringPromptForEnvVar_answer; exact Hs | auto ].
Qed.

Lemma skipOrPromptEach_inputs skipMap envVars :
  forall inputs t inputs' t',
    skipOrPromptEach skipMap envVars inputs t = ((inputs', t'), nil_error) ->
    (forall k x, inputs !! k = Some x -> x <> "") ->
    (forall k x, inputs' !! k = Some x -> x <> "")
    /\ (forall k, is_Some (inputs' !! k)
                  <-> is_Some (inputs !! k)
                      \/ ((exists e, In e envVars /\ EnvVar.Name e = k) /\ k ∉ skipMap)).
Proof.
  induction envVars as [| e envVars IH]; intros inputs t inputs' t' Hrun Hne;
    cbn [skipOrPromptEach] in Hrun.
  - injection Hrun as <- <-. split; [ exact Hne | ].
    intros k. split; [ auto | intros [H | [(e & [] & _) _]]; exact H ].
  - destruct (skipOrPrompt skipMap e inputs t) as [[inputs1 t1] [err | ]] eqn:Hone;
      [ discriminate Hrun | ].
    apply skipOrPrompt_inputs in Hone.
    destruct Hone as [[-> Hsk] | (value & Hvalue & Hns & _ & ->)].
    + specialize (Hsk eq_refl).
      destruct (IH _ _ _ _ Hrun Hne) as [H1 H2]. split; [ exact H1 | ].
      intros k. rewrite H2. split.
      * intros [H | [(e' & Hin & Hname) Hk]]; [ left; exact H | right ].
        split; [ exists e'; split; [ right; exact Hin | exact Hname ] | exact Hk ].
      * intros [H | [(e' & [<- | Hin] & Hname) Hk]]; [ left; exact H | | ].
        -- subst k. contradiction.
        -- right. split; [ exists e'; auto | exact Hk ].
    + destruct (IH _ _ _ _ Hrun) as [H1 H2].
      { intros k x. destruct (decide (EnvVar.Name e = k)) as [<- | Hk].
        - rewrite lookup_insert_eq. intros [= <-]. exact Hvalue.
        - rewrite lookup_insert_ne by exact Hk. apply Hne. }
      split; [ exact H1 | ].
      intros k. rewrite H2. split.
      * intros [H | [(e' & Hin & Hname) Hk]].
        -- destruct (decide (EnvVar.Name e = k)) as [<- | Hd].
           ++ right. split; [ exists e; split; [ left; reflexivity | reflexivity ] | exact Hns ].
           ++ rewrite lookup_insert_ne in H by exact Hd. left. exact H.
        -- right. split; [ exists e'; split; [ right; exact Hin | exact Hname ] | exact Hk ].
      * intros [H | [(e' & [<- | Hin] & Hname) Hk]].
        -- left. destruct (decide (EnvVar.Name e = k)) as [<- | Hd].
           ++ rewrite lookup_insert_eq. eauto.
           ++ rewrite lookup_insert_ne by exact Hd. exact H.
        -- left. subst k. rewrite lookup_insert_eq. eauto.
        -- right. split; [ exists e'; auto | exact Hk ].
Qed.

Lemma skipOrPrompt_stdout skipMap e inputs t :
  exists shown,
    stdout (skipOrPrompt skipMap e inputs t).1.2 = (stdout t ++ shown)%list.
Proof.
  unfold skipOrPrompt.
  destruct (decide (EnvVar.Name e ∈ skipMap)); [ exists []; by rewrite app_nil_r | ].
  destruct (EnvVar.DisablePrompt e).
  { destruct (String.eqb _ ""); exists []; by rewrite app_nil_r. }
  destruct (String.eqb (EnvVar.Type_ e) "bool").
  - unfold runBoolPromptForEnvVar.
    match goal with |- context [SelectRun ?l ?i t] =>
      pose proof (SelectRun_stdout l i t) as Hs;
      destruct (SelectRun l i t) as [t1 [input [err | ]]] end;
      eexists; exact Hs.
  - unfold runDefaultableStringPromptForEnvVar.
    destruct (negb (String.eqb (EnvVar.Value e) ""));
      match goal with |- context [PromptRun ?l ?f t] =>
        pose proof (PromptRun_stdout l f t) as Hs;
        destruct (PromptRun l f t) as [t1 [input [err | ]]] end;
      try destruct (_ && _); eexists; exact Hs.
Qed.

Lemma skipOrPromptEach_stdout skipMap envVars :
  forall inputs t,
    exists shown,
      stdout (skipOrPromptEach skipMap envVars inputs t).1.2 = (stdout t ++ shown)%list.
Proof.
  induction envVars as [| e envVars IH]; intros inputs t; cbn [skipOrPromptEach].
  - exists []. by rewrite app_nil_r.
  - destruct (skipOrPrompt_stdout skipMap e inputs t) as (shown & Hs).
    destruct (skipOrPrompt skipMap e inputs t) as [[inputs1 t1] [err | ]]; cbn in Hs.
    + exists shown. exact Hs.
    + destruct (IH inputs1 t1) as (shown' & Hs').
      exists (shown ++ shown')%list. rewrite Hs', Hs, app_assoc. reflexivity.
Qed.
End DeployPrompts.

(** X9.  When [RunPromptsForDeployTypeWithSkipsIO] succeeds, the keys of
    the returned map are exactly the names of the variables it visits for
    the deploy type that are not in the skip set, and every value is not
    empty.  A skipped name is never a key, whatever value or default its
    variable has. *)
Theorem deploy_prompts_resolve_the_unskipped :
  forall (workflowEnv : workflows.WorkflowEnv) (deployType : string)
         (varsToSkip : list string) (t t' : promptui.terminal)
         (resolved : gmap string string),
    prompts.RunPromptsForDeployTypeWithSkipsIO workflowEnv deployType varsToSkip t
      = (t', (Some resolved, nil_error)) ->
    (forall k, is_Some (resolved !! k)
               <-> (exists e, In e (prompts.promptedEnvVars workflowEnv deployType)
                              /\ workflows.EnvVar.Name e = k)
                   /\ ~ In k varsToSkip)
    /\ (forall k value, resolved !! k = Some value -> value <> "").
Proof.
  intros workflowEnv deployType varsToSkip t t' resolved Hrun.
  unfold prompts.RunPromptsForDeployTypeWithSkipsIO in Hrun.
  destruct (prompts.skipOrPromptEach _ _ ∅ t) as [[inputs t1] [err | ]] eqn:Hloop;
    [ discriminate Hrun | ].
  injection Hrun as <- <-.
  destruct (skipOrPromptEach_inputs _ _ _ _ _ _ Hloop) as [Hne Hkeys].
  { intros k x Hk. rewrite lookup_empty in Hk. discriminate Hk. }
  split; [ | exact Hne ].
  intros k. rewrite Hkeys, lookup_empty.
  assert (Hset : k ∉ (list_to_set varsToSkip : gset string) <-> ~ In k varsToSkip).
  { rewrite elem_of_list_to_set, list_elem_of_In. reflexivity. }
  split.
  - intros [[x Hx] | [He Hk]]; [ discriminate Hx | ]. split; [ exact He | by apply Hset ].
  - intros [He Hk]. right. split; [ exact He | by apply Hset ].
Qed.

Lemma deploy_prompts_resolve_the_unskipped_witness :
  let resolved : gmap string string :=
    {["ACR_RESOURCE_GROUP" := "mine"; "KUSTOMIZE_PATH" := "./overlays/production"]} in
  (forall k, is_Some (resolved !! k)
             <-> (exists e,
                    In e (prompts.promptedEnvVars
                            (workflows.FillWorkflowEnv sample.emptyEnv) "kustomize")
                    /\ workflows.EnvVar.Name e = k)
                 /\ ~ In k ["BRANCH_NAME"; "BUILD_CONTEXT_PATH"; "CLUSTER_NAME";
                            "CLUSTER_RESOURCE_GROUP"; "CONTAINER_NAME"])
  /\ (forall k value, resolved !! k = Some value -> value <> "").
Proof.
  apply (deploy_prompts_resolve_the_unskipped
           (workflows.FillWorkflowEnv sample.emptyEnv) "kustomize"
           ["BRANCH_NAME"; "BUILD_CONTEXT_PATH"; "CLUSTER_NAME";
            "CLUSTER_RESOURCE_GROUP"; "CONTAINER_NAME"]
           (sample.typed "mine" 2)
           (promptui.mkTerminal []
              ["Please enter the Azure Resource Group of the Azure Container Registry";
               "Please enter the Azure Resource Group of the Azure Container Registry"])
           ({["ACR_RESOURCE_GROUP" := "mine"; "KUSTOMIZE_PATH" := "./overlays/production"]}
              : gmap string string)).
  vm_compute. reflexivity.
Defined.

Section RegistryPrompt.
Import workflows prompts promptui.

Lemma runDefaultableStringPromptForEnvVar_stdout e d validate t :
  exists defaultString,
    stdout (runDefaultableStringPromptForEnvVar e d validate t).1
    = (stdout t ++ ["Please enter " +:+ EnvVar.Description e +:+ defaultString])%list.
Proof.
  unfold runDefaultableStringPromptForEnvVar.
  destruct (negb (String.eqb d ""));
    match goal with |- context [PromptRun ?l ?f t] =>
      pose proof (PromptRun_stdout l f t) as Hs;
      destruct (PromptRun l f t) as [t1 [input [err | ]]] end;
    try destruct (_ && _); eexists; exact Hs.
Qed.

Lemma filled_names we deployType e :
  In e (promptedEnvVars (FillWorkflowEnv we) deployType) ->
  In (EnvVar.Name e)
     ["ACR_RESOURCE_GROUP"; "BRANCH_NAME"; "BUILD_CONTEXT_PATH"; "CLUSTER_NAME";
      "CLUSTER_RESOURCE_GROUP"; "CONTAINER_NAME"; "CHART_PATH"; "CHART_OVERRIDE_PATH";
      "CHART_OVERRIDES"; "KUSTOMIZE_PATH"; "DEPLOYMENT_MANIFEST_PATH"].
Proof.
  unfold promptedEnvVars. intros Hin. apply in_app_or in Hin as [Hin | Hin].
  - cbn [In FillWorkflowEnv EnvAcrResourceGroup EnvBranchName EnvBuildContextPath
         EnvClusterName EnvClusterResourceGroup EnvContainerName] in Hin.
    repeat (destruct Hin as [<- | Hin]; [ rewrite ?orDefault_name; cbn; tauto | ]).
    destruct Hin.
  - destruct (String.eqb deployType "helm");
      [ | destruct (String.eqb deployType "kustomize");
          [ | destruct (String.eqb deployType "manifests") ] ];
      cbn [In FillWorkflowEnv HelmEnvStruct KustomizeEnvStruct ManifestEnvStruct
           HelmChartPath HelmChartOverridePath HelmChartOverrides KustomizePath
           DeploymentManifestPath] in Hin;
      repeat (destruct Hin as [<- | Hin]; [ rewrite ?orDefault_name; cbn; tauto | ]);
      destruct Hin.
Qed.
End RegistryPrompt.

(** X10.  On the filled environment, [RunPromptsForDeployTypeWithSkipsIO]
    never resolves the registry name ACR_NAME nor PRIVATE_CLUSTER: it calls
    [skipOrPrompt] on the registry's resource group twice and on the
    registry never.  When the resource group is not skipped, the user is
    asked for it twice in a row. *)
Theorem registry_name_is_never_resolved :
  forall (we : workflows.WorkflowEnv) (deployType : string) (varsToSkip : list string)
         (t t' : promptui.terminal) (resolved : gmap string string),
    prompts.RunPromptsForDeployTypeWithSkipsIO (workflows.FillWorkflowEnv we) deployType
      varsToSkip t = (t', (Some resolved, nil_error)) ->
    resolved !! "ACR_NAME" = None
    /\ resolved !! "PRIVATE_CLUSTER" = None
    /\ (~ In "ACR_RESOURCE_GROUP" varsToSkip ->
        workflows.EnvVar.Type_ (workflows.EnvAcrResourceGroup we) <> "bool" ->
        exists first second others,
          promptui.stdout t'
          = (promptui.stdout t
             ++ ["Please enter the Azure Resource Group of the Azure Container Registry"
                 +:+ first;
                 "Please enter the Azure Resource Group of the Azure Container Registry"
                 +:+ second]
             ++ others)%list).
Proof.
  intros we deployType varsToSkip t t' resolved Hrun.
  unfold prompts.RunPromptsForDeployTypeWithSkipsIO in Hrun.
  destruct (prompts.skipOrPromptEach _ _ ∅ t) as [[inputs t1] [err | ]] eqn:Hloop;
    [ discriminate Hrun | ].
  injection Hrun as <- <-.
  assert (Hnot : forall k,
             ~ In k ["ACR_RESOURCE_GROUP"; "BRANCH_NAME"; "BUILD_CONTEXT_PATH";
                     "CLUSTER_NAME"; "CLUSTER_RESOURCE_GROUP"; "CONTAINER_NAME";
                     "CHART_PATH"; "CHART_OVERRIDE_PATH"; "CHART_OVERRIDES";
                     "KUSTOMIZE_PATH"; "DEPLOYMENT_MANIFEST_PATH"] ->
             inputs !! k = None).
  { intros k Hk.
    destruct (skipOrPromptEach_inputs _ _ _ _ _ _ Hloop) as [_ Hkeys].
    { intros k' x Hk'. rewrite lookup_empty in Hk'. discriminate Hk'. }
    destruct (inputs !! k) as [x | ] eqn:Hl; [ | reflexivity ].
    exfalso. assert (His : is_Some (inputs !! k)) by (rewrite Hl; eauto).
    apply Hkeys in His as [[y Hy] | [(e & Hin & Hname) _]].
    - rewrite lookup_empty in Hy. discriminate Hy.
    - apply Hk. rewrite <- Hname. eapply filled_names. exact Hin. }
  split; [ apply Hnot; cbn; intuition discriminate | ].
  split; [ apply Hnot; cbn; intuition discriminate | ].
  intros Hskip Hbool.
  assert (Hns : "ACR_RESOURCE_GROUP" ∉ (list_to_set varsToSkip : gset string)).
  { rewrite elem_of_list_to_set, list_elem_of_In. exact Hskip. }
  set (rg := workflows.describe "ACR_RESOURCE_GROUP"
               "the Azure Resource Group of the Azure Container Registry" false
               (workflows.EnvAcrResourceGroup we)).
  assert (Hvars : exists tail,
             prompts.promptedEnvVars (workflows.FillWorkflowEnv we) deployType
             = rg :: rg :: tail) by (eexists; reflexivity).
  destruct Hvars as [tail Hvars]. rewrite Hvars in Hloop. clear Hvars.
  assert (Hone : forall inputs0 t0,
             prompts.skipOrPrompt (list_to_set varsToSkip) rg inputs0 t0
             = match prompts.runDefaultableStringPromptForEnvVar rg
                       (workflows.EnvVar.Value rg) None t0 with
               | (t2, (_, Some err)) => ((inputs0, t2), Some err)
               | (t2, (stringInput, None)) =>
                   ((<["ACR_RESOURCE_GROUP" := stringInput]> inputs0, t2), nil_error)
               end).
  { intros inputs0 t0. unfold prompts.skipOrPrompt.
    change (workflows.EnvVar.Name rg) with "ACR_RESOURCE_GROUP".
    destruct (decide ("ACR_RESOURCE_GROUP" ∈ (list_to_set varsToSkip : gset string)));
      [ contradiction | ].
    change (workflows.EnvVar.DisablePrompt rg) with false. cbv iota.
    change (workflows.EnvVar.Type_ rg)
      with (workflows.EnvVar.Type_ (workflows.EnvAcrResourceGroup we)).
    destruct (String.eqb_spec (workflows.EnvVar.Type_ (workflows.EnvAcrResourceGroup we))
                "bool"); [ contradiction | reflexivity ]. }
  cbn [prompts.skipOrPromptEach] in Hloop. rewrite Hone in Hloop.
  destruct (runDefaultableStringPromptForEnvVar_stdout rg (workflows.EnvVar.Value rg) None t)
    as (first & Hfirst).
  destruct (prompts.runDefaultableStringPromptForEnvVar rg (workflows.EnvVar.Value rg) None t)
    as [ta [inputa [erra | ]]]; [ discriminate Hloop | ].
  unfold nil_error in Hloop. rewrite Hone in Hloop.
  destruct (runDefaultableStringPromptForEnvVar_stdout rg (workflows.EnvVar.Value rg) None ta)
    as (second & Hsecond).
  destruct (prompts.runDefaultableStringPromptForEnvVar rg (workflows.EnvVar.Value rg) None ta)
    as [tb [inputb [errb | ]]]; [ discriminate Hloop | ].
  unfold nil_error in Hloop.
  match type of Hloop with
  | prompts.skipOrPromptEach ?sk ?vars ?i tb = _ =>
      destruct (skipOrPromptEach_stdout sk vars i tb) as (others & Hothers)
  end.
  rewrite Hloop in Hothers. cbn [fst snd] in *.
  exists first, second, others.
  rewrite Hothers, Hsecond, Hfirst, <- !app_assoc. reflexivity.
Qed.

Lemma registry_name_is_never_resolved_witness :
  ({["ACR_RESOURCE_GROUP" := "mine"; "KUSTOMIZE_PATH" := "./overlays/production"]}
     : gmap string string) !! "ACR_NAME" = None.
Proof.
  pose proof (registry_name_is_never_resolved sample.emptyEnv "kustomize"
                ["BRANCH_NAME"; "BUILD_CONTEXT_PATH"; "CLUSTER_NAME";
                 "CLUSTER_RESOURCE_GROUP"; "CONTAINER_NAME"]
                (sample.typed "mine" 2)
                (promptui.mkTerminal []
                   ["Please enter the Azure Resource Group of the Azure Container Registry";
                    "Please enter the Azure Resource Group of the Azure Container Registry"])
                ({["ACR_RESOURCE_GROUP" := "mine";
                   "KUSTOMIZE_PATH" := "./overlays/production"]} : gmap string string))
    as Hrun.
  apply Hrun. vm_compute. reflexivity.
Defined.

(** ** The helpers over the file system *)

Section Disk.
Import osutil.

Lemma localDisk_MkdirAll_Stat path perm (before after : LocalFS) :
  os.MkdirAll path perm before = (after, nil_error) ->
  os.Stat path after = os.Info true.
Proof.
  cbn [os.MkdirAll os.Stat localDisk].
  destruct (files before !! path); [ discriminate | ].
  intros [= <-]. cbn [dirs].
  destruct (decide (path ∈ {[path]} ∪ dirs before)) as [_ | Hnot]; [ reflexivity | ].
  exfalso. apply Hnot, elem_of_union_l, elem_of_singleton. reflexivity.
Qed.

Lemma localDisk_Create_Stat path (before after : LocalFS) :
  os.Create path before = (after, nil_error) ->
  os.Stat path after = os.Info false.
Proof.
  cbn [os.Create os.Stat localDisk].
  destruct (decide (path ∈ dirs before)) as [Hdir | Hdir]; [ discriminate | ].
  intros [= <-]. cbn [dirs files].
  destruct (decide (path ∈ dirs before)); [ contradiction | ].
  rewrite lookup_insert_eq. reflexivity.
Qed.
End Disk.

(** X11.  Whatever the file system, [EnsureDirectory] leaves it as it is
    whenever [os.Stat] finds the path, returning nil for a directory and
    an error for anything else; when [os.Stat] fails, for whatever
    reason, the file system and the outcome are those of
    [os.MkdirAll(dir, 0755)].  On a file system where [os.Stat] finds the
    directory that a successful [os.MkdirAll] was asked for, a call that
    returned nil can be repeated: the second call returns nil and changes
    nothing. *)
Theorem EnsureDirectory_is_idempotent :
  forall (F : Type) (fs : os.FileSystem F) (dir : string) (fsys : F),
    (forall path perm before after,
        os.MkdirAll path perm before = (after, nil_error) ->
        os.Stat path after = os.Info true) ->
    let result := osutil.ensureDirectory dir fsys in
    (forall isDir, os.Stat dir fsys = os.Info isDir ->
       result.1 = fsys /\ (result.2 = nil_error <-> isDir = true))
    /\ ((forall isDir, os.Stat dir fsys <> os.Info isDir) ->
        result.1 = (os.MkdirAll dir 493%N fsys).1
        /\ (result.2 = nil_error <-> (os.MkdirAll dir 493%N fsys).2 = nil_error))
    /\ (result.2 = nil_error ->
        os.Stat dir result.1 = os.Info true
        /\ osutil.ensureDirectory dir result.1 = (result.1, nil_error)).
Proof.
  intros F fs dir fsys Hmade. cbv zeta.
  assert (Hagain : forall after,
             os.Stat dir after = os.Info true ->
             osutil.ensureDirectory dir after = (after, nil_error)).
  { intros after Hstat. unfold osutil.ensureDirectory. rewrite Hstat. reflexivity. }
  assert (Hmkdir : (forall isDir, os.Stat dir fsys <> os.Info isDir) ->
             osutil.ensureDirectory dir fsys
             = match os.MkdirAll dir 493%N fsys with
               | (fsys', Some err) =>
                   (fsys', Errorf ("could not create " +:+ dir +:+ ": " +:+ err))
               | (fsys', None) => (fsys', nil_error)
               end).
  { intros Hnone. unfold osutil.ensureDirectory.
    destruct (os.Stat dir fsys) as [isDir | err | err];
      [ exfalso; exact (Hnone isDir eq_refl) | reflexivity | reflexivity ]. }
  split; [ | split ].
  - intros isDir Hstat. unfold osutil.ensureDirectory. rewrite Hstat.
    destruct isDir; cbn [negb fst snd]; (split; [ reflexivity | ]);
      (split; [ intros Hok | intros Hdir ]); try reflexivity; discriminate.
  - intros Hnone. rewrite (Hmkdir Hnone).
    destruct (os.MkdirAll dir 493%N fsys) as [fsys' [err | ]]; cbn [fst snd];
      (split; [ reflexivity | ]); split; intros Hok; try reflexivity; discriminate Hok.
  - destruct (os.Stat dir fsys) as [isDir | err | err] eqn:Hstat.
    + unfold osutil.ensureDirectory. rewrite Hstat.
      destruct isDir; cbn [negb fst snd]; intros Hok; [ | discriminate Hok ].
      split; [ exact Hstat | ].
      fold (osutil.ensureDirectory dir fsys). apply Hagain. exact Hstat.
    + rewrite Hmkdir by (intros isDir; discriminate).
      destruct (os.MkdirAll dir 493%N fsys) as [fsys' [err' | ]] eqn:Hrun; cbn [fst snd];
        intros Hok; [ discriminate Hok | ].
      pose proof (Hmade _ _ _ _ Hrun) as Hthere.
      split; [ exact Hthere | apply Hagain; exact Hthere ].
    + rewrite Hmkdir by (intros isDir; discriminate).
      destruct (os.MkdirAll dir 493%N fsys) as [fsys' [err' | ]] eqn:Hrun; cbn [fst snd];
        intros Hok; [ discriminate Hok | ].
      pose proof (Hmade _ _ _ _ Hrun) as Hthere.
      split; [ exact Hthere | apply Hagain; exact Hthere ].
Qed.

Lemma EnsureDirectory_is_idempotent_witness :
  osutil.ensureDirectory "out" (osutil.ensureDirectory "out" sample.emptyDisk).1
  = ((osutil.ensureDirectory "out" sample.emptyDisk).1, nil_error).
Proof.
  apply (proj2 (proj2 (EnsureDirectory_is_idempotent osutil.LocalFS osutil.localDisk
                         "out" sample.emptyDisk localDisk_MkdirAll_Stat))).
  reflexivity.
Defined.

(** X12.  Whatever the file system, [EnsureFile] leaves it as it is
    whenever [os.Stat] finds the path, so a file that exists keeps its
    content ([os.Create], which would truncate it, is not called); it
    returns nil for anything but a directory.  When [os.Stat] fails, for
    whatever reason, the file system and the outcome are those of
    [os.Create].  On a file system where [os.Stat] finds the file that a
    successful [os.Create] was asked for, after a call that returned nil
    [Exists] reports the path and a second call returns nil and changes
    nothing. *)
Theorem EnsureFile_keeps_existing_content :
  forall (F : Type) (fs : os.FileSystem F) (file : string) (fsys : F),
    (forall path before after,
        os.Create path before = (after, nil_error) ->
        os.Stat path after = os.Info false) ->
    let result := osutil.EnsureFile file fsys in
    (forall isDir, os.Stat file fsys = os.Info isDir ->
       result.1 = fsys /\ (result.2 = nil_error <-> isDir = false))
    /\ ((forall isDir, os.Stat file fsys <> os.Info isDir) ->
        result.1 = (os.Create file fsys).1
        /\ (result.2 = nil_error <-> (os.Create file fsys).2 = nil_error))
    /\ (result.2 = nil_error ->
        osutil.Exists file result.1 = (true, nil_error)
        /\ osutil.EnsureFile file result.1 = (result.1, nil_error)).
Proof.
  intros F fs file fsys Hmade. cbv zeta.
  assert (Hagain : forall after,
             os.Stat file after = os.Info false ->
             osutil.Exists file after = (true, nil_error)
             /\ osutil.EnsureFile file after = (after, nil_error)).
  { intros after Hstat. unfold osutil.Exists, osutil.EnsureFile. rewrite Hstat.
    split; reflexivity. }
  assert (Hcreate : (forall isDir, os.Stat file fsys <> os.Info isDir) ->
             osutil.EnsureFile file fsys
             = match os.Create file fsys with
               | (fsys', Some err) =>
                   (fsys', Errorf ("could not create " +:+ file +:+ ": " +:+ err))
               | (fsys', None) => (fsys', nil_error)
               end).
  { intros Hnone. unfold osutil.EnsureFile.
    destruct (os.Stat file fsys) as [isDir | err | err];
      [ exfalso; exact (Hnone isDir eq_refl) | reflexivity | reflexivity ]. }
  split; [ | split ].
  - intros isDir Hstat. unfold osutil.EnsureFile. rewrite Hstat.
    destruct isDir; cbn [fst snd]; (split; [ reflexivity | ]);
      (split; [ intros Hok | intros Hdir ]); try reflexivity; discriminate.
  - intros Hnone. rewrite (Hcreate Hnone).
    destruct (os.Create file fsys) as [fsys' [err | ]]; cbn [fst snd];
      (split; [ reflexivity | ]); split; intros Hok; try reflexivity; discriminate Hok.
  - destruct (os.Stat file fsys) as [isDir | err | err] eqn:Hstat.
    + assert (Hrun : osutil.EnsureFile file fsys
                     = if isDir
                       then (fsys, Errorf (file +:+ " must not be a directory"))
                       else (fsys, nil_error))
        by (unfold osutil.EnsureFile; rewrite Hstat; reflexivity).
      rewrite Hrun. destruct isDir; cbn [fst snd]; intros Hok; [ discriminate Hok | ].
      apply Hagain. exact Hstat.
    + rewrite Hcreate by (intros isDir; discriminate).
      destruct (os.Create file fsys) as [fsys' [err' | ]] eqn:Hrun; cbn [fst snd];
        intros Hok; [ discriminate Hok | ].
      apply Hagain. exact (Hmade _ _ _ Hrun).
    + rewrite Hcreate by (intros isDir; discriminate).
      destruct (os.Create file fsys) as [fsys' [err' | ]] eqn:Hrun; cbn [fst snd];
        intros Hok; [ discriminate Hok | ].
      apply Hagain. exact (Hmade _ _ _ Hrun).
Qed.

Lemma EnsureFile_keeps_existing_content_witness :
  osutil.EnsureFile "notes.txt"
    (osutil.EnsureFile "notes.txt" (osutil.mkLocalFS {["notes.txt" := "kept"]} ∅)).1
  = ((osutil.EnsureFile "notes.txt" (osutil.mkLocalFS {["notes.txt" := "kept"]} ∅)).1,
     nil_error).
Proof.
  apply (proj2 (proj2 (EnsureFile_keeps_existing_content osutil.LocalFS osutil.localDisk
                         "notes.txt" (osutil.mkLocalFS {["notes.txt" := "kept"]} ∅)
                         localDisk_Create_Stat))).
  reflexivity.
Defined.

(** ** Where CopyDir writes *)

Section Steps.
Import osutil.
Context {W : Type} `{TemplateWriter W}.
Variable cfg : option config.DraftConfig.
Variable customInputs : list (string * string).

(** A relation between the writer before and after, indexed by the
    destination, that every call on a path below the destination
    respects. *)
Variable R : string -> W -> W -> Prop.
Hypothesis R_refl : forall dest tw, R dest tw tw.
Hypothesis R_trans : forall dest a b c, R dest a b -> R dest b c -> R dest a c.
Hypothesis R_sub : forall dest name a b, R (dest +:+ "/" +:+ name) a b -> R dest a b.
Hypothesis R_write : forall dest name data mode tw,
  R dest tw (WriteFile (dest +:+ "/" +:+ name) data mode tw).1.
Hypothesis R_ensure : forall dest name tw,
  R dest tw (EnsureDirectory (dest +:+ "/" +:+ name) tw).1.

Lemma copyEntries_steps dest fs :
  Forall (fun f => forall d tw, R d tw (CopyDir cfg customInputs f d tw).1) fs ->
  forall tw,
    R dest tw
      (copyEntries cfg customInputs (fun f d t => CopyDir cfg customInputs f d t)
         dest fs tw).1.
Proof.
  induction 1 as [| f fs Hf _ IH]; intros tw.
  - apply R_refl.
  - cbn [copyEntries].
    destruct (String.eqb (Name f) reserved); [ apply IH | ].
    destruct (IsDir f).
    + pose proof (R_ensure dest (Name f) tw) as He.
      destruct (EnsureDirectory (dest +:+ "/" +:+ Name f) tw) as [tw1 [err | ]];
        cbn [fst] in He; [ exact He | ].
      pose proof (Hf (dest +:+ "/" +:+ Name f) tw1) as Hr. apply R_sub in Hr.
      destruct (CopyDir cfg customInputs f (dest +:+ "/" +:+ Name f) tw1)
        as [tw2 [err | ]]; cbn [fst] in Hr.
      * eapply R_trans; [ exact He | exact Hr ].
      * eapply R_trans; [ exact He | ]. eapply R_trans; [ exact Hr | apply IH ].
    + destruct (handleTemplateReplacement f customInputs) as [fileString [err | ]];
        [ apply R_refl | ].
      pose proof (R_write dest (checkNameOverrides (Name f) cfg) fileString 420%N tw)
        as Hw.
      destruct (WriteFile (dest +:+ "/" +:+ checkNameOverrides (Name f) cfg)
                  fileString 420%N tw) as [tw1 [err | ]]; cbn [fst] in Hw;
        [ exact Hw | ].
      eapply R_trans; [ exact Hw | apply IH ].
Qed.

Lemma CopyDir_steps src :
  forall dest tw, R dest tw (CopyDir cfg customInputs src dest tw).1.
Proof.
  induction src as [n d | n children IH | n b e] using entry_ind; intros dest tw.
  - apply R_refl.
  - cbn [CopyDir]. apply copyEntries_steps. exact IH.
  - apply R_refl.
Qed.
End Steps.

Lemma below_sub dest name path : below (dest +:+ "/" +:+ name) path -> below dest path.
Proof.
  intros [rest ->]. exists (name +:+ "/" +:+ rest).
  rewrite !append_assoc. reflexivity.
Qed.

(** X14.  Whatever the writer, every call that [CopyDir] makes on it, to
    write a file or to ensure a directory, is on a path below the
    destination; the calls made before the run stay as they are. *)
Theorem CopyDir_calls_stay_below_dest :
  forall (W : Type) (writer : osutil.TemplateWriter W)
         (cfg : option config.DraftConfig) (customInputs : list (string * string))
         (src : osutil.entry) (dest : string) (tw : list osutil.call * W),
    calls_below dest tw
      (osutil.CopyDir (H := @osutil.TracedWriter W writer) cfg customInputs src dest tw).1.
Proof.
  intros W writer cfg customInputs src dest tw.
  apply (CopyDir_steps (H := @osutil.TracedWriter W writer) cfg customInputs calls_below).
  - intros d t. exists []. split; [ by rewrite app_nil_r | constructor ].
  - intros d a b c (calls1 & H1 & Hb1) (calls2 & H2 & Hb2).
    exists (calls1 ++ calls2)%list. split.
    + rewrite H2, H1. by rewrite <- app_assoc.
    + apply Forall_app. split; assumption.
  - intros d name a b (calls & Hcalls & Hb). exists calls. split; [ exact Hcalls | ].
    eapply Forall_impl; [ exact Hb | ]. intros c Hc. eapply below_sub. exact Hc.
  - intros d name data mode [log w].
    cbn [osutil.WriteFile osutil.TracedWriter fst snd].
    destruct (osutil.WriteFile (d +:+ "/" +:+ name) data mode w) as [w' err].
    exists [osutil.WriteFileCall (d +:+ "/" +:+ name) data mode].
    split; [ reflexivity | ]. repeat constructor. exists name. reflexivity.
  - intros d name [log w].
    cbn [osutil.EnsureDirectory osutil.TracedWriter fst snd].
    destruct (osutil.EnsureDirectory (d +:+ "/" +:+ name) w) as [w' err].
    exists [osutil.EnsureDirectoryCall (d +:+ "/" +:+ name)].
    split; [ reflexivity | ]. repeat constructor. exists name. reflexivity.
Qed.

(** ** The dry run against the copy *)

Section DryRunAgainstCopy.
Import osutil.
Context {W : Type} `{TemplateWriter W}.
Variable cfg : option config.DraftConfig.

(** The order in which the [range] over the variables visits them in the
    copy, and in the dry run: the two need not agree. *)
Variable customInputs customInputs' : list (string * string).

(** The writer accepts every call. *)
Hypothesis accepts_files :
  forall path data mode (tw : W), (WriteFile path data mode tw).2 = nil_error.
Hypothesis accepts_directories :
  forall path (tw : W), (EnsureDirectory path tw).2 = nil_error.

Lemma collectEntries_copyEntries dest fs :
  Forall (fun f => forall d (tw : list call * W),
            let run := CopyDir cfg customInputs f d tw in
            let result := CopyDirToFileMap cfg customInputs' f d in
            run.2 = result.2
            /\ (result.2 = nil_error <-> is_Some result.1)
            /\ (forall m path data,
                  result.1 = Some m -> m !! path = Some data ->
                  exists content,
                    data = replaceEach customInputs' content
                    /\ In (WriteFileCall path (replaceEach customInputs content) 420%N)
                         run.1.1)) fs ->
  forall (tw : list call * W) (fileMap : gmap string string),
    (forall path data, fileMap !! path = Some data ->
       exists content,
         data = replaceEach customInputs' content
         /\ In (WriteFileCall path (replaceEach customInputs content) 420%N) tw.1) ->
    let run := copyEntries cfg customInputs (fun f d t => CopyDir cfg customInputs f d t)
                 dest fs tw in
    let result := collectEntries cfg customInputs'
                    (fun f d => CopyDirToFileMap cfg customInputs' f d) dest fs fileMap in
    run.2 = result.2
    /\ (result.2 = nil_error <-> is_Some result.1)
    /\ (forall m path data,
          result.1 = Some m -> m !! path = Some data ->
          exists content,
            data = replaceEach customInputs' content
            /\ In (WriteFileCall path (replaceEach customInputs content) 420%N) run.1.1).
Proof.
  induction 1 as [| f fs Hf _ IH]; intros tw fileMap Hinv; cbv zeta.
  - cbn [copyEntries collectEntries fst snd].
    split; [ reflexivity | ]. split; [ split; eauto | ].
    intros m path data [= <-]. apply Hinv.
  - cbn [copyEntries collectEntries].
    destruct (String.eqb (Name f) reserved); [ apply IH; exact Hinv | ].
    destruct (IsDir f) eqn:Hdir.
    + destruct tw as [log w]. cbn [EnsureDirectory TracedWriter fst snd].
      pose proof (accepts_directories (dest +:+ "/" +:+ Name f) w) as Hok.
      destruct (EnsureDirectory (dest +:+ "/" +:+ Name f) w) as [w1 err1].
      cbn [snd] in Hok. subst err1. unfold nil_error.
      specialize (Hf (dest +:+ "/" +:+ Name f)
                     ((log ++ [EnsureDirectoryCall (dest +:+ "/" +:+ Name f)])%list, w1)).
      cbv zeta in Hf. destruct Hf as (Herr & Hsome & Hsub).
      destruct (CopyDir cfg customInputs f (dest +:+ "/" +:+ Name f) _) as [tw2 err2].
      destruct (CopyDirToFileMap cfg customInputs' f (dest +:+ "/" +:+ Name f))
        as [sub err]. cbn [fst snd] in Herr, Hsome, Hsub. subst err2.
      destruct err as [err | ].
      * destruct sub; cbn [fst snd]; (split; [ reflexivity | ]);
          (split; [ unfold nil_error; split; [ discriminate | intros [? [=]] ] | ]);
          intros m path data [=].
      * destruct (proj1 Hsome eq_refl) as [sub' ->].
        apply IH. intros path data Hlook. eapply Hsub; [ reflexivity | exact Hlook ].
    + destruct f as [name0 data0 | name0 sub | name0 isDir err]; cbn [IsDir] in Hdir;
        try discriminate Hdir; subst;
        cbn [handleTemplateReplacement ReadFile nil_error Name].
      2: { cbn [fst snd]. split; [ reflexivity | ].
           split; [ unfold nil_error; split; [ discriminate | intros [? [=]] ] | ].
           intros m path data [=]. }
      destruct tw as [log w]. cbn [WriteFile TracedWriter fst snd].
      pose proof (accepts_files (dest +:+ "/" +:+ checkNameOverrides name0 cfg)
                    (replaceEach customInputs data0) 420%N w) as Hok.
      destruct (WriteFile (dest +:+ "/" +:+ checkNameOverrides name0 cfg)
                  (replaceEach customInputs data0) 420%N w) as [w1 err1].
      cbn [snd] in Hok. subst err1. unfold nil_error.
      apply IH. intros path data Hlook. cbn [fst].
      destruct (decide (dest +:+ "/" +:+ checkNameOverrides name0 cfg = path))
        as [<- | Hne].
      * rewrite lookup_insert_eq in Hlook. injection Hlook as <-.
        exists data0. split; [ reflexivity | ].
        apply in_or_app. right. left. reflexivity.
      * rewrite lookup_insert_ne in Hlook by exact Hne.
        destruct (Hinv path data Hlook) as (content & Hdata & Hin).
        exists content. split; [ exact Hdata | ].
        apply in_or_app. left. exact Hin.
Qed.

Lemma CopyDirToFileMap_CopyDir src :
  forall dest (tw : list call * W),
    let run := CopyDir cfg customInputs src dest tw in
    let result := CopyDirToFileMap cfg customInputs' src dest in
    run.2 = result.2
    /\ (result.2 = nil_error <-> is_Some result.1)
    /\ (forall m path data,
          result.1 = Some m -> m !! path = Some data ->
          exists content,
            data = replaceEach customInputs' content
            /\ In (WriteFileCall path (replaceEach customInputs content) 420%N) run.1.1).
Proof.
  induction src as [n d | n children IH | n b e] using entry_ind; intros dest tw;
    cbv zeta.
  - cbn [CopyDir CopyDirToFileMap fst snd]. split; [ reflexivity | ].
    split; [ unfold nil_error; split; [ discriminate | intros [? [=]] ] | ].
    intros m path data [=].
  - cbn [CopyDir CopyDirToFileMap].
    apply (collectEntries_copyEntries dest children IH tw ∅).
    intros path data Hlook. rewrite lookup_empty in Hlook. discriminate Hlook.
  - cbn [CopyDir CopyDirToFileMap fst snd]. split; [ reflexivity | ].
    split; [ unfold nil_error; split; [ discriminate | intros [? [=]] ] | ].
    intros m path data [=].
Qed.
End DryRunAgainstCopy.

(** X15.  Against a writer that accepts every call, and whatever the
    orders in which the copy and the dry run range over the variables
    ([customInputs] for [CopyDir], [customInputs'] for
    [CopyDirToFileMap]; Go fixes neither), the dry run fails exactly when
    the copy fails, with the same error; it returns a map exactly when it
    returns no error; and every entry of that map stems from a file that
    the copy writes at that path with mode 0644: the entry is the
    replacement, in the order of the dry run, of the very text whose
    replacement, in the order of the copy, is written. *)
Theorem dry_run_reports_only_what_the_copy_writes :
  forall (W : Type) (writer : osutil.TemplateWriter W)
         (cfg : option config.DraftConfig)
         (customInputs customInputs' : list (string * string))
         (src : osutil.entry) (dest : string) (tw : list osutil.call * W),
    (forall path data mode (w : W), (osutil.WriteFile path data mode w).2 = nil_error) ->
    (forall path (w : W), (osutil.EnsureDirectory path w).2 = nil_error) ->
    let run := osutil.CopyDir (H := @osutil.TracedWriter W writer)
                 cfg customInputs src dest tw in
    let result := osutil.CopyDirToFileMap cfg customInputs' src dest in
    run.2 = result.2
    /\ (result.2 = nil_error <-> is_Some result.1)
    /\ (forall m path data,
          result.1 = Some m -> m !! path = Some data ->
          exists content,
            data = osutil.replaceEach customInputs' content
            /\ In (osutil.WriteFileCall path (osutil.replaceEach customInputs content)
                     420%N) run.1.1).
Proof.
  intros W writer cfg customInputs customInputs' src dest tw Hfiles Hdirs.
  apply (CopyDirToFileMap_CopyDir (H := writer) cfg customInputs customInputs'
           Hfiles Hdirs).
Qed.

Lemma dry_run_reports_only_what_the_copy_writes_witness :
  let run := osutil.CopyDir (H := @osutil.TracedWriter unit osutil.NullWriter)
               None sample.nested sample.template "out" ([], tt) in
  let result := osutil.CopyDirToFileMap None (rev sample.nested) sample.template "out" in
  run.2 = result.2
  /\ (result.2 = nil_error <-> is_Some result.1)
  /\ (forall m path data,
        result.1 = Some m -> m !! path = Some data ->
        exists content,
          data = osutil.replaceEach (rev sample.nested) content
          /\ In (osutil.WriteFileCall path (osutil.replaceEach sample.nested content)
                   420%N) run.1.1).
Proof.
  apply (dry_run_reports_only_what_the_copy_writes unit osutil.NullWriter
           None sample.nested (rev sample.nested) sample.template "out" ([], tt)).
  - intros path data mode w. reflexivity.
  - intros path w. reflexivity.
Defined.

(** ** The command whose flags fill a WorkflowEnv *)

Section EnvCommand.
Import promptui.
Context {W : Type} `{templatewriter.TemplateWriter W}.
Variable Join : string -> string -> string.
Variable ReplaceTemplateVariables : string -> gmap string string -> string * error.
Variable CheckAllVariablesSubstituted : string -> error.

Lemma GenerateWorkflowBytes_supported deployType envArgsMap workflowBytes :
  cmdEnv.GenerateWorkflowBytes ReplaceTemplateVariables CheckAllVariablesSubstituted
    deployType envArgsMap = (workflowBytes, nil_error) ->
  In deployType cmd.deployTypes.
Proof.
  unfold cmdEnv.GenerateWorkflowBytes, cmd.deployTypes.
  destruct (String.eqb_spec deployType "helm") as [-> | _]; [ intros _; left; reflexivity | ].
  destruct (String.eqb_spec deployType "kustomize") as [-> | _];
    [ intros _; right; left; reflexivity | ].
  destruct (String.eqb_spec deployType "manifests") as [-> | _];
    [ intros _; right; right; left; reflexivity | ].
  intros Hbytes. discriminate Hbytes.
Qed.

Lemma writeFile_calls deployType dest workflowBytes (tw : W) :
  In deployType cmd.deployTypes ->
  exists destPath,
    (cmdEnv.writeFile Join deployType dest workflowBytes tw).1
    = match templatewriter.EnsureDirectory destPath tw with
      | (tw1, Some _) => tw1
      | (tw1, None) => (templatewriter.WriteFile destPath workflowBytes tw1).1
      end.
Proof.
  intros Hin. unfold cmdEnv.writeFile.
  assert (Hpath : exists destPath,
             (if String.eqb deployType "helm"
              then Some (Join dest ".github/workflows/azure-kubernetes-service-helm.yml")
              else if String.eqb deployType "kustomize"
              then Some (Join dest ".github/workflows/azure-kubernetes-service-kustomize.yml")
              else if String.eqb deployType "manifests"
              then Some (Join dest ".github/workflows/azure-kubernetes-service.yml")
              else None) = Some destPath).
  { destruct Hin as [<- | [<- | [<- | []]]]; eexists; reflexivity. }
  destruct Hpath as [destPath Hpath]. cbv zeta. rewrite Hpath.
  exists destPath.
  destruct (templatewriter.EnsureDirectory destPath tw) as [tw1 [err | ]];
    [ reflexivity | ].
  destruct (templatewriter.WriteFile destPath workflowBytes tw1) as [tw2 [err | ]];
    reflexivity.
Qed.

Lemma createFlagMap_result nflag we flagVariables :
  (exists err, (cmd.createFlagMap nflag we flagVariables).2 = (None, Some err))
  \/ (exists m, (cmd.createFlagMap nflag we flagVariables).2 = (Some m, nil_error)).
Proof.
  unfold cmd.createFlagMap.
  destruct (cmd.setFlagVariables flagVariables _) as [m [err | ]];
    [ left | right ]; eexists; reflexivity.
Qed.

(** The stages of a run of the [RunE] closure. *)
Lemma cmdEnv_RunE_stages nflag we dest dt flagVariables (tw : W) t :
  let filled := workflows.FillWorkflowEnv we in
  let run := cmdEnv.RunE Join ReplaceTemplateVariables CheckAllVariablesSubstituted
               nflag we dest dt flagVariables tw t in
  (run.2 <> nil_error /\ cmdEnv.writer run.1 = tw)
  \/ exists m t1 t2 inputs workflowBytes,
       (cmd.createFlagMap nflag filled flagVariables).2 = (Some m, nil_error)
       /\ cmdEnv.promptDeployType dt t = (t1, (cmdEnv.deployType run.1, nil_error))
       /\ prompts.RunPromptsForDeployTypeWithSkipsIO filled (cmdEnv.deployType run.1)
            (cmd.Keys m) t1 = (t2, (Some inputs, nil_error))
       /\ cmdEnv.GenerateWorkflowBytes ReplaceTemplateVariables
            CheckAllVariablesSubstituted (cmdEnv.deployType run.1) m
          = (workflowBytes, nil_error)
       /\ run = (cmdEnv.mkAfter filled (cmdEnv.deployType run.1) t2
                   (cmdEnv.writeFile Join (cmdEnv.deployType run.1) dest workflowBytes tw).1,
                 nil_error).
Proof.
  cbv zeta. unfold cmdEnv.RunE.
  destruct (createFlagMap_result nflag (workflows.FillWorkflowEnv we) flagVariables)
    as [[err Hmap] | [m Hmap]];
    destruct (cmd.createFlagMap nflag (workflows.FillWorkflowEnv we) flagVariables)
      as [shared [flagValuesMap err']]; cbn [snd] in Hmap;
    injection Hmap as -> ->.
  { left. cbn [fst snd cmdEnv.writer]. split; [ discriminate | reflexivity ]. }
  unfold nil_error. change (default ∅ (Some m)) with m.
  destruct (cmdEnv.promptDeployType dt t) as [t1 [dt1 [err | ]]] eqn:Hdeploy.
  { left. cbn [fst snd cmdEnv.writer]. split; [ discriminate | reflexivity ]. }
  destruct (prompts.RunPromptsForDeployTypeWithSkipsIO (workflows.FillWorkflowEnv we) dt1
              (cmd.Keys m) t1) as [t2 [[inputs | ] [err | ]]] eqn:Hprompts;
    try (left; cbn [fst snd cmdEnv.writer]; split; [ discriminate | reflexivity ]).
  destruct (cmdEnv.GenerateWorkflowBytes ReplaceTemplateVariables
              CheckAllVariablesSubstituted dt1 m) as [workflowBytes [err | ]] eqn:Hbytes.
  { left. cbn [fst snd cmdEnv.writer]. split; [ discriminate | reflexivity ]. }
  right. exists m, t1, t2, inputs, workflowBytes.
  destruct (cmdEnv.writeFile Join dt1 dest workflowBytes tw) as [tw' err] eqn:Hwrite.
  cbn [fst snd cmdEnv.deployType]. rewrite Hprompts, Hbytes, Hwrite.
  repeat split; reflexivity.
Qed.
End EnvCommand.

(** X16.  The [RunE] closure does not look at what [writeFile] returns:
    the error it returns, the terminal, the deploy type and the filled
    environment it leaves are the same whatever the writer is and does,
    so a writer that refuses the file goes unnoticed; and a run that
    returns an error has not called the writer. *)
Theorem RunE_outcome_ignores_the_writer :
  forall (W1 W2 : Type) (writer1 : templatewriter.TemplateWriter W1)
         (writer2 : templatewriter.TemplateWriter W2)
         (Join : string -> string -> string)
         (ReplaceTemplateVariables : string -> gmap string string -> string * error)
         (CheckAllVariablesSubstituted : string -> error)
         (nflag : nat) (we : workflows.WorkflowEnv) (dest dt : string)
         (flagVariables : list string) (tw1 : W1) (tw2 : W2) (t : promptui.terminal),
    let run1 := cmdEnv.RunE (H := writer1) Join ReplaceTemplateVariables
                  CheckAllVariablesSubstituted nflag we dest dt flagVariables tw1 t in
    let run2 := cmdEnv.RunE (H := writer2) Join ReplaceTemplateVariables
                  CheckAllVariablesSubstituted nflag we dest dt flagVariables tw2 t in
    run1.2 = run2.2
    /\ cmdEnv.term run1.1 = cmdEnv.term run2.1
    /\ cmdEnv.deployType run1.1 = cmdEnv.deployType run2.1
    /\ cmdEnv.workflowEnv run1.1 = cmdEnv.workflowEnv run2.1
    /\ (run1.2 <> nil_error -> cmdEnv.writer run1.1 = tw1).
Proof.
  intros W1 W2 writer1 writer2 Join ReplaceTemplateVariables CheckAllVariablesSubstituted
         nflag we dest dt flagVariables tw1 tw2 t. cbv zeta.
  split; [ | split; [ | split; [ | split ] ] ].
  5: { intros Herr.
       destruct (cmdEnv_RunE_stages (H := writer1) Join ReplaceTemplateVariables
                   CheckAllVariablesSubstituted nflag we dest dt flagVariables tw1 t)
         as [[_ Hsame] | (m & t1 & t2 & inputs & bytes & _ & _ & _ & _ & Hrun)];
         [ exact Hsame | ].
       rewrite Hrun in Herr. contradiction Herr. reflexivity. }
  all: unfold cmdEnv.RunE;
    destruct (cmd.createFlagMap nflag (workflows.FillWorkflowEnv we) flagVariables)
      as [shared [flagValuesMap [err | ]]]; [ reflexivity | ];
    destruct (cmdEnv.promptDeployType dt t) as [t1 [dt1 [err | ]]]; [ reflexivity | ];
    destruct (prompts.RunPromptsForDeployTypeWithSkipsIO (workflows.FillWorkflowEnv we) dt1
                (cmd.Keys (default ∅ flagValuesMap)) t1)
      as [t2 [[inputs | ] [err | ]]]; try reflexivity;
    destruct (cmdEnv.GenerateWorkflowBytes ReplaceTemplateVariables
                CheckAllVariablesSubstituted dt1 (default ∅ flagValuesMap))
      as [workflowBytes [err | ]]; [ reflexivity | ];
    destruct (cmdEnv.writeFile (H := writer1) Join dt1 dest workflowBytes tw1);
    destruct (cmdEnv.writeFile (H := writer2) Join dt1 dest workflowBytes tw2);
    reflexivity.
Qed.

Lemma RunE_outcome_ignores_the_writer_witness :
  cmdEnv.writer
    (cmdEnv.RunE (H := sample.recorder) sample.join sample.fixedBytes sample.allSubstituted
       0 sample.emptyEnv "." "helm" ["PORT"] [] sample.silent).1 = [].
Proof.
  apply (proj2 (proj2 (proj2 (proj2
           (RunE_outcome_ignores_the_writer (list string) (list string)
              sample.recorder sample.recorder
              sample.join sample.fixedBytes sample.allSubstituted
              0 sample.emptyEnv "." "helm" ["PORT"] [] [] sample.silent))))).
  vm_compute. discriminate.
Defined.

(** X17.  What the user answers at the prompts does not reach the
    workflow file: the bytes are generated from the flag values alone.
    Two successful runs that differ only in what is typed, and end with
    the same deploy type, leave the writer in the same state. *)
Theorem answers_never_reach_the_workflow_file :
  forall (W : Type) (writer : templatewriter.TemplateWriter W)
         (Join : string -> string -> string)
         (ReplaceTemplateVariables : string -> gmap string string -> string * error)
         (CheckAllVariablesSubstituted : string -> error)
         (nflag : nat) (we : workflows.WorkflowEnv) (dest dt : string)
         (flagVariables : list string) (tw : W) (t t' : promptui.terminal),
    let run := cmdEnv.RunE (H := writer) Join ReplaceTemplateVariables
                 CheckAllVariablesSubstituted nflag we dest dt flagVariables tw t in
    let run' := cmdEnv.RunE (H := writer) Join ReplaceTemplateVariables
                  CheckAllVariablesSubstituted nflag we dest dt flagVariables tw t' in
    run.2 = nil_error -> run'.2 = nil_error ->
    cmdEnv.deployType run.1 = cmdEnv.deployType run'.1 ->
    cmdEnv.writer run.1 = cmdEnv.writer run'.1.
Proof.
  intros W writer Join ReplaceTemplateVariables CheckAllVariablesSubstituted
         nflag we dest dt flagVariables tw t t'. cbv zeta. intros Hok Hok' Hsame.
  destruct (cmdEnv_RunE_stages (H := writer) Join ReplaceTemplateVariables
              CheckAllVariablesSubstituted nflag we dest dt flagVariables tw t)
    as [[Herr _] | (m & t1 & t2 & inputs & bytes & Hmap & _ & _ & Hbytes & Hrun)];
    [ contradiction | ].
  destruct (cmdEnv_RunE_stages (H := writer) Join ReplaceTemplateVariables
              CheckAllVariablesSubstituted nflag we dest dt flagVariables tw t')
    as [[Herr _] | (m' & t1' & t2' & inputs' & bytes' & Hmap' & _ & _ & Hbytes' & Hrun')];
    [ contradiction | ].
  cbv zeta in Hmap, Hmap'. rewrite Hmap in Hmap'. injection Hmap' as <-.
  rewrite <- Hsame in Hbytes', Hrun'. rewrite Hbytes in Hbytes'. injection Hbytes' as <-.
  rewrite Hrun' at 1. rewrite Hrun at 1. reflexivity.
Qed.

Lemma answers_never_reach_the_workflow_file_witness :
  cmdEnv.writer
    (cmdEnv.RunE (H := sample.recorder) sample.join sample.fixedBytes sample.allSubstituted
       0 sample.emptyEnv "." "helm" [] [] (sample.typed "mine" 7)).1
  = cmdEnv.writer
      (cmdEnv.RunE (H := sample.recorder) sample.join sample.fixedBytes sample.allSubstituted
         0 sample.emptyEnv "." "helm" [] [] (sample.typed "yours" 7)).1.
Proof.
  apply (answers_never_reach_the_workflow_file (list string) sample.recorder
           sample.join sample.fixedBytes sample.allSubstituted
           0 sample.emptyEnv "." "helm" [] [] (sample.typed "mine" 7)
           (sample.typed "yours" 7)).
  - vm_compute. reflexivity.
  - vm_compute. reflexivity.
  - vm_compute. reflexivity.
Defined.

(** X18.  [promptDeployType] hands on a deploy type given on the command
    line without looking at it, but the closure succeeds only for helm,
    kustomize or manifests; so [writeFile] never meets an unsupported
    type there, and the writer has received one call to ensure a
    directory and, if that was accepted, one call to write the file, at
    that same path. *)
Theorem successful_run_has_a_supported_deploy_type :
  forall (W : Type) (writer : templatewriter.TemplateWriter W)
         (Join : string -> string -> string)
         (ReplaceTemplateVariables : string -> gmap string string -> string * error)
         (CheckAllVariablesSubstituted : string -> error)
         (nflag : nat) (we : workflows.WorkflowEnv) (dest dt : string)
         (flagVariables : list string) (tw : W) (t : promptui.terminal),
    let run := cmdEnv.RunE (H := writer) Join ReplaceTemplateVariables
                 CheckAllVariablesSubstituted nflag we dest dt flagVariables tw t in
    run.2 = nil_error ->
    In (cmdEnv.deployType run.1) ["helm"; "kustomize"; "manifests"]
    /\ (dt <> "" -> cmdEnv.deployType run.1 = dt)
    /\ exists destPath workflowBytes,
         cmdEnv.writer run.1
         = match templatewriter.EnsureDirectory destPath tw with
           | (tw1, Some _) => tw1
           | (tw1, None) => (templatewriter.WriteFile destPath workflowBytes tw1).1
           end.
Proof.
  intros W writer Join ReplaceTemplateVariables CheckAllVariablesSubstituted
         nflag we dest dt flagVariables tw t. cbv zeta. intros Hok.
  destruct (cmdEnv_RunE_stages (H := writer) Join ReplaceTemplateVariables
              CheckAllVariablesSubstituted nflag we dest dt flagVariables tw t)
    as [[Herr _] | (m & t1 & t2 & inputs & bytes & _ & Hdeploy & _ & Hbytes & Hrun)];
    [ contradiction | ].
  pose proof (GenerateWorkflowBytes_supported _ _ _ _ _ Hbytes) as Hin.
  split; [ exact Hin | split ].
  - intros Hgiven. unfold cmdEnv.promptDeployType in Hdeploy.
    destruct (String.eqb_spec dt "") as [-> | _]; [ contradiction | ].
    injection Hdeploy as _ Hdt. symmetry. exact Hdt.
  - destruct (writeFile_calls (H := writer) Join _ dest bytes tw Hin) as [destPath Hcalls].
    exists destPath, bytes. rewrite Hrun at 1. cbn [fst cmdEnv.writer]. exact Hcalls.
Qed.

Lemma successful_run_has_a_supported_deploy_type_witness :
  In (cmdEnv.deployType
        (cmdEnv.RunE (H := sample.recorder) sample.join sample.fixedBytes
           sample.allSubstituted 0 sample.emptyEnv "." "kustomize" [] []
           (sample.typed "mine" 7)).1)
     ["helm"; "kustomize"; "manifests"].
Proof.
  apply (successful_run_has_a_supported_deploy_type (list string) sample.recorder
           sample.join sample.fixedBytes sample.allSubstituted
           0 sample.emptyEnv "." "kustomize" [] [] (sample.typed "mine" 7)).
  vm_compute. reflexivity.
Defined.

(** ** The command whose flags fill a WorkflowConfig *)

Section ConfigCommand.
Import config prompts promptui.

Lemma RunPromptsFromConfigWithSkips_stdout cfg varsToSkip t :
  exists shown,
    stdout (RunPromptsFromConfigWithSkips cfg varsToSkip t).1 = (stdout t ++ shown)%list
    /\ Forall (asked_for (Variables cfg) (list_to_set varsToSkip)) shown.
Proof.
  unfold RunPromptsFromConfigWithSkips, RunPromptsFromConfigWithSkipsIO.
  pose proof (promptEach_stdout (VariableDefaults cfg) (list_to_set varsToSkip)
                (Variables cfg) ∅ t) as Hshown.
  destruct (promptEach _ _ _ ∅ t) as [t' [inputs | err]]; exact Hshown.
Qed.

Lemma Keys_dom (m : gmap string string) : list_to_set (cmd.Keys m) = dom m.
Proof. unfold cmd.Keys. apply list_to_set_elements_L. Qed.
End ConfigCommand.

(** X19.  [generateWorkflows] asks for no variable that the flag values
    map holds once the override strings are in it.  Everything it shows
    is the deploy-type selection or the prompt of a variable of a
    configuration that [GetConfig] returned, whose name is no key of
    that map; and with a deploy type given on the command line there is
    no selection, and the configuration is the one of that type. *)
Theorem flagged_variables_are_not_prompted :
  forall (W : Type)
         (GetConfig : string -> string -> config.DraftConfig + string)
         (CreateWorkflowFiles : string -> string -> gmap string string -> W -> W * error)
         (dest deployType : string) (flagVariables : list string)
         (templateWriter : W) (m0 : gmap string string) (t : promptui.terminal),
    let run := cmd.generateWorkflows GetConfig CreateWorkflowFiles dest deployType
                 flagVariables templateWriter (Some m0) t in
    let m := (cmd.setFlagVariables flagVariables m0).1 in
    exists shown,
      promptui.stdout (cmd.term run.1) = (promptui.stdout t ++ shown)%list
      /\ Forall (fun label =>
                   label = "Select k8s Deployment Type"
                   \/ exists deployType' cfg,
                        GetConfig dest deployType' = inl cfg
                        /\ asked_for (config.Variables cfg) (dom m) label) shown
      /\ (deployType <> "" ->
          Forall (fun label =>
                    exists cfg,
                      GetConfig dest deployType = inl cfg
                      /\ asked_for (config.Variables cfg) (dom m) label) shown).
Proof.
  intros W GetConfig CreateWorkflowFiles dest deployType flagVariables templateWriter
         m0 t. cbv zeta. unfold cmd.generateWorkflows.
  assert (Hnone : exists shown : list string,
             promptui.stdout t = (promptui.stdout t ++ shown)%list
             /\ Forall (fun label =>
                          label = "Select k8s Deployment Type"
                          \/ exists deployType' cfg,
                               GetConfig dest deployType' = inl cfg
                               /\ asked_for (config.Variables cfg)
                                    (dom (cmd.setFlagVariables flagVariables m0).1) label)
                  shown
             /\ (deployType <> "" ->
                 Forall (fun label =>
                           exists cfg,
                             GetConfig dest deployType = inl cfg
                             /\ asked_for (config.Variables cfg)
                                  (dom (cmd.setFlagVariables flagVariables m0).1) label)
                   shown)).
  { exists []. split; [ by rewrite app_nil_r | ]. split; [ constructor | ].
    intros _. constructor. }
  destruct (cmd.setFlagVariables flagVariables m0) as [m [err | ]];
    cbn [fst snd cmd.term] in *; [ exact Hnone | ].
  destruct (String.eqb_spec deployType "") as [Hempty | Hgiven].
  - (* the deploy type is selected *)
    pose proof (SelectRun_stdout "Select k8s Deployment Type" cmd.deployTypes t) as Hsel.
    destruct (promptui.SelectRun "Select k8s Deployment Type" cmd.deployTypes t)
      as [t1 [deployType' [err | ]]]; cbn [fst snd cmd.term] in *.
    { exists ["Select k8s Deployment Type"]. split; [ exact Hsel | ].
      split; [ | intros Hne; contradiction ].
      constructor; [ left; reflexivity | constructor ]. }
    destruct (GetConfig dest deployType') as [cfg | err] eqn:Hcfg; cbn [fst snd cmd.term].
    2: { exists ["Select k8s Deployment Type"]. split; [ exact Hsel | ].
         split; [ | intros Hne; contradiction ].
         constructor; [ left; reflexivity | constructor ]. }
    destruct (RunPromptsFromConfigWithSkips_stdout cfg (cmd.Keys m) t1)
      as (shown & Hshown & Hasked).
    rewrite Keys_dom in Hasked. rewrite Hsel in Hshown.
    assert (Hterm : promptui.stdout
                      (prompts.RunPromptsFromConfigWithSkips cfg (cmd.Keys m) t1).1
                    = (promptui.stdout t ++ "Select k8s Deployment Type" :: shown)%list).
    { rewrite Hshown. rewrite <- app_assoc. reflexivity. }
    exists ("Select k8s Deployment Type" :: shown).
    split; [ | split; [ | intros Hne; contradiction ] ].
    + destruct (prompts.RunPromptsFromConfigWithSkips cfg (cmd.Keys m) t1)
        as [t2 [[customInputs | ] [err | ]]]; cbn [fst] in Hterm;
        try exact Hterm.
      destruct (CreateWorkflowFiles dest deployType' _ templateWriter). exact Hterm.
    + constructor; [ left; reflexivity | ].
      eapply Forall_impl; [ exact Hasked | ].
      intros label Hlabel. right. exists deployType', cfg. split; assumption.
  - (* the deploy type is given *)
    cbn [fst snd cmd.term].
    destruct (GetConfig dest deployType) as [cfg | err] eqn:Hcfg; cbn [fst snd cmd.term];
      [ | exact Hnone ].
    destruct (RunPromptsFromConfigWithSkips_stdout cfg (cmd.Keys m) t)
      as (shown & Hshown & Hasked).
    rewrite Keys_dom in Hasked.
    exists shown. split; [ | split ].
    + destruct (prompts.RunPromptsFromConfigWithSkips cfg (cmd.Keys m) t)
        as [t2 [[customInputs | ] [err | ]]]; cbn [fst] in Hshown;
        try exact Hshown.
      destruct (CreateWorkflowFiles dest deployType _ templateWriter). exact Hshown.
    + eapply Forall_impl; [ exact Hasked | ].
      intros label Hlabel. right. exists deployType, cfg. split; assumption.
    + intros _. eapply Forall_impl; [ exact Hasked | ].
      intros label Hlabel. exists cfg. split; [ reflexivity | assumption ].
Qed.

Lemma flagged_variables_are_not_prompted_witness :
  let run := cmd.generateWorkflows (W := unit) (fun _ _ => inl sample.defaulted)
               (fun _ _ _ w => (w, nil_error)) "." "helm" ["A=1"] tt (Some ∅)
               (sample.typed "mine" 1) in
  exists shown,
    promptui.stdout (cmd.term run.1)
    = (promptui.stdout (sample.typed "mine" 1) ++ shown)%list
    /\ Forall (fun label =>
                 exists cfg,
                   (inl sample.defaulted : config.DraftConfig + string) = inl cfg
                   /\ asked_for (config.Variables cfg)
                        (dom (cmd.setFlagVariables ["A=1"] ∅).1) label) shown.
Proof.
  destruct (flagged_variables_are_not_prompted unit (fun _ _ => inl sample.defaulted)
              (fun _ _ _ w => (w, nil_error)) "." "helm" ["A=1"] tt ∅
              (sample.typed "mine" 1)) as (shown & Hshown & _ & Hgiven).
  exists shown. split; [ exact Hshown | ].
  apply Hgiven. discriminate.
Defined.

(** ** A successful copy leaves no template out *)

Section EveryFile.
Import osutil.
Context {W : Type} `{TemplateWriter W}.
Variable cfg : option config.DraftConfig.
Variable customInputs : list (string * string).

Lemma CopyDir_log_grows src dest (tw : list call * W) :
  exists calls, (CopyDir cfg customInputs src dest tw).1.1 = (tw.1 ++ calls)%list.
Proof.
  destruct (CopyDir_traced cfg customInputs src dest tw) as (calls & Hcalls & _).
  exists calls. exact Hcalls.
Qed.

Lemma copyEntries_log_grows dest fs (tw : list call * W) :
  exists calls,
    (copyEntries cfg customInputs (fun f d t => CopyDir cfg customInputs f d t)
       dest fs tw).1.1 = (tw.1 ++ calls)%list.
Proof.
  destruct (copyEntries_traced cfg customInputs "" fs dest fs) with (tw := tw)
    as (calls & Hcalls & _).
  - intros x Hx. exact Hx.
  - apply Forall_forall. intros f _ d tw'. apply CopyDir_traced.
  - exists calls. exact Hcalls.
Qed.

Lemma copyEntries_complete n dest fs :
  Forall (fun f => forall d (tw : list call * W),
            (CopyDir cfg customInputs f d tw).2 = nil_error ->
            forall dir name content,
              located (prune f) d dir name content ->
              In (WriteFileCall (dir +:+ "/" +:+ checkNameOverrides name cfg)
                    (replaceEach customInputs content) 420%N)
                 (CopyDir cfg customInputs f d tw).1.1) fs ->
  forall tw : list call * W,
    (copyEntries cfg customInputs (fun f d t => CopyDir cfg customInputs f d t)
       dest fs tw).2 = nil_error ->
    forall dir name content,
      located (Dir n (pruneEntries (fun f => prune f) fs)) dest dir name content ->
      In (WriteFileCall (dir +:+ "/" +:+ checkNameOverrides name cfg)
            (replaceEach customInputs content) 420%N)
         (copyEntries cfg customInputs (fun f d t => CopyDir cfg customInputs f d t)
            dest fs tw).1.1.
Proof.
  induction 1 as [| f fs Hf _ IH]; intros tw Hok dir name content Hloc.
  - cbn [pruneEntries] in Hloc.
    inversion Hloc as [? ? ? ? ? Hin | ? ? ? ? ? ? ? Hin _]; destruct Hin.
  - cbn [pruneEntries] in Hloc. fold reserved in Hloc.
    cbn [copyEntries] in Hok |- *.
    destruct (String.eqb (Name f) reserved) eqn:Hres; [ apply IH; assumption | ].
    assert (Hcases :
              located (Dir n (pruneEntries (fun f => prune f) fs)) dest dir name content
              \/ (prune f = File name content /\ dir = dest)
              \/ located (prune f) (dest +:+ "/" +:+ Name f) dir name content).
    { inversion Hloc as [n' ch d' nm dt Hin | n' ch sub d' dr nm dt Hin Hsub]; subst.
      - destruct Hin as [Heq | Hin].
        + right. left. split; [ exact Heq | reflexivity ].
        + left. apply located_here. exact Hin.
      - destruct Hin as [<- | Hin].
        + right. right. rewrite prune_Name in Hsub. exact Hsub.
        + left. eapply located_below; eassumption. }
    clear Hloc.
    destruct (IsDir f) eqn:Hdir.
    + destruct tw as [log w]. cbn [EnsureDirectory TracedWriter fst snd] in Hok |- *.
      destruct (EnsureDirectory (dest +:+ "/" +:+ Name f) w) as [w1 [err | ]];
        [ discriminate Hok | ].
      specialize (Hf (dest +:+ "/" +:+ Name f)
                     ((log ++ [EnsureDirectoryCall (dest +:+ "/" +:+ Name f)])%list, w1)).
      destruct (CopyDir cfg customInputs f (dest +:+ "/" +:+ Name f)
                  ((log ++ [EnsureDirectoryCall (dest +:+ "/" +:+ Name f)])%list, w1))
        as [tw2 [err | ]]; [ discriminate Hok | ].
      destruct Hcases as [Hrest | [[Hfile _] | Hbelow]].
      * apply IH; assumption.
      * rewrite <- prune_IsDir, Hfile in Hdir. discriminate Hdir.
      * destruct (copyEntries_log_grows dest fs tw2) as [calls ->].
        apply in_or_app. left. apply (Hf eq_refl dir name content Hbelow).
    + destruct f as [name0 data0 | name0 sub | name0 isDir err]; cbn [IsDir] in Hdir;
        try discriminate Hdir; subst;
        cbn [handleTemplateReplacement ReadFile nil_error] in Hok |- *;
        [ | discriminate Hok ].
      cbn [Name] in *.
      destruct tw as [log w]. cbn [WriteFile TracedWriter fst snd] in Hok |- *.
      destruct (WriteFile (dest +:+ "/" +:+ checkNameOverrides name0 cfg)
                  (replaceEach customInputs data0) 420%N w) as [w1 [err | ]];
        [ discriminate Hok | ].
      destruct Hcases as [Hrest | [[Hfile ->] | Hbelow]].
      * apply IH; assumption.
      * cbn [prune] in Hfile. injection Hfile as -> ->.
        match goal with
        | |- In _ (copyEntries _ _ _ _ _ ?t).1.1 =>
            destruct (copyEntries_log_grows dest fs t) as [calls ->]
        end.
        apply in_or_app. left. cbn [fst]. apply in_or_app. right. left. reflexivity.
      * cbn [prune] in Hbelow. inversion Hbelow.
Qed.

Lemma CopyDir_complete src :
  forall dest (tw : list call * W),
    (CopyDir cfg customInputs src dest tw).2 = nil_error ->
    forall dir name content,
      located (prune src) dest dir name content ->
      In (WriteFileCall (dir +:+ "/" +:+ checkNameOverrides name cfg)
            (replaceEach customInputs content) 420%N)
         (CopyDir cfg customInputs src dest tw).1.1.
Proof.
  induction src as [n d | n children IH | n b e] using entry_ind;
    intros dest tw Hok dir name content Hloc.
  - inversion Hloc.
  - cbn [CopyDir prune] in *. eapply copyEntries_complete; eassumption.
  - inversion Hloc.
Qed.
End EveryFile.

(** X20.  A [CopyDir] that returns no error has left no template out:
    every file of the tree that is not named draft.yaml and lies in no
    directory of that name has been handed to the writer, at its
    destination path under the name override of the configuration, with
    the variables replaced in its content and with mode 0644. *)
Theorem successful_copy_writes_every_template :
  forall (W : Type) (writer : osutil.TemplateWriter W)
         (cfg : option config.DraftConfig) (customInputs : list (string * string))
         (src : osutil.entry) (dest : string) (tw : list osutil.call * W),
    let run := osutil.CopyDir (H := @osutil.TracedWriter W writer)
                 cfg customInputs src dest tw in
    run.2 = nil_error ->
    forall dir name content,
      located (prune src) dest dir name content ->
      In (osutil.WriteFileCall (dir +:+ "/" +:+ osutil.checkNameOverrides name cfg)
            (osutil.replaceEach customInputs content) 420%N) run.1.1.
Proof.
  intros W writer cfg customInputs src dest tw run Hok dir name content Hloc.
  apply (CopyDir_complete (H := writer) cfg customInputs src dest tw Hok dir name content
           Hloc).
Qed.

Lemma successful_copy_writes_every_template_witness :
  In (osutil.WriteFileCall "out/sub/b.txt" "B" 420%N)
     (osutil.CopyDir (H := @osutil.TracedWriter unit osutil.NullWriter)
        None sample.port8080 sample.template "out" ([], tt)).1.1.
Proof.
  apply (successful_copy_writes_every_template unit osutil.NullWriter
           None sample.port8080 sample.template "out" ([], tt) eq_refl
           "out/sub" "b.txt" "B").
  eapply located_below with (sub := osutil.Dir "sub" [osutil.File "b.txt" "B"]).
  - right. left. reflexivity.
  - apply located_here. left. reflexivity.
Defined.
